(** * fetch_prices.py : quote extraction and multi-source reconciliation

    A shallow embedding of [src/fetch_prices.py] and the properties of its
    quote parser ([parse_quotes]) and retrieval loop ([main]).

    Modelling conventions.
    - A Python [str] is a [string]; its characters are the ASCII code
      points.  Character-level work is done on [list ascii] ([chars] and
      [str] convert).  Codes above 127 stand for no character of the
      modelled texts: they are neither whitespace, digits nor letters and
      [upper] leaves them alone.
    - A [dict] is a [gmap string _], a [set] a [gset string]: the program
      never observes the insertion order of its dictionaries (it only
      looks keys up and takes [len]).
    - A [float] read by [float(...)] is the exact rational its decimal
      text denotes ([Q], reduced); rounding to binary64 is not modelled.
    - Exceptions are values: a fallible call returns [exn + _].
    - The outside world (HTTP, pdfplumber, the clock, the environment,
      the watchlist file) is an explicit argument. *)

From Stdlib Require Import ZArith QArith Ascii String DecimalString.
From stdpp Require Import gmap strings list sorting.

Local Open Scope Z_scope.
Local Open Scope string_scope.
Local Open Scope list_scope.

(** ** Characters *)

Definition chars : string -> list ascii := list_ascii_of_string.
Definition str : list ascii -> string := string_of_list_ascii.

Definition code (c : ascii) : N := N_of_ascii c.

Definition between (lo hi : N) (c : ascii) : bool :=
  (N.leb lo (code c) && N.leb (code c) hi)%bool.

(** [str.isspace] on ASCII, which is also what [\s] matches in a [str]
    pattern: TAB, LF, VT, FF, CR, FS, GS, RS, US and the space. *)
Definition is_space (c : ascii) : bool :=
  (between 9 13 c || between 28 32 c)%bool.

(** [\d] on ASCII. *)
Definition is_digit (c : ascii) : bool := between 48 57 c.

Definition is_lower (c : ascii) : bool := between 97 122 c.
Definition is_upper (c : ascii) : bool := between 65 90 c.

(** [\w] on ASCII: letters, digits and the underscore. *)
Definition is_word (c : ascii) : bool :=
  (is_digit c || is_lower c || is_upper c || N.eqb (code c) 95)%bool.

(** The line boundaries of [str.splitlines] on ASCII:
    LF, VT, FF, CR, FS, GS, RS (US is whitespace but no boundary). *)
Definition is_linebreak (c : ascii) : bool :=
  (between 10 13 c || between 28 30 c)%bool.

Definition upper_char (c : ascii) : ascii :=
  if is_lower c then ascii_of_N (code c - 32) else c.

Definition digit_val (c : ascii) : Z := Z.of_N (code c) - 48.

(** ** The [str] methods the program uses *)

Fixpoint drop_while (p : ascii -> bool) (l : list ascii) : list ascii :=
  match l with
  | [] => []
  | c :: l' => if p c then drop_while p l' else l
  end.

Definition lstrip_by (p : ascii -> bool) (l : list ascii) : list ascii :=
  drop_while p l.

Definition rstrip_by (p : ascii -> bool) (l : list ascii) : list ascii :=
  rev (drop_while p (rev l)).

(** [s.strip()] *)
Definition strip (s : string) : string :=
  str (lstrip_by is_space (rstrip_by is_space (chars s))).

(** [s.upper()] *)
Definition upper (s : string) : string := str (map upper_char (chars s)).

Definition in_chars (set : string) (c : ascii) : bool :=
  existsb (Ascii.eqb c) (chars set).

(** [s.rstrip(set)] *)
Definition rstrip (set : string) (s : string) : string :=
  str (rstrip_by (in_chars set) (chars s)).

(** [s.startswith(p)] *)
Definition startswith (p s : string) : bool := String.prefix p s.

Definition not_comma (c : ascii) : bool := negb (Ascii.eqb c ",").

(** [s.replace(",", "")] *)
Definition remove_commas (s : string) : string :=
  str (List.filter not_comma (chars s)).

(** [sep.join(l)] *)
Fixpoint join (sep : string) (l : list string) : string :=
  match l with
  | [] => ""
  | [s] => s
  | s :: l' => s ++ sep ++ join sep l'
  end.

(** [s.splitlines()]: a boundary ends the current line, CR LF counts as
    one boundary, and no empty line is produced after a final boundary. *)
Fixpoint splitlines_go (cur : list ascii) (l : list ascii) : list string :=
  match l with
  | [] => match cur with [] => [] | _ => [str (rev cur)] end
  | c :: l' =>
      if is_linebreak c then
        str (rev cur) ::
          match l' with
          | d :: l'' =>
              if (Ascii.eqb c "013" && Ascii.eqb d "010")%bool
              then splitlines_go [] l''
              else splitlines_go [] l'
          | [] => splitlines_go [] l'
          end
      else splitlines_go (c :: cur) l'
  end.

Definition splitlines (s : string) : list string := splitlines_go [] (chars s).

(** [re.split(r"\s+", s)]: the pieces between maximal runs of whitespace,
    including the empty pieces before a leading and after a trailing run. *)
Fixpoint re_split_ws_go (in_ws : bool) (cur : list ascii) (l : list ascii)
  : list string :=
  match l with
  | [] => [str (rev cur)]
  | c :: l' =>
      if is_space c then
        if in_ws then re_split_ws_go true [] l'
        else str (rev cur) :: re_split_ws_go true [] l'
      else re_split_ws_go false (c :: cur) l'
  end.

Definition re_split_ws (s : string) : list string :=
  re_split_ws_go false [] (chars s).

(** Truthiness of a [str]. *)
Definition nonempty (s : string) : bool :=
  match s with "" => false | _ => true end.

(** [x or y] on strings. *)
Definition str_or (x y : string) : string := if nonempty x then x else y.

(** ** Regular expressions

    The three patterns of the program use literals, an alternation of
    literals, greedy repetitions of a character class, [\b], [^] and [$].
    [re] is a backtracking matcher: at a position it explores the
    alternatives depth first, a greedy repetition trying its longest run
    first, and keeps the first success.  [run] lists every success in
    that order, so the match is the head of the list. *)
Module Re.

Inductive item : Type :=
| Lit (s : list ascii)                  (* the literal s *)
| OneOf (alts : list (list ascii))      (* (s1|s2|...) *)
| Rep (cls : ascii -> bool) (lo : nat) (hi : option nat)
                                        (* cls{lo,hi}; cls{lo,} when hi is None *)
| WordB                                 (* \b *)
| Bos                                   (* ^ *)
| Eos.                                  (* $ *)

(** A position in the subject: the text before it (reversed) and the
    text after it. *)
Definition pos : Type := list ascii * list ascii.

Fixpoint eat (s : list ascii) (p : pos) : option pos :=
  match s with
  | [] => Some p
  | c :: s' =>
      match p with
      | (l, d :: r) => if Ascii.eqb c d then eat s' (d :: l, r) else None
      | (_, []) => None
      end
  end.

Definition hi_allows (hi : option nat) : bool :=
  match hi with Some O => false | _ => true end.

Definition hi_pred (hi : option nat) : option nat :=
  match hi with Some n => Some (Nat.pred n) | None => None end.

(** Every way to take between [lo] and [hi] characters of the class,
    the longest first. *)
Fixpoint reps (cls : ascii -> bool) (lo : nat) (hi : option nat)
    (l r : list ascii) : list pos :=
  let stay := match lo with O => [(l, r)] | S _ => [] end in
  match r with
  | c :: r' =>
      if (cls c && hi_allows hi)%bool
      then reps cls (Nat.pred lo) (hi_pred hi) (c :: l) r' ++ stay
      else stay
  | [] => stay
  end.

Definition word_at (o : option ascii) : bool :=
  match o with Some c => is_word c | None => false end.

Definition step (it : item) (p : pos) : list pos :=
  match it with
  | Lit s => option_list (eat s p)
  | OneOf alts => flat_map (fun s => option_list (eat s p)) alts
  | Rep cls lo hi => reps cls lo hi p.1 p.2
  | WordB =>
      if xorb (word_at (head p.1)) (word_at (head p.2)) then [p] else []
  | Bos => match p.1 with [] => [p] | _ => [] end
  | Eos =>
      match p.2 with
      | [] => [p]
      | [c] => if Ascii.eqb c "010" then [p] else []
      | _ => []
      end
  end.

Fixpoint run (re : list item) (p : pos) : list pos :=
  match re with
  | [] => [p]
  | it :: re' => flat_map (run re') (step it p)
  end.

(** The text matched between a start and an end position. *)
Definition matched (p q : pos) : list ascii :=
  take (length p.2 - length q.2)%nat p.2.

(** [pattern.match(s)]: a match at the start of [s]; [group(0)]. *)
Definition match_ (re : list item) (s : string) : option string :=
  let p := ([], chars s) in
  (fun q => str (matched p q)) <$> head (run re p).

(** [pattern.search(s)]: the match at the leftmost position that has
    one. *)
Fixpoint search_from (re : list item) (l r : list ascii)
  : option (pos * pos) :=
  match head (run re (l, r)) with
  | Some q => Some ((l, r), q)
  | None =>
      match r with
      | [] => None
      | c :: r' => search_from re (c :: l) r'
      end
  end.

Definition search (re : list item) (s : string) : option string :=
  (fun pq => str (matched pq.1 pq.2)) <$> search_from re [] (chars s).

End Re.

Definition months : list string :=
  ["January"; "February"; "March"; "April"; "May"; "June"; "July";
   "August"; "September"; "October"; "November"; "December"].

(** [\b(January|...|December)\s+\d{1,2},\s+\d{4}\b] *)
Definition MONTH_DATE_RE : list Re.item :=
  [ Re.WordB; Re.OneOf (map chars months);
    Re.Rep is_space 1 None; Re.Rep is_digit 1 (Some 2%nat); Re.Lit (chars ",");
    Re.Rep is_space 1 None; Re.Rep is_digit 4 (Some 4%nat); Re.WordB ].

(** [^[+-]?\d[\d,]*\.?\d*$] *)
Definition NUM_RE : list Re.item :=
  [ Re.Bos; Re.Rep (in_chars "+-") 0 (Some 1%nat); Re.Rep is_digit 1 (Some 1%nat);
    Re.Rep (fun c => is_digit c || in_chars "," c)%bool 0 None;
    Re.Rep (in_chars ".") 0 (Some 1%nat); Re.Rep is_digit 0 None; Re.Eos ].


(** ** Numbers and dates of the standard library *)

Fixpoint take_while (p : ascii -> bool) (l : list ascii) : list ascii :=
  match l with
  | [] => []
  | c :: l' => if p c then c :: take_while p l' else []
  end.

(** The value of a run of decimal digits. *)
Definition digits_val (l : list ascii) : Z :=
  fold_left (fun acc c => 10 * acc + digit_val c) l 0.

Definition split_sign (l : list ascii) : bool * list ascii :=
  match l with
  | c :: r =>
      if Ascii.eqb c "-" then (true, r)
      else if Ascii.eqb c "+" then (false, r)
      else (false, l)
  | [] => (false, l)
  end.

Definition decimal_value (neg : bool) (ip fr : list ascii) : Q :=
  let m := digits_val (ip ++ fr) in
  Qred (Qmake (if neg then - m else m) (Z.to_pos (10 ^ Z.of_nat (length fr)))).

(** [float(s)] on plain decimal notation, [[+-]digits[.digits]] with a
    digit on at least one side of the point, surrounding whitespace
    ignored.  [None] stands for [ValueError].  The other notations
    [float] reads (exponents, infinities, underscores) never reach it
    in this program and are outside the model. *)
Definition py_float (s : string) : option Q :=
  let '(neg, l) := split_sign (chars (strip s)) in
  let ip := take_while is_digit l in
  match drop_while is_digit l with
  | [] => match ip with [] => None | _ => Some (decimal_value neg ip []) end
  | c :: fr =>
      if (Ascii.eqb c "." && forallb is_digit fr
          && negb (Nat.eqb (length ip + length fr) 0))%bool
      then Some (decimal_value neg ip fr)
      else None
  end.

(** The digits of an integer literal after its first digit: digits, each
    optionally preceded by one underscore. *)
Fixpoint int_body (acc : Z) (l : list ascii) : option Z :=
  match l with
  | [] => Some acc
  | c :: l' =>
      if is_digit c then int_body (10 * acc + digit_val c) l'
      else if Ascii.eqb c "_" then
        match l' with
        | d :: l'' =>
            if is_digit d then int_body (10 * acc + digit_val d) l'' else None
        | [] => None
        end
      else None
  end.

(** [int(s)] in base 10; [None] stands for [ValueError].  (The limit on
    the number of digits, a setting of the interpreter, is not
    modelled.) *)
Definition py_int (s : string) : option Z :=
  let '(neg, l) := split_sign (chars (strip s)) in
  match l with
  | d :: r =>
      if is_digit d
      then (fun v => if neg then - v else v) <$> int_body (digit_val d) r
      else None
  | [] => None
  end.

(** [str(n)] of an integer. *)
Definition int_str (n : Z) : string := NilZero.string_of_int (Z.to_int n).

(** [s.split(",")] *)
Fixpoint split_comma_go (cur : list ascii) (l : list ascii) : list string :=
  match l with
  | [] => [str (rev cur)]
  | c :: l' =>
      if Ascii.eqb c "," then str (rev cur) :: split_comma_go [] l'
      else split_comma_go (c :: cur) l'
  end.

Definition split_comma (s : string) : list string :=
  split_comma_go [] (chars s).

(** A [datetime.date] is its proleptic Gregorian ordinal
    ([date.toordinal()]), from 1 for 0001-01-01. *)
Definition pad (width : nat) (n : Z) : string :=
  let s := int_str n in
  str (repeat "0"%char (width - String.length s)) ++ s.

(** [date.isoformat()] of the date with ordinal [n]. *)
Definition isoformat (n : Z) : string :=
  let z := n + 305 in
  let era := z / 146097 in
  let doe := z mod 146097 in
  let yoe := (doe - doe / 1460 + doe / 36524 - doe / 146096) / 365 in
  let doy := doe - (365 * yoe + yoe / 4 - yoe / 100) in
  let mp := (5 * doy + 2) / 153 in
  let d := doy - (153 * mp + 2) / 5 + 1 in
  let m := if (mp <? 10)%Z then mp + 3 else mp - 9 in
  let y := yoe + era * 400 + (if (m <=? 2)%Z then 1 else 0) in
  pad 4 y ++ "-" ++ pad 2 m ++ "-" ++ pad 2 d.

(** ** The program *)

(** An exception: [type(e).__name__] and [str(e)]. *)
Record exn : Type := Exn { exn_type : string; exn_str : string }.

(** [@dataclass class Quote] *)
Record Quote : Type := mkQuote {
  symbol : string;
  last_price : option Q;
  as_at : string;
  source : string
}.

Definition JSE_DAILY_PDF : string := "JSE_DAILY_PDF".

(** The bytes of a fetched document, as pdfplumber sees them: either
    opening or reading them raises, or they have pages, each with the
    text [extract_text()] returns ([None] where it returns [None]). *)
Inductive pdf : Type :=
| Unreadable (e : exn)
| Pages (texts : list (option string)).

Definition newline : string := String "010" "".

(** [read_watchlist]; the argument is the text of the file, [None] when
    the file does not exist. *)
Definition watchlist_line (line : string) : list string :=
  let s := strip line in
  if (negb (nonempty s) || startswith "#" s)%bool then [] else [upper s].

Definition read_watchlist (file : option string) : list string :=
  match file with
  | None => []
  | Some text =>
      let syms := flat_map watchlist_line (splitlines text) in
      merge_sort String.le (elements (list_to_set syms : gset string))
  end.

Definition parse_sheet_date (text : string) : string :=
  match Re.search MONTH_DATE_RE text with
  | Some m => m
  | None => ""
  end.

Definition norm_sym (tok : string) : string :=
  rstrip ".,;" (upper (strip tok)).

(** [sym in want and sym not in out] *)
Definition wanted_unresolved (want : gset string) (out : gmap string Quote)
    (sym : string) : bool :=
  (bool_decide (sym ∈ want) && bool_decide (out !! sym = None))%bool.

(** The inner [for i, t in enumerate(toks[1:], start=1)] of [parse_quotes]:
    the symbol and index of the first token it accepts. *)
Fixpoint scan_later (want : gset string) (out : gmap string Quote)
    (i : nat) (toks : list string) : option (string * nat) :=
  match toks with
  | [] => None
  | t :: toks' =>
      let sym := norm_sym t in
      if wanted_unresolved want out sym then Some (sym, i)
      else scan_later want out (S i) toks'
  end.

(** The anchor [(sym0, idx0)] of a tokenised line, [None] when the line is
    skipped ([if not found: continue]). *)
Definition find_anchor (want : gset string) (out : gmap string Quote)
    (toks : list string) : option (string * nat) :=
  match toks with
  | [] => None
  | t0 :: rest =>
      let sym0 := norm_sym t0 in
      if (negb (bool_decide (sym0 ∈ want)) || negb (bool_decide (out !! sym0 = None)))%bool
      then scan_later want out 1 rest
      else Some (sym0, 0%nat)
  end.

Definition is_num (t : string) : bool :=
  match Re.match_ NUM_RE t with Some _ => true | None => false end.

(** [nums]: the tokens after the anchor that match [NUM_RE]. *)
Definition collect_nums (toks : list string) (idx0 : nat) : list string :=
  List.filter is_num (drop (S idx0) toks).

(** The local function [f] of [parse_quotes]. *)
Definition f (nums : list string) (i : nat) : option Q :=
  match nums !! i with
  | None => None
  | Some t => py_float (remove_commas t)
  end.

Definition price_of (nums : list string) : option Q :=
  let last_traded := f nums 0 in
  let close := f nums 1 in
  match close with Some _ => close | None => last_traded end.

Definition tokens (line : string) : list string :=
  List.filter nonempty (re_split_ws (strip line)).

(** One iteration of the line loop of [parse_quotes]: the mapping after
    the line, and whether the loop breaks. *)
Definition parse_line (want : gset string) (as_at_label : string)
    (out : gmap string Quote) (line : string) : gmap string Quote * bool :=
  if negb (nonempty (strip line)) then (out, false)
  else
    let toks := tokens line in
    match toks with
    | [] => (out, false)
    | _ =>
        match find_anchor want out toks with
        | None => (out, false)
        | Some (sym0, idx0) =>
            let nums := collect_nums toks idx0 in
            let price := price_of nums in
            let out' := <[sym0 := mkQuote sym0 price as_at_label JSE_DAILY_PDF]> out in
            (out', Nat.eqb (size out') (size want))
        end
    end.

Fixpoint parse_lines (want : gset string) (as_at_label : string)
    (lines : list string) (out : gmap string Quote) : gmap string Quote :=
  match lines with
  | [] => out
  | line :: lines' =>
      let '(out', stop) := parse_line want as_at_label out line in
      if stop then out' else parse_lines want as_at_label lines' out'
  end.

Definition page_text (t : option string) : string :=
  match t with Some s => s | None => "" end.

Definition full_text_of (texts : list (option string)) : string :=
  join newline (map page_text texts).

Definition parse_quotes (pdf_bytes : pdf) (symbols : list string)
  : exn + (gmap string Quote * string) :=
  match pdf_bytes with
  | Unreadable e => inl e
  | Pages texts =>
      let want : gset string := list_to_set symbols in
      let full_text := full_text_of texts in
      let as_at_label := parse_sheet_date full_text in
      inr (parse_lines want as_at_label (splitlines full_text) ∅, as_at_label)
  end.

(** [today - timedelta(days=d)]: dates before 0001-01-01 do not exist. *)
Definition date_minus (today d : Z) : exn + Z :=
  if (1 <=? today - d)%Z then inr (today - d)
  else inl (Exn "OverflowError" "date value out of range").

(** The list comprehension of [latest_trading_date_iso], evaluated for
    the days [ds] in order; [today] is the ordinal of the current date in
    Jamaica. *)
Fixpoint dates_back (today : Z) (ds : list Z) : exn + list string :=
  match ds with
  | [] => inr []
  | d :: ds' =>
      match date_minus today d with
      | inl e => inl e
      | inr day =>
          match dates_back today ds' with
          | inl e => inl e
          | inr rest => inr (isoformat day :: rest)
          end
      end
  end.

(** [range(0, n)] *)
Definition range0 (n : Z) : list Z := map Z.of_nat (seq 0 (Z.to_nat n)).

Definition latest_trading_date_iso (today lookback_days : Z) : exn + list string :=
  dates_back today (range0 lookback_days).

(** *** The retrieval loop of [main] *)

(** The calls the loop makes, in order. *)
Inductive call : Type :=
| Call_fetch_pdf (date_iso : string) (market_id : Z)
| Call_parse_quotes (pdf_bytes : pdf) (symbols : list string).

(** The variables of [main] that live across the date loop, and the log
    of the calls made. *)
Record state : Type := mkState {
  errors : list string;
  best_quotes : gmap string Quote;
  used_date : string;
  used_as_at : string;
  calls : list call
}.

(** The variables of one iteration of the date loop. *)
Record day : Type := mkDay {
  combined : gmap string Quote;
  got_any : bool
}.

Definition initial_state : state := mkState [] ∅ "" "" [].
Definition initial_day : day := mkDay ∅ false.

Definition log_call (c : call) (st : state) : state :=
  mkState (errors st) (best_quotes st) (used_date st) (used_as_at st)
          (calls st ++ [c]).

(** [errors.append(f"{date_iso} market {mid}: {type(e).__name__}: {e}")] *)
Definition error_line (date_iso : string) (mid : Z) (e : exn) : string :=
  date_iso ++ " market " ++ int_str mid ++ ": " ++ exn_type e ++ ": " ++ exn_str e.

Definition append_error (line : string) (st : state) : state :=
  mkState (errors st ++ [line]) (best_quotes st) (used_date st)
          (used_as_at st) (calls st).

Definition set_used_as_at (label : string) (st : state) : state :=
  mkState (errors st) (best_quotes st) (used_date st) label (calls st).

Definition adopt (quotes : gmap string Quote) (date_iso : string)
    (st : state) : state :=
  mkState (errors st) quotes date_iso (used_as_at st) (calls st).

(** Truthiness of a [dict]. *)
Definition nonempty_dict (m : gmap string Quote) : bool :=
  negb (Nat.eqb (size m) 0).

(** [for k, v in parsed.items(): if k not in combined: combined[k] = v] *)
Definition merge_into (combined parsed : gmap string Quote)
  : gmap string Quote :=
  map_fold (fun k v acc =>
              match acc !! k with
              | Some _ => acc
              | None => <[k := v]> acc
              end) combined parsed.

Section Retrieval.

(** [fetch_pdf]: the document the site serves for a date and a market, or
    the exception the attempt ends in. *)
Variable fetch_pdf : string -> Z -> exn + pdf.
Variable symbols : list string.
Variable market_ids : list Z.

(** What follows a successful [parse_quotes] in the [try] block. *)
Definition after_parse (date_iso : string) (parsed : gmap string Quote)
    (label : string) (d : day) (st : state) : day * state * bool :=
  let '(d1, st1) :=
    if nonempty_dict parsed then
      (mkDay (merge_into (combined d) parsed) true,
       if nonempty label then set_used_as_at label st else st)
    else (d, st) in
  if Nat.eqb (size (combined d1)) (length symbols)
  then (d1, adopt (combined d1) date_iso st1, true)
  else (d1, st1, false).

(** The body of the market loop for one market: the [try] block and its
    [except Exception] handler.  The boolean tells whether the loop
    breaks. *)
Definition attempt (date_iso : string) (mid : Z) (d : day) (st : state)
  : day * state * bool :=
  let st := log_call (Call_fetch_pdf date_iso mid) st in
  match fetch_pdf date_iso mid with
  | inl e => (d, append_error (error_line date_iso mid e) st, false)
  | inr pdf_bytes =>
      let st := log_call (Call_parse_quotes pdf_bytes symbols) st in
      match parse_quotes pdf_bytes symbols with
      | inl e => (d, append_error (error_line date_iso mid e) st, false)
      | inr (parsed, label) => after_parse date_iso parsed label d st
      end
  end.

(** [for mid in market_ids: ...] *)
Fixpoint market_loop (date_iso : string) (mids : list Z) (d : day)
    (st : state) : day * state :=
  match mids with
  | [] => (d, st)
  | mid :: mids' =>
      let '(d', st', stop) := attempt date_iso mid d st in
      if stop then (d', st') else market_loop date_iso mids' d' st'
  end.

(** [for date_iso in latest_trading_date_iso(lookback): ...] *)
Fixpoint date_loop (dates : list string) (st : state) : state :=
  match dates with
  | [] => st
  | date_iso :: dates' =>
      let '(d, st') := market_loop date_iso market_ids initial_day st in
      if nonempty_dict (best_quotes st') then st'
      else if (got_any d && nonempty_dict (combined d))%bool
           then adopt (combined d) date_iso st'
           else date_loop dates' st'
  end.

End Retrieval.

(** *** Output *)

(** A row of [prices.csv]; an empty [last_price] cell is [None]. *)
Record row : Type := mkRow {
  row_symbol : string;
  row_last_price : option Q;
  row_as_at : string;
  row_source : string
}.

Definition make_row (st : state) (sym : string) : row :=
  let q := best_quotes st !! sym in
  mkRow sym
    (match q with Some q => last_price q | None => None end)
    (match q with
     | Some q => if nonempty (as_at q) then as_at q
                 else str_or (used_as_at st) (used_date st)
     | None => str_or (used_as_at st) (used_date st)
     end)
    JSE_DAILY_PDF.

Definition make_rows (symbols : list string) (st : state) : list row :=
  map (make_row st) symbols.

(** *** [main] *)

(** What [main] reads from outside. *)
Record world : Type := mkWorld {
  watchlist_file : option string;      (* text of the watchlist, if it exists *)
  JSE_MARKETS : option string;         (* os.getenv, None when unset *)
  JSE_LOOKBACK_DAYS : option string;
  DEBUG : option string;
  today : Z;                           (* ordinal of today's date in Jamaica *)
  fetch_pdf : string -> Z -> exn + pdf
}.

Definition getenv (v : option string) (default : string) : string :=
  match v with Some s => s | None => default end.

(** The loop that reads [JSE_MARKETS]. *)
Definition market_part (part : string) : list Z :=
  let part := strip part in
  if negb (nonempty part) then []
  else match py_int part with Some n => [n] | None => [] end.

Definition read_market_ids (v : option string) : list Z :=
  let market_ids := flat_map market_part (split_comma (getenv v "33,31,32,34,35,36")) in
  match market_ids with [] => [31] | _ => market_ids end.

(** [repr] of a string without quotes or escapes. *)
Definition invalid_literal (s : string) : exn :=
  Exn "ValueError" ("invalid literal for int() with base 10: '" ++ s ++ "'").

(** What a run leaves behind: how the process ends (the exception that
    escapes [main], or the code it returns), [prices.csv] if written, the
    two output streams, and the state of the retrieval loop. *)
Record run : Type := mkRun {
  ending : exn + Z;
  prices_csv : option (list row);
  stdout : list string;
  stderr : list string;
  retrieval : state
}.

Definition wrote_line (symbols : list string) (st : state) : string :=
  "Wrote prices.csv for " ++ int_str (Z.of_nat (length symbols))
  ++ " symbols (date_try=" ++ str_or (used_date st) "n/a" ++ ").".

Definition debug_lines (w : world) (st : state) : list string :=
  if (String.eqb (getenv (DEBUG w) "0") "1"
      && negb (Nat.eqb (length (errors st)) 0))%bool
  then "Errors (first 10):" :: map (fun e => (" - " ++ e)%string) (take 10 (errors st))
  else [].

Definition main (w : world) : run :=
  let symbols := read_watchlist (watchlist_file w) in
  match symbols with
  | [] => mkRun (inr 2) None [] ["No symbols in watchlist.txt"] initial_state
  | _ =>
      let market_ids := read_market_ids (JSE_MARKETS w) in
      let lookback_text := getenv (JSE_LOOKBACK_DAYS w) "10" in
      match py_int lookback_text with
      | None => mkRun (inl (invalid_literal lookback_text)) None [] [] initial_state
      | Some lookback =>
          match latest_trading_date_iso (today w) lookback with
          | inl e => mkRun (inl e) None [] [] initial_state
          | inr dates =>
              let st := date_loop (fetch_pdf w) symbols market_ids dates initial_state in
              mkRun (inr 0) (Some (make_rows symbols st))
                    [wrote_line symbols st] (debug_lines w st) st
          end
      end
  end.

(** ** Reference definitions for the properties *)

(** What a pattern item matches, stated without the matcher: the end
    positions [q] it allows from [p]. *)
Definition hi_ok (hi : option nat) (n : nat) : Prop :=
  match hi with Some h => (n <= h)%nat | None => True end.

Definition advance (p : Re.pos) (m : list ascii) (q : Re.pos) : Prop :=
  exists r', p.2 = m ++ r' /\ q = (rev m ++ p.1, r').

Definition sem_item (it : Re.item) (p q : Re.pos) : Prop :=
  match it with
  | Re.Lit s => advance p s q
  | Re.OneOf alts => exists s, In s alts /\ advance p s q
  | Re.Rep cls lo hi =>
      exists m, forallb cls m = true /\ (lo <= length m)%nat /\
                hi_ok hi (length m) /\ advance p m q
  | Re.WordB =>
      xorb (Re.word_at (head p.1)) (Re.word_at (head p.2)) = true /\ q = p
  | Re.Bos => p.1 = [] /\ q = p
  | Re.Eos => (p.2 = [] \/ p.2 = ["010"%char]) /\ q = p
  end.

Fixpoint sem (re : list Re.item) (p q : Re.pos) : Prop :=
  match re with
  | [] => q = p
  | it :: re' => exists p', sem_item it p p' /\ sem re' p' q
  end.

(** The shape of a sheet date: a full month name, whitespace, one or two
    digits, a comma, whitespace, four digits. *)
Definition sheet_date_shape (m : list ascii) : Prop :=
  exists month ws1 dd ws2 yyyy,
    m = chars month ++ ws1 ++ dd ++ chars "," ++ ws2 ++ yyyy /\
    In month months /\
    ws1 <> [] /\ forallb is_space ws1 = true /\
    (length dd = 1%nat \/ length dd = 2%nat) /\ forallb is_digit dd = true /\
    ws2 <> [] /\ forallb is_space ws2 = true /\
    length yyyy = 4%nat /\ forallb is_digit yyyy = true.

(** An occurrence of a sheet date in a text, after [pre] and before
    [post]: the shape, with no word character just before or after it. *)
Definition occurs (text : string) (pre m post : list ascii) : Prop :=
  chars text = pre ++ m ++ post /\ sheet_date_shape m /\
  Re.word_at (last pre) = false /\ Re.word_at (head post) = false.

(** ** Scenarios for the examples *)

(** A one-page document with the given lines. *)
Definition sheet (lines : list string) : pdf := Pages [Some (join newline lines)].

Definition http_404 : exn := Exn "RuntimeError" "HTTP 404 fetching quote page".

(** On 2024-03-05 market 33 quotes AAA at 10.50 and market 31 quotes AAA
    at 11.00 and BBB at 5.00; nothing else is published. *)
Definition two_markets (date_iso : string) (mid : Z) : exn + pdf :=
  if String.eqb date_iso "2024-03-05" then
    if (mid =? 33)%Z then inr (sheet ["Daily Quote Sheet March 5, 2024"; "AAA 10.25 10.50"])
    else if (mid =? 31)%Z then inr (sheet ["AAA 11.00 11.00"; "BBB 5.00"])
    else inl http_404
  else inl http_404.

(** Nothing is published for 2024-03-05; for 2024-03-04 only market 31
    has a sheet, quoting AAA alone; for 2024-03-03 market 33 quotes both
    AAA and BBB. *)
Definition three_days (date_iso : string) (mid : Z) : exn + pdf :=
  if (String.eqb date_iso "2024-03-04" && (mid =? 31)%Z)%bool
  then inr (sheet ["Daily Quote Sheet March 4, 2024"; "AAA 10.25 10.50 +0.25"])
  else if (String.eqb date_iso "2024-03-03" && (mid =? 33)%Z)%bool
  then inr (sheet ["Daily Quote Sheet March 3, 2024"; "AAA 9.00 9.10"; "BBB 5.00"])
  else inl http_404.

(** Every sheet carries a date but quotes none of the watched symbols. *)
Definition dated_but_empty (date_iso : string) (mid : Z) : exn + pdf :=
  if (mid =? 31)%Z then inr (sheet ["Daily Quote Sheet March 5, 2024"; "ZZZ 1.00 1.10"])
  else inl http_404.

Definition watch_AAA_BBB : option string := Some (join newline ["AAA"; "BBB"]).

(** The current date is 2024-03-05 in all of them. *)
Definition world_two_markets : world :=
  mkWorld watch_AAA_BBB (Some "33,31") (Some "1") None 738950 two_markets.

Definition world_three_days : world :=
  mkWorld watch_AAA_BBB (Some "33,31") (Some "3") None 738950 three_days.

Definition world_dated_but_empty : world :=
  mkWorld watch_AAA_BBB (Some "33,31") (Some "2") None 738950 dated_but_empty.

Definition world_bad_lookback : world :=
  mkWorld watch_AAA_BBB None (Some "ten") None 738950 two_markets.

(** The calls one date's market loop may make: fetches for that date and
    parses with the given symbol list. *)
Definition call_of (symbols : list string) (date_iso : string) (c : call) : Prop :=
  match c with
  | Call_fetch_pdf d _ => d = date_iso
  | Call_parse_quotes _ s => s = symbols
  end.

(** What the variables of the outer loop can become in one date's market
    loop, from [st] to [st'], when the day ends as [dy]. *)
Definition day_step (symbols : list string) (date : string) (d : day) (st : state) (dy : day)
    (st' : state) : Prop :=
  (exists new, calls st' = calls st ++ new /\ Forall (call_of symbols date) new) /\
  (exists errs, errors st' = errors st ++ errs) /\
  ((best_quotes st' = best_quotes st /\ used_date st' = used_date st) \/
   (best_quotes st' = combined dy /\ used_date st' = date /\
    size (combined dy) = length symbols)) /\
  (got_any d = nonempty_dict (combined d) ->
   got_any dy = nonempty_dict (combined dy)) /\
  (combined dy = ∅ -> used_as_at st' = used_as_at st /\ combined d = ∅).


(** The variables of the day after the market loop of a date, which do
    not depend on what happened on earlier dates. *)
Definition day_of (fetch : string -> Z -> exn + pdf) (symbols : list string)
    (mids : list Z) (date_iso : string) : day :=
  (market_loop fetch symbols date_iso mids initial_day initial_state).1.

(** The day's variables for the date [j] days before today, in a world. *)
Definition day_back (w : world) (j : Z) : day :=
  day_of (fetch_pdf w) (read_watchlist (watchlist_file w))
         (read_market_ids (JSE_MARKETS w)) (isoformat (today w - j)).

(** The candidate dates of a world with a lookback of [n] days. *)
Definition candidates (w : world) (n : Z) : list string :=
  map (fun j => isoformat (today w - j)) (range0 n).

(** The symbols of the watchlist that have no entry yet in the per-date
    mapping. *)
Definition unresolved (symbols : list string) (combined : gmap string Quote)
  : list string :=
  List.filter (fun s => bool_decide (combined !! s = None)) symbols.

(** The symbol lists [parse_quotes] was called with, in order. *)
Definition parse_args (cs : list call) : list (list string) :=
  flat_map (fun c => match c with
                     | Call_parse_quotes _ s => [s]
                     | Call_fetch_pdf _ _ => []
                     end) cs.

(** C1 as the specification states it: after a successful fetch the
    parser is run with the symbols still unresolved in the per-date
    mapping. *)
Definition parser_gets_unresolved_symbols : Prop :=
  forall fetch symbols date_iso mid d st pdf_bytes,
    fetch date_iso mid = inr pdf_bytes ->
    calls (attempt fetch symbols date_iso mid d st).1.2
      = calls st ++ [Call_fetch_pdf date_iso mid;
                     Call_parse_quotes pdf_bytes (unresolved symbols (combined d))].

(** C6 as the specification states it: every successful parse that
    returns a non-empty label has it remembered. *)
Definition label_remembered_after_every_parse : Prop :=
  forall fetch symbols date_iso mid d st pdf_bytes parsed label,
    fetch date_iso mid = inr pdf_bytes ->
    parse_quotes pdf_bytes symbols = inr (parsed, label) ->
    label <> "" ->
    used_as_at (attempt fetch symbols date_iso mid d st).1.2 = label.

(** A string that ends in a period, a comma or a semicolon. *)
Definition ends_in_punct (s : string) : Prop :=
  exists pre c, chars s = pre ++ [c] /\ in_chars ".,;" c = true.

(** A string with a whitespace character in it. *)
Definition has_whitespace (s : string) : Prop :=
  exists c, In c (chars s) /\ is_space c = true.

Definition world_far_lookback : world :=
  mkWorld watch_AAA_BBB None (Some "800000") None 738950 two_markets.

(** ** The document fetcher

    [extract_pdf_link] and [fetch_pdf], the part of the program behind the
    [fetch_pdf] field of a [world]. *)

Definition lower_char (c : ascii) : ascii :=
  if is_upper c then ascii_of_N (code c + 32) else c.

(** [s.lower()] *)
Definition lower (s : string) : string := str (map lower_char (chars s)).

(** [needle in hay] on strings. *)
Fixpoint contains (needle hay : string) : bool :=
  (String.prefix needle hay ||
   match hay with
   | "" => false
   | String _ hay' => contains needle hay'
   end)%bool.

(** A letter of a pattern compiled with [re.IGNORECASE]: either case. *)
Definition letter (c : ascii) (x : ascii) : bool :=
  Ascii.eqb (lower_char x) (lower_char c).

(** The double and the single quotation mark. *)
Definition is_quote (c : ascii) : bool :=
  (Ascii.eqb c "034" || Ascii.eqb c "039")%bool.

Definition not_quote (c : ascii) : bool := negb (is_quote c).

Definition one (cls : ascii -> bool) : Re.item := Re.Rep cls 1 (Some 1%nat).

(** The pattern [PDF_HREF_RE], compiled with [re.IGNORECASE]: the text
    [href=], a quotation mark (double or single), then the group, one or
    more characters that are no quotation mark, the text [.pdf] and any
    number of characters that are no quotation mark, then a quotation
    mark. *)
Definition PDF_HREF_RE : list Re.item :=
  [ one (letter "h"); one (letter "r"); one (letter "e"); one (letter "f");
    Re.Lit (chars "="); one is_quote;
    Re.Rep not_quote 1 None;
    Re.Lit (chars "."); one (letter "p"); one (letter "d"); one (letter "f");
    Re.Rep not_quote 0 None;
    one is_quote ].

(** [m.group(1)]: the group opens after the six characters of [href=] and
    the opening mark and closes before the closing mark, the last
    character of the match. *)
Definition group1 (m : string) : string :=
  str (take (length (chars m) - 7) (drop 6 (chars m))).

Definition extract_pdf_link (html : string) : option string :=
  match Re.search PDF_HREF_RE html with
  | Some m => Some (group1 m)
  | None => None
  end.

Module Http.

(** An answer to a request: its status, its body (bytes, one character
    each) and its headers, the names in lower case. *)
Record response : Type := mkResponse {
  status : Z;
  body : string;
  headers : gmap string string
}.

(** [resp.ok]: a status from 200 to 299. *)
Definition ok (r : response) : bool :=
  ((200 <=? status r)%Z && (status r <=? 299)%Z)%bool.

Definition BASE_PAGE : string :=
  "https://www.jamstockex.com/trading/trade-quotes/daily-quote-pdf/".

Definition RuntimeError (msg : string) : exn := Exn "RuntimeError" msg.

(** [b[:4] == b"%PDF"] *)
Definition is_pdf (b : string) : bool := String.prefix "%PDF" b.

(** [(resp.headers.get("content-type") or "").lower()] *)
Definition ctype_of (r : response) : string :=
  lower (match headers r !! "content-type" with Some v => v | None => "" end).

Definition quote_url (date_iso : string) (market_id : Z) : string :=
  BASE_PAGE ++ "?date=" ++ date_iso ++ "&market=" ++ int_str market_id.

Section Fetch.

(** [req.get(url, ...)]: the answer to the [n]-th request of a call, or
    the exception the request ends in (no connection, time-out). *)
Variable get : nat -> string -> exn + response.
(** [body.decode("utf-8", errors="ignore")] *)
Variable decode : string -> string.
(** [urllib.parse.urljoin] *)
Variable urljoin : string -> string -> string.

Definition fetch_pdf (date_iso : string) (market_id : Z) : exn + string :=
  let url := quote_url date_iso market_id in
  match get 0 url with
  | inl e => inl e
  | inr resp =>
      if negb (ok resp)
      then inl (RuntimeError ("HTTP " ++ int_str (status resp) ++ " fetching quote page"))
      else
        let body := body resp in
        let ctype := ctype_of resp in
        if (contains "pdf" ctype || is_pdf body)%bool then inr body
        else
          let html := decode body in
          match extract_pdf_link html with
          | None => inl (RuntimeError "Could not find PDF link in HTML wrapper page")
          | Some rel_pdf =>
              if negb (nonempty rel_pdf)
              then inl (RuntimeError "Could not find PDF link in HTML wrapper page")
              else
                let pdf_url := urljoin url rel_pdf in
                match get 1 pdf_url with
                | inl e => inl e
                | inr resp2 =>
                    if negb (ok resp2)
                    then inl (RuntimeError ("HTTP " ++ int_str (status resp2)
                                            ++ " fetching PDF link"))
                    else
                      let pdf_body := Http.body resp2 in
                      if negb (is_pdf pdf_body)
                      then inl (RuntimeError "Fetched content is not a PDF")
                      else inr pdf_body
                end
          end
  end.

End Fetch.

End Http.

Definition anchor_tag (q1 : ascii) (link : string) (q2 : ascii) : string :=
  "<a href=" ++ String q1 (link ++ String q2 ">sheet</a>").

(** The texts [NUM_RE] accepts, spelled out: an optional sign, a digit,
    digits and commas, an optional point, digits (and, as [$] allows, a
    final newline). *)
Definition numeric_shape (t : string) : Prop :=
  exists sg d body dot frac rest,
    chars t = sg ++ [d] ++ body ++ dot ++ frac ++ rest /\
    (sg = [] \/ sg = ["+"%char] \/ sg = ["-"%char]) /\
    is_digit d = true /\
    forallb (fun c => is_digit c || in_chars "," c)%bool body = true /\
    (dot = [] \/ dot = ["."%char]) /\
    forallb is_digit frac = true /\
    (rest = [] \/ rest = ["010"%char]).

(** The number of fetches and of parses in a log of calls. *)
Definition is_fetch (c : call) : bool :=
  match c with Call_fetch_pdf _ _ => true | Call_parse_quotes _ _ => false end.

Definition fetches (cs : list call) : nat := length (List.filter is_fetch cs).

Definition parses (cs : list call) : nat :=
  length (List.filter (fun c => negb (is_fetch c)) cs).

(** An [href] attribute with a link to a document, spelled out: the text
    [m] is [href=] in any letter case, a quotation mark, the link and a
    quotation mark; the link is one or more characters, [.pdf] in any
    letter case and more characters, none of them a quotation mark. *)
Definition href_shape (m link : list ascii) : Prop :=
  exists h r e f q1 a p d f' b q2,
    m = [h; r; e; f; "="%char; q1] ++ link ++ [q2] /\
    link = a ++ ["."%char; p; d; f'] ++ b /\
    letter "h" h = true /\ letter "r" r = true /\ letter "e" e = true /\
    letter "f" f = true /\ is_quote q1 = true /\
    a <> [] /\ forallb not_quote a = true /\
    letter "p" p = true /\ letter "d" d = true /\ letter "f" f' = true /\
    forallb not_quote b = true /\ is_quote q2 = true.

(** A world whose documents come from the web through [Http.fetch_pdf],
    [open_pdf] being what pdfplumber makes of the bytes. *)
Definition http_world (watchlist markets lookback debug : option string)
    (today : Z) (get : nat -> string -> exn + Http.response)
    (decode : string -> string) (urljoin : string -> string -> string)
    (open_pdf : string -> pdf) : world :=
  mkWorld watchlist markets lookback debug today
    (fun date_iso mid =>
       match Http.fetch_pdf get decode urljoin date_iso mid with
       | inl e => inl e
       | inr pdf_bytes => inr (open_pdf pdf_bytes)
       end).

(** A site that answers the date page with a wrapper page linking to the
    document, and the link with the document. *)
Definition wrapper_site (n : nat) (url : string) : exn + Http.response :=
  match n with
  | O => inr (Http.mkResponse 200 (anchor_tag "034" "/files/q.pdf" "034")
                {["content-type" := "text/html; charset=UTF-8"]})
  | _ => if String.eqb url "https://www.jamstockex.com/files/q.pdf"
         then inr (Http.mkResponse 200 "%PDF-1.7 ..." ∅)
         else inr (Http.mkResponse 404 "" ∅)
  end.

(** * Properties *)

(** ** Sanity checks of the library models *)

Example strip_ex : strip "  ab c  " = "ab c".
Proof. reflexivity. Qed.

Example splitlines_ex :
  splitlines ("a" ++ String "013" (String "010" ("" ++ String "010" ("b" ++ String "010" ""))))
  = ["a"; ""; "b"].
Proof. reflexivity. Qed.

Example re_split_ws_ex : re_split_ws "a  b c" = ["a"; "b"; "c"].
Proof. reflexivity. Qed.

Example month_date_ex1 :
  Re.search MONTH_DATE_RE "Daily Quote Sheet for  March 4, 2024 page 1" = Some "March 4, 2024".
Proof. reflexivity. Qed.

Example month_date_ex2 :
  Re.search MONTH_DATE_RE "xMarch 4, 2024 March 14,  20245 May 31, 1999." = Some "May 31, 1999".
Proof. reflexivity. Qed.

Example num_re_ex :
  map (fun t => bool_decide (is_Some (Re.match_ NUM_RE t)))
      ["10.25"; "+0.25"; "15,000"; "1."; "-"; ".5"; "1.2.3"; "12x"; "7"]
  = [true; true; true; true; false; false; false; false; true].
Proof. reflexivity. Qed.

Example py_float_ex :
  map (fun s => py_float (remove_commas s)) ["10.50"; "+0.25"; "15,000"; "1."; "-"; "."]
  = [Some (21 # 2)%Q; Some (1 # 4)%Q; Some (15000 # 1)%Q; Some (1 # 1)%Q; None; None].
Proof. reflexivity. Qed.

Example py_int_ex :
  map py_int [" 33"; "-7"; "1_0"; "1__0"; "ten"; ""; "+"; "007"]
  = [Some 33; Some (-7); Some 10; None; None; None; None; Some 7].
Proof. reflexivity. Qed.

Example isoformat_ex :
  map isoformat [1; 738950; 738951; 719163; 730179; 730180; 3652059]
  = ["0001-01-01"; "2024-03-05"; "2024-03-06"; "1970-01-01"; "2000-02-29";
     "2000-03-01"; "9999-12-31"].
Proof. reflexivity. Qed.

(** ** Characters and strings *)

Lemma chars_str (l : list ascii) : chars (str l) = l.
Proof. apply list_ascii_of_string_of_list_ascii. Qed.

Lemma str_chars (s : string) : str (chars s) = s.
Proof. apply string_of_list_ascii_of_string. Qed.

Lemma nonempty_false (s : string) : nonempty s = false -> s = "".
Proof. by destruct s. Qed.

Lemma nonempty_true (s : string) : nonempty s = true -> s <> "".
Proof. by destruct s. Qed.

(** ** The anchor of a line *)

Lemma scan_later_Some want out toks i0 sym i :
  scan_later want out i0 toks = Some (sym, i) <->
  exists k t, i = (i0 + k)%nat /\ toks !! k = Some t /\ sym = norm_sym t /\
    wanted_unresolved want out sym = true /\
    forall j t', (j < k)%nat -> toks !! j = Some t' ->
      wanted_unresolved want out (norm_sym t') = false.
Proof.
  revert i0. induction toks as [|t toks IH]; intros i0; simpl.
  - split; [done|]. intros (k & t & _ & Hk & _). by destruct k.
  - destruct (wanted_unresolved want out (norm_sym t)) eqn:Hw.
    + split.
      * intros [= <- <-]. exists 0%nat, t. repeat split; auto with lia.
      * intros (k & t' & -> & Hk & -> & Hw' & Hmin).
        destruct k as [|k]; simpl in Hk.
        { injection Hk as <-. do 2 f_equal. lia. }
        specialize (Hmin 0%nat t ltac:(lia) eq_refl). congruence.
    + rewrite IH. split.
      * intros (k & t' & -> & Hk & -> & Hw' & Hmin).
        exists (S k), t'. repeat split; auto with lia.
        intros [|j] t'' Hj Hl; simpl in Hl.
        { by injection Hl as <-. }
        apply (Hmin j); [lia|done].
      * intros (k & t' & -> & Hk & -> & Hw' & Hmin).
        destruct k as [|k]; simpl in Hk.
        { injection Hk as <-. congruence. }
        exists k, t'. repeat split; auto with lia.
        intros j t'' Hj Hl. apply (Hmin (S j)); [lia|done].
Qed.

Lemma scan_later_None want out toks i0 :
  scan_later want out i0 toks = None <->
  forall t, t ∈ toks -> wanted_unresolved want out (norm_sym t) = false.
Proof.
  revert i0. induction toks as [|t toks IH]; intros i0; simpl.
  - split; [|done]. intros _ t Ht. by apply elem_of_nil in Ht.
  - destruct (wanted_unresolved want out (norm_sym t)) eqn:Hw.
    + split; [done|]. intros H. specialize (H t ltac:(left)). congruence.
    + rewrite IH. split.
      * intros H t' [->|Ht']%elem_of_cons; auto.
      * intros H t' Ht'. apply H. by right.
Qed.

Lemma find_anchor_scan want out toks :
  find_anchor want out toks = scan_later want out 0 toks.
Proof.
  destruct toks as [|t0 rest]; [done|]. simpl. unfold wanted_unresolved.
  by destruct (bool_decide (norm_sym t0 ∈ want)),
    (bool_decide (out !! norm_sym t0 = None)).
Qed.

Lemma find_anchor_wanted want out toks sym i :
  find_anchor want out toks = Some (sym, i) ->
  sym ∈ want /\ out !! sym = None /\ exists t, toks !! i = Some t /\ sym = norm_sym t.
Proof.
  rewrite find_anchor_scan, scan_later_Some.
  intros (k & t & -> & Hk & -> & Hw & _). unfold wanted_unresolved in Hw.
  apply andb_true_iff in Hw as [H1%bool_decide_eq_true H2%bool_decide_eq_true].
  eauto.
Qed.

Lemma parse_line_no_anchor want label out line :
  find_anchor want out (tokens line) = None ->
  parse_line want label out line = (out, false).
Proof.
  intros H. unfold parse_line. destruct (negb _); [done|].
  rewrite H. by destruct (tokens line).
Qed.

Lemma parse_line_anchor want label out line sym0 idx0 :
  find_anchor want out (tokens line) = Some (sym0, idx0) ->
  nonempty (strip line) = true ->
  parse_line want label out line =
    (<[sym0 := mkQuote sym0 (price_of (collect_nums (tokens line) idx0)) label
                 JSE_DAILY_PDF]> out,
     Nat.eqb (size (<[sym0 := mkQuote sym0 (price_of (collect_nums (tokens line) idx0))
                          label JSE_DAILY_PDF]> out)) (size want)).
Proof.
  intros H Hne. unfold parse_line. rewrite Hne. simpl. rewrite H.
  destruct (tokens line); [done|done].
Qed.

Lemma tokens_blank line : nonempty (strip line) = false -> tokens line = [].
Proof.
  intros H%nonempty_false. unfold tokens. by rewrite H.
Qed.

Lemma find_anchor_nonblank want out line a :
  find_anchor want out (tokens line) = Some a -> nonempty (strip line) = true.
Proof.
  destruct (nonempty (strip line)) eqn:H; [done|].
  by rewrite (tokens_blank _ H).
Qed.

(** C5.  The anchor of a tokenised line is its first token whose
    normalisation is wanted and not yet resolved, be it token 0 (the one
    the code tries first) or a later one (found by the scan from position
    1); when no token qualifies the line is skipped, leaving the mapping
    as it was.  On the line [Note AAA 5.00] with watchlist \{AAA\} the
    anchor is the second token and the quote's price is 5.00. *)
Theorem C5_anchor_is_first_wanted_token :
  (forall want out toks sym i,
     find_anchor want out toks = Some (sym, i) <->
     exists t, toks !! i = Some t /\ sym = norm_sym t /\
       wanted_unresolved want out sym = true /\
       forall j t', (j < i)%nat -> toks !! j = Some t' ->
         wanted_unresolved want out (norm_sym t') = false) /\
  (forall want out toks,
     find_anchor want out toks = None <->
     forall t, t ∈ toks -> wanted_unresolved want out (norm_sym t) = false) /\
  (forall want label out line,
     find_anchor want out (tokens line) = None ->
     parse_line want label out line = (out, false)) /\
  tokens "Note AAA 5.00" = ["Note"; "AAA"; "5.00"] /\
  find_anchor {["AAA"]} ∅ (tokens "Note AAA 5.00") = Some ("AAA", 1%nat) /\
  (exists out,
     parse_quotes (Pages [Some "Note AAA 5.00"]) ["AAA"] = inr (out, "") /\
     out !! "AAA" = Some (mkQuote "AAA" (Some (5 # 1)%Q) "" JSE_DAILY_PDF)).
Proof.
  split; [|split; [|split; [|split; [|split]]]].
  - intros want out toks sym i. rewrite find_anchor_scan, scan_later_Some.
    split.
    + intros (k & t & -> & H). exists t. exact H.
    + intros (t & H). exists i, t. split; [done|exact H].
  - intros want out toks. rewrite find_anchor_scan. apply scan_later_None.
  - apply parse_line_no_anchor.
  - reflexivity.
  - reflexivity.
  - eexists. split; [reflexivity|]. vm_compute. reflexivity.
Qed.

Lemma C5_witness :
  find_anchor {["AAA"]} ∅ (tokens "Total volume 15,000") = None /\
  parse_line {["AAA"]} "" ∅ "Total volume 15,000" = (∅, false).
Proof.
  split; [reflexivity|].
  apply (proj1 (proj2 (proj2 C5_anchor_is_first_wanted_token)) {["AAA"]} "" ∅
           "Total volume 15,000").
  reflexivity.
Defined.

(** ** The line loop of [parse_quotes] *)

(** What one line does to the mapping: nothing, or one new key. *)
Lemma parse_line_cases want label out line :
  (parse_line want label out line).1 = out \/
  exists sym0 idx0,
    find_anchor want out (tokens line) = Some (sym0, idx0) /\
    (parse_line want label out line).1 =
      <[sym0 := mkQuote sym0 (price_of (collect_nums (tokens line) idx0)) label
                   JSE_DAILY_PDF]> out.
Proof.
  destruct (find_anchor want out (tokens line)) as [[sym0 idx0]|] eqn:H.
  - right. exists sym0, idx0. split; [done|].
    by rewrite (parse_line_anchor _ _ _ _ _ _ H (find_anchor_nonblank _ _ _ _ H)).
  - left. by rewrite parse_line_no_anchor.
Qed.

Lemma parse_line_keeps want label out line k q :
  out !! k = Some q -> (parse_line want label out line).1 !! k = Some q.
Proof.
  intros Hk. destruct (parse_line_cases want label out line)
    as [->|(sym0 & idx0 & Ha & ->)]; [done|].
  apply find_anchor_wanted in Ha as (_ & Hnone & _).
  rewrite lookup_insert_ne; [done|]. intros ->. congruence.
Qed.

Lemma parse_line_adds want label out line k q :
  (parse_line want label out line).1 !! k = Some q ->
  out !! k = Some q \/
  (out !! k = None /\ k ∈ want /\ symbol q = k /\ as_at q = label /\
   source q = JSE_DAILY_PDF /\
   exists t, t ∈ tokens line /\ k = norm_sym t).
Proof.
  destruct (parse_line_cases want label out line)
    as [->|(sym0 & idx0 & Ha & ->)]; [by left|].
  apply find_anchor_wanted in Ha as (Hw & Hnone & t & Ht & Hs).
  destruct (decide (sym0 = k)) as [->|Hne].
  - rewrite lookup_insert_eq. intros [= <-]. right. repeat split; try done.
    exists t. split; [|done]. by eapply list_elem_of_lookup_2.
  - rewrite lookup_insert_ne by done. by left.
Qed.

Lemma parse_lines_keeps want label lines out k q :
  out !! k = Some q -> parse_lines want label lines out !! k = Some q.
Proof.
  revert out. induction lines as [|line lines IH]; intros out Hk; [done|].
  simpl. pose proof (parse_line_keeps want label out line k q Hk) as H.
  destruct (parse_line want label out line) as [out' stop]. simpl in H.
  destruct stop; auto.
Qed.

Lemma parse_lines_adds want label lines out k q :
  parse_lines want label lines out !! k = Some q ->
  out !! k = Some q \/
  (out !! k = None /\ k ∈ want /\ symbol q = k /\ as_at q = label /\
   source q = JSE_DAILY_PDF /\
   exists line t, line ∈ lines /\ t ∈ tokens line /\ k = norm_sym t).
Proof.
  revert out. induction lines as [|line lines IH]; intros out; [by left|].
  simpl. pose proof (parse_line_adds want label out line k) as Hadd.
  pose proof (fun q => parse_line_keeps want label out line k q) as Hkeep.
  destruct (parse_line want label out line) as [out' stop]. simpl in *.
  assert (forall q, out' !! k = Some q ->
    out !! k = Some q \/
    (out !! k = None /\ k ∈ want /\ symbol q = k /\ as_at q = label /\
     source q = JSE_DAILY_PDF /\
     exists line0 t, line0 ∈ line :: lines /\ t ∈ tokens line0 /\ k = norm_sym t))
    as Hstep.
  { intros q' [?|(?&?&?&?&?&t&?&?)]%Hadd; [by left|right].
    repeat split; try done. exists line, t. repeat split; try done. left. }
  destruct stop; [apply Hstep|].
  intros [Hk|(Hnone & Hw & Hs & Hl & Hsrc & l0 & t & Hl0 & Ht & Hn)]%IH.
  - by apply Hstep.
  - right. destruct (out !! k) as [q0|] eqn:Hout.
    { specialize (Hkeep q0 eq_refl). congruence. }
    repeat split; try done. exists l0, t. repeat split; try done. by right.
Qed.

(** ** The matcher against the reference semantics *)

Lemma rev_cons_app (c : ascii) (m l : list ascii) :
  rev (c :: m) ++ l = rev m ++ c :: l.
Proof. simpl. by rewrite <- app_assoc. Qed.

Lemma eat_spec s p q : Re.eat s p = Some q <-> advance p s q.
Proof.
  unfold advance. revert p. induction s as [|c s IH]; intros [l r]; simpl.
  - split.
    + intros [= <-]. by exists r.
    + intros (r' & -> & ->). done.
  - destruct r as [|d r].
    { split; [done|]. by intros (r' & ? & _). }
    destruct (Ascii.eqb_spec c d) as [->|Hne].
    + rewrite IH. simpl. split.
      * intros (r' & -> & ->). exists r'. by simpl; rewrite <- ?app_assoc.
      * intros (r' & [= ->] & ->). exists r'. by simpl; rewrite <- ?app_assoc.
    + split; [done|]. intros (r' & [= ? _] & _). done.
Qed.

Lemma reps_spec cls lo hi l r q :
  In q (Re.reps cls lo hi l r) <->
  exists m, forallb cls m = true /\ (lo <= length m)%nat /\
            hi_ok hi (length m) /\ advance (l, r) m q.
Proof.
  unfold advance. simpl. revert lo hi l r.
  assert (forall lo (l r : list ascii),
    In q (match lo with O => [(l, r)] | S _ => [] end) <-> lo = 0%nat /\ q = (l, r))
    as Hstay.
  { intros [|lo] l r; simpl; [|split; [done|intros [? _]; done]].
    split; [intros [<-|[]]; done|]. intros [_ ->]. by left. }
  assert (forall lo hi l r,
    (lo = 0%nat /\ q = (l, r)) ->
    exists m : list ascii, forallb cls m = true /\ (lo <= length m)%nat /\
      hi_ok hi (length m) /\ exists r', r = m ++ r' /\ q = (rev m ++ l, r'))
    as Hnil.
  { intros lo hi l r [-> ->]. exists []. repeat split; simpl; auto.
    - destruct hi; simpl; lia.
    - by exists r. }
  intros lo hi l r. revert lo hi l.
  induction r as [|c r IH]; intros lo hi l.
  - simpl. rewrite Hstay. split; [apply Hnil|].
    intros (m & _ & Hlo & _ & r' & Hr & ->).
    symmetry in Hr. apply app_eq_nil in Hr as [-> ->]. simpl in *. split; [lia|done].
  - simpl. destruct (cls c && Re.hi_allows hi)%bool eqn:Hc.
    + apply andb_true_iff in Hc as [Hc Hhi].
      rewrite in_app_iff, IH, Hstay. split.
      * intros [(m & Hm & Hlo & Hh & r' & -> & ->)|H]; [|by apply Hnil].
        exists (c :: m). simpl. rewrite Hc, Hm. repeat split; [lia| |].
        -- destruct hi as [[|h]|]; simpl in *; [done|lia|done].
        -- exists r'. by simpl; rewrite <- ?app_assoc.
      * intros (m & Hm & Hlo & Hh & r' & Hr & ->). destruct m as [|c' m].
        { right. simpl in *. split; [lia|by subst]. }
        left. simpl in Hr. injection Hr as -> ->. simpl in Hm.
        apply andb_true_iff in Hm as [_ Hm]. exists m. repeat split; [done|simpl in Hlo; lia| |].
        -- destruct hi as [[|h]|]; simpl in *; [lia|lia|done].
        -- exists r'. by simpl; rewrite <- ?app_assoc.
    + rewrite Hstay. split; [apply Hnil|].
      intros (m & Hm & Hlo & Hh & r' & Hr & ->). destruct m as [|c' m].
      { simpl in *. split; [lia|by subst]. }
      simpl in Hr. injection Hr as -> ->. simpl in Hm.
      apply andb_true_iff in Hm as [Hm1 _]. rewrite Hm1 in Hc. simpl in Hc.
      destruct hi as [[|h]|]; simpl in *; [lia|done|done].
Qed.

Lemma step_spec it p q : In q (Re.step it p) <-> sem_item it p q.
Proof.
  destruct it as [s|alts|cls lo hi| | |]; simpl.
  - rewrite <- eat_spec. destruct (Re.eat s p); simpl; [|split; [tauto|done]].
    split; [intros [->|[]]; done|intros [= ->]; by left].
  - rewrite in_flat_map. split.
    + intros (s & Hs & Hq). exists s. split; [done|]. apply eat_spec.
      destruct (Re.eat s p); simpl in Hq; [|done]. by destruct Hq as [->|[]].
    + intros (s & Hs & Hq%eat_spec). exists s. split; [done|].
      rewrite Hq. by left.
  - destruct p as [l r]. apply reps_spec.
  - destruct (xorb _ _); simpl.
    + split; [intros [->|[]]; done|intros [_ ->]; by left].
    + split; [done|]. by intros [? _].
  - destruct p as [[|c l] r]; simpl.
    + split; [intros [->|[]]; done|intros [_ ->]; by left].
    + split; [done|]. by intros [? _].
  - destruct p as [l [|c [|c' r]]]; simpl.
    + split; [intros [->|[]]; auto|intros [_ ->]; by left].
    + destruct (Ascii.eqb_spec c "010") as [->|Hne]; simpl.
      * split; [intros [->|[]]; auto|intros [_ ->]; by left].
      * split; [done|]. intros [[?|[= ?]] _]; done.
    + split; [done|]. intros [[?|?] _]; done.
Qed.

Lemma run_spec re p q : In q (Re.run re p) <-> sem re p q.
Proof.
  revert p. induction re as [|it re IH]; intros p; simpl.
  - split; [intros [->|[]]; done|intros ->; by left].
  - rewrite in_flat_map. split.
    + intros (p' & H1%step_spec & H2%IH). eauto.
    + intros (p' & H1%step_spec & H2%IH). eauto.
Qed.

Lemma advance_refl p : advance p [] p.
Proof. destruct p as [l r]. by exists r. Qed.

Lemma advance_trans p m1 p1 m2 p2 :
  advance p m1 p1 -> advance p1 m2 p2 -> advance p (m1 ++ m2) p2.
Proof.
  destruct p as [l r]. intros (r1 & Hr & ->) (r2 & Hr1 & ->). simpl in *.
  subst. exists r2. simpl. by rewrite rev_app_distr, <- !app_assoc.
Qed.

Lemma advance_app_inv l r m1 m2 q :
  advance (l, r) (m1 ++ m2) q ->
  advance (l, r) m1 (rev m1 ++ l, drop (length m1) r) /\
  advance (rev m1 ++ l, drop (length m1) r) m2 q.
Proof.
  intros (r' & Hr & ->). simpl in *. subst r.
  rewrite <- app_assoc, drop_app_length. split.
  - by exists (m2 ++ r').
  - exists r'. simpl. by rewrite rev_app_distr, <- app_assoc.
Qed.

Lemma head_rev (l : list ascii) : head (rev l) = last l.
Proof.
  induction l as [|x l _] using rev_ind; [done|].
  by rewrite rev_unit, last_snoc.
Qed.

Lemma matched_advance p m q : advance p m q -> Re.matched p q = m.
Proof.
  destruct p as [l r]. intros (r' & Hr & ->). unfold Re.matched. simpl in *.
  subst r. rewrite length_app.
  replace (length m + length r' - length r')%nat with (length m) by lia.
  by rewrite take_app_length.
Qed.

Lemma search_from_Some re l r p q :
  Re.search_from re l r = Some (p, q) ->
  exists pre post,
    r = pre ++ post /\ p = (rev pre ++ l, post) /\
    head (Re.run re p) = Some q /\
    forall pre' post', r = pre' ++ post' -> (length pre' < length pre)%nat ->
      Re.run re (rev pre' ++ l, post') = [].
Proof.
  revert l. induction r as [|c r IH]; intros l; simpl.
  - destruct (head (Re.run re (l, []))) as [q0|] eqn:Hh; [|done].
    intros [= <- <-]. exists [], []. repeat split; try done.
    intros pre' post' _ Hlen. simpl in Hlen. lia.
  - destruct (head (Re.run re (l, c :: r))) as [q0|] eqn:Hh.
    + intros [= <- <-]. exists [], (c :: r). repeat split; try done.
      intros pre' post' _ Hlen. simpl in Hlen. lia.
    + intros (pre & post & -> & -> & Hq & Hmin)%IH.
      exists (c :: pre), post. repeat split.
      * by simpl; rewrite <- ?app_assoc.
      * by simpl; rewrite <- ?app_assoc.
      * intros [|c' pre'] post' Hsplit Hlen; simpl in *.
        { subst post'. by destruct (Re.run re (l, c :: pre ++ post)). }
        injection Hsplit as <- Hsplit. rewrite <- app_assoc. simpl.
        apply Hmin; [done|lia].
Qed.

Lemma search_from_None re l r :
  Re.search_from re l r = None ->
  forall pre post, r = pre ++ post -> Re.run re (rev pre ++ l, post) = [].
Proof.
  revert l. induction r as [|c r IH]; intros l; simpl.
  - destruct (head (Re.run re (l, []))) as [q0|] eqn:Hh; [done|].
    intros _ pre post Hsplit. symmetry in Hsplit.
    apply app_eq_nil in Hsplit as [-> ->]. simpl.
    by destruct (Re.run re (l, [])).
  - destruct (head (Re.run re (l, c :: r))) as [q0|] eqn:Hh; [done|].
    intros Hnone [|c' pre] post Hsplit; simpl in *.
    + subst post. by destruct (Re.run re (l, c :: r)).
    + injection Hsplit as <- Hsplit. rewrite <- app_assoc. simpl.
      by apply (IH (c :: l)).
Qed.

(** ** The sheet-date pattern *)

Lemma digit_is_word c : is_digit c = true -> is_word c = true.
Proof. unfold is_word. by intros ->. Qed.

Lemma months_start_with_a_letter month :
  In month months -> exists c s, chars month = c :: s /\ is_word c = true.
Proof.
  unfold months. simpl.
  intros H. repeat (destruct H as [<-|H]; [by eexists _, _|]). done.
Qed.

Lemma last_forallb (p : ascii -> bool) (m : list ascii) :
  forallb p m = true -> m <> [] -> exists c, last m = Some c /\ p c = true.
Proof.
  induction m as [|c m _] using rev_ind; [done|].
  rewrite forallb_app. simpl. intros [_ [H _]%andb_true_iff]%andb_true_iff _.
  exists c. by rewrite last_snoc.
Qed.

Lemma head_rev_app (m x : list ascii) :
  m <> [] -> head (rev m ++ x) = last m.
Proof.
  intros Hm. rewrite <- head_rev. destruct (rev m) eqn:E; [|done].
  apply (f_equal (@rev _)) in E. rewrite rev_involutive in E. done.
Qed.

Lemma xorb_true_r_false b : xorb b true = true -> b = false.
Proof. by destruct b. Qed.

Lemma length_nonnil (m : list ascii) : (1 <= length m)%nat -> m <> [].
Proof. destruct m; simpl; [lia|done]. Qed.

Lemma nonnil_length (m : list ascii) : m <> [] -> (1 <= length m)%nat.
Proof. destruct m; simpl; [done|lia]. Qed.

Lemma month_date_sem l r q :
  sem MONTH_DATE_RE (l, r) q <->
  exists m post,
    r = m ++ post /\ q = (rev m ++ l, post) /\ sheet_date_shape m /\
    Re.word_at (head l) = false /\ Re.word_at (head post) = false.
Proof.
  unfold MONTH_DATE_RE. cbn [sem sem_item]. split.
  - intros (p1 & [Hb1 ->] & p2 & (s & Hs & A1) & p3 &
      (ws1 & Fws1 & Lws1 & _ & A2) & p4 & (dd & Fdd & Ldd & Hdd & A3) & p5 &
      A4 & p6 & (ws2 & Fws2 & Lws2 & _ & A5) & p7 &
      (yyyy & Fy & Ly & Hy & A6) & p8 & [Hb2 ->] & ->).
    apply in_map_iff in Hs as (month & <- & Hmonth).
    pose proof (advance_trans _ _ _ _ _ A5 A6) as B.
    pose proof (advance_trans _ _ _ _ _ A4 B) as B1.
    pose proof (advance_trans _ _ _ _ _ A3 B1) as B2.
    pose proof (advance_trans _ _ _ _ _ A2 B2) as B3.
    pose proof (advance_trans _ _ _ _ _ A1 B3) as (post & Hr & ->).
    cbn [fst snd] in *. simpl in Hy, Hdd. subst r.
    eexists _, post. split; [reflexivity|]. split; [reflexivity|].
    assert (yyyy <> []) as Hyn by (apply length_nonnil; lia).
    split; [|split].
    + exists month, ws1, dd, ws2, yyyy. split_and!; try done.
      * by apply length_nonnil.
      * lia.
      * by apply length_nonnil.
      * lia.
    + apply months_start_with_a_letter in Hmonth as (c & s & Hc & Hw).
      rewrite <- app_assoc, Hc in Hb1. simpl in Hb1. rewrite Hw in Hb1.
      by apply xorb_true_r_false.
    + rewrite !app_assoc, rev_app_distr, <- app_assoc in Hb2.
      rewrite head_rev_app in Hb2 by done.
      destruct (last_forallb _ _ Fy Hyn) as (c & Hl & Hc%digit_is_word).
      rewrite Hl in Hb2. simpl in Hb2. rewrite Hc in Hb2.
      by destruct (Re.word_at (head post)).
  - intros (m & post & -> & -> & (month & ws1 & dd & ws2 & yyyy & -> & Hmonth &
      Nws1 & Fws1 & Ldd & Fdd & Nws2 & Fws2 & Ly & Fy) & Hb1 & Hb2).
    assert (advance (l, (chars month ++ ws1 ++ dd ++ chars "," ++ ws2 ++ yyyy) ++ post)
              (chars month ++ ws1 ++ dd ++ chars "," ++ ws2 ++ yyyy)
              (rev (chars month ++ ws1 ++ dd ++ chars "," ++ ws2 ++ yyyy) ++ l, post))
      as A by (by exists post).
    assert (yyyy <> []) as Hyn by (apply length_nonnil; lia).
    apply advance_app_inv in A as [A1 A].
    apply advance_app_inv in A as [A2 A].
    apply advance_app_inv in A as [A3 A].
    apply advance_app_inv in A as [A4 A].
    apply advance_app_inv in A as [A5 A6].
    eexists. split.
    { split; [|reflexivity]. simpl. rewrite Hb1.
      apply months_start_with_a_letter in Hmonth as (c & s & Hc & Hw).
      rewrite <- app_assoc, Hc. simpl. by rewrite Hw. }
    eexists. split.
    { exists (chars month). split; [by apply in_map|exact A1]. }
    eexists. split.
    { exists ws1. repeat split; [done|by apply nonnil_length|exact A2]. }
    eexists. split.
    { exists dd. repeat split; [done|lia|simpl; lia|exact A3]. }
    eexists. split; [exact A4|].
    eexists. split.
    { exists ws2. repeat split; [done|by apply nonnil_length|exact A5]. }
    eexists. split.
    { exists yyyy. repeat split; [done|lia|simpl; lia|exact A6]. }
    eexists. split; [|reflexivity]. split; [|reflexivity].
    destruct A6 as (r7 & Hr7 & E). rewrite E. simpl.
    rewrite head_rev_app by done.
    destruct (last_forallb _ _ Fy Hyn) as (c & -> & Hc%digit_is_word).
    simpl. rewrite Hc.
    assert (r7 = post) as ->; [|by rewrite Hb2].
    injection E as _ E. rewrite <- E. done.
Qed.

Lemma occurs_run text pre m post :
  occurs text pre m post ->
  In (rev m ++ rev pre ++ [], post) (Re.run MONTH_DATE_RE (rev pre ++ [], m ++ post)).
Proof.
  intros (_ & Hshape & Hb1 & Hb2). apply run_spec, month_date_sem.
  exists m, post. split_and!; try done. by rewrite app_nil_r, head_rev.
Qed.

(** [parse_sheet_date] returns the leftmost occurrence of a sheet date in
    the text, and the empty string exactly when there is none. *)
Lemma parse_sheet_date_spec text :
  (parse_sheet_date text = "" /\ forall pre m post, ~ occurs text pre m post) \/
  (exists pre post,
     occurs text pre (chars (parse_sheet_date text)) post /\
     forall pre' m' post', occurs text pre' m' post' ->
       (length pre <= length pre')%nat).
Proof.
  unfold parse_sheet_date, Re.search.
  destruct (Re.search_from MONTH_DATE_RE [] (chars text)) as [[p q]|] eqn:E; simpl.
  - right. apply search_from_Some in E as (pre & post0 & Ht & -> & Hq & Hmin).
    assert (In q (Re.run MONTH_DATE_RE (rev pre ++ [], post0))) as Hin.
    { destruct (Re.run MONTH_DATE_RE (rev pre ++ [], post0)); [done|].
      injection Hq as ->. by left. }
    apply run_spec, month_date_sem in Hin
      as (m & post & -> & -> & Hshape & Hb1 & Hb2).
    rewrite (matched_advance _ m) by (by exists post). rewrite chars_str.
    exists pre, post. split.
    + split_and!; try done. by rewrite app_nil_r, head_rev in Hb1.
    + intros pre' m' post' Hocc.
      destruct (le_lt_dec (length pre) (length pre')) as [|Hlt]; [done|].
      pose proof (occurs_run _ _ _ _ Hocc) as Hin.
      destruct Hocc as (Ht' & _).
      by rewrite (Hmin pre' (m' ++ post') Ht' Hlt) in Hin.
  - left. split; [done|]. intros pre m post Hocc.
    pose proof (occurs_run _ _ _ _ Hocc) as Hin.
    destruct Hocc as (Ht & _).
    by rewrite (search_from_None _ _ _ E pre (m ++ post) Ht) in Hin.
Qed.

Lemma shape_nonempty m : sheet_date_shape m -> m <> [].
Proof.
  intros (month & ws1 & dd & ws2 & yyyy & -> & Hm & _).
  apply months_start_with_a_letter in Hm as (c & s & -> & _). done.
Qed.

(** C9.  [parse_quotes] takes the sheet-date label once, from the text
    of all pages joined by newlines: it is the leftmost occurrence in
    that text of a full month name, whitespace, one or two digits, a
    comma, whitespace and four digits (delimited as words, as the
    pattern asks), and it is empty exactly when there is no occurrence;
    the label returned is that one, and every quote of the returned
    mapping carries it as its [as_at]. *)
Theorem C9_sheet_date_label_once_per_document :
  forall texts symbols,
    let text := full_text_of texts in
    let label := parse_sheet_date text in
    (exists out,
       parse_quotes (Pages texts) symbols = inr (out, label) /\
       forall k q, out !! k = Some q -> as_at q = label) /\
    ((label = "" /\ forall pre m post, ~ occurs text pre m post) \/
     (label <> "" /\
      exists pre post,
        occurs text pre (chars label) post /\
        forall pre' m' post', occurs text pre' m' post' ->
          (length pre <= length pre')%nat)).
Proof.
  intros texts symbols text label. split.
  - eexists. split; [reflexivity|]. intros k q Hq.
    apply parse_lines_adds in Hq as [Hq|(_ & _ & _ & Hl & _)]; [|done].
    by rewrite lookup_empty in Hq.
  - destruct (parse_sheet_date_spec text) as [H|(pre & post & Hocc & Hmin)].
    + by left.
    + right. split; [|by exists pre, post].
      intros Hl. destruct Hocc as (_ & Hs%shape_nonempty & _).
      fold label in Hs. by rewrite Hl in Hs.
Qed.

Lemma C9_witness :
  parse_sheet_date (full_text_of [Some "Sheet for March 4,"; Some "2024"; Some "AAA 1.00 2.00"])
    = ("March 4," ++ newline ++ "2024")%string /\
  exists out,
    parse_quotes (Pages [Some "Sheet for March 4,"; Some "2024"; Some "AAA 1.00 2.00"])
      ["AAA"] = inr (out, ("March 4," ++ newline ++ "2024")%string) /\
    forall k q,
      out !! k = Some q -> as_at q = ("March 4," ++ newline ++ "2024")%string.
Proof.
  split; [reflexivity|].
  exact (proj1 (C9_sheet_date_label_once_per_document
                  [Some "Sheet for March 4,"; Some "2024"; Some "AAA 1.00 2.00"]
                  ["AAA"])).
Defined.

Example sheet_date_label_ex :
  parse_sheet_date
    (full_text_of [Some "JAMAICA STOCK EXCHANGE"; None; Some "Trading for March  4, 2024 and May 1, 2024"])
  = "March  4, 2024".
Proof. reflexivity. Qed.

(** ** Numeric tokens *)

Lemma drop_while_app_all p (a b : list ascii) :
  forallb p a = true -> drop_while p (a ++ b) = drop_while p b.
Proof.
  induction a as [|c a IH]; simpl; [done|].
  intros [-> H]%andb_true_iff. auto.
Qed.

Lemma take_while_app_all p (a b : list ascii) :
  forallb p a = true -> take_while p (a ++ b) = a ++ take_while p b.
Proof.
  induction a as [|c a IH]; simpl; [done|].
  intros [-> H]%andb_true_iff. by rewrite IH.
Qed.

Lemma drop_while_none p (l : list ascii) :
  forallb (fun c => negb (p c)) l = true -> drop_while p l = l.
Proof.
  destruct l as [|c l]; simpl; [done|].
  intros [H _]%andb_true_iff. by destruct (p c).
Qed.

Lemma drop_while_all p (l : list ascii) :
  forallb p l = true -> drop_while p l = [].
Proof.
  intros H. rewrite <- (app_nil_r l), drop_while_app_all by done. done.
Qed.

Lemma take_while_all p (l : list ascii) :
  forallb p l = true -> take_while p l = l.
Proof.
  intros H. rewrite <- (app_nil_r l) at 1.
  rewrite take_while_app_all by done. simpl. apply app_nil_r.
Qed.

Lemma forallb_rev (p : ascii -> bool) (l : list ascii) :
  forallb p (rev l) = forallb p l.
Proof.
  induction l as [|c l IH]; simpl; [done|].
  rewrite forallb_app, IH. simpl. rewrite andb_true_r. apply andb_comm.
Qed.

Lemma forallb_impl (p p' : ascii -> bool) (l : list ascii) :
  (forall c, p c = true -> p' c = true) ->
  forallb p l = true -> forallb p' l = true.
Proof.
  intros Hpp. induction l as [|c l IH]; simpl; [done|].
  intros [H1 H2]%andb_true_iff. by rewrite (Hpp _ H1), IH.
Qed.

Lemma rstrip_by_app p (core rest : list ascii) :
  forallb (fun c => negb (p c)) core = true -> forallb p rest = true ->
  rstrip_by p (core ++ rest) = core.
Proof.
  intros Hc Hr. unfold rstrip_by.
  rewrite rev_app_distr, drop_while_app_all by (by rewrite forallb_rev).
  rewrite drop_while_none by (by rewrite forallb_rev).
  apply rev_involutive.
Qed.

Lemma filter_keep (p : ascii -> bool) (l : list ascii) :
  forallb p l = true -> List.filter p l = l.
Proof.
  induction l as [|c l IH]; simpl; [done|].
  intros [-> H]%andb_true_iff. by rewrite IH.
Qed.

Lemma in_chars_inv set c :
  in_chars set c = true -> In c (chars set).
Proof.
  unfold in_chars. intros (c' & Hin & Heq)%existsb_exists.
  by apply Ascii.eqb_eq in Heq as ->.
Qed.

Lemma digit_plain c :
  is_digit c = true ->
  is_space c = false /\ Ascii.eqb c "," = false /\ Ascii.eqb c "-" = false /\
  Ascii.eqb c "+" = false /\ Ascii.eqb c "." = false.
Proof.
  destruct c as [[] [] [] [] [] [] [] []]; vm_compute; intros; try discriminate;
    repeat split.
Qed.

Lemma num_re_shape t :
  is_num t = true ->
  exists sg d body dot frac rest,
    chars t = sg ++ [d] ++ body ++ dot ++ frac ++ rest /\
    (sg = [] \/ sg = ["+"%char] \/ sg = ["-"%char]) /\
    is_digit d = true /\
    forallb (fun c => is_digit c || in_chars "," c)%bool body = true /\
    (dot = [] \/ dot = ["."%char]) /\
    forallb is_digit frac = true /\
    (rest = [] \/ rest = ["010"%char]).
Proof.
  unfold is_num, Re.match_.
  destruct (head (Re.run NUM_RE ([], chars t))) as [q|] eqn:Hq; [|done].
  intros _.
  assert (In q (Re.run NUM_RE ([], chars t))) as Hin.
  { destruct (Re.run NUM_RE ([], chars t)); [done|]. injection Hq as ->. by left. }
  apply run_spec in Hin. unfold NUM_RE in Hin. cbn [sem sem_item] in Hin.
  destruct Hin as (p1 & [_ ->] & p2 & (sg & Fsg & _ & Hsg & A1) & p3 &
    (m2 & Fm2 & Lm2 & Hm2 & A2) & p4 & (body & Fb & _ & _ & A3) & p5 &
    (dot & Fdot & _ & Hdot & A4) & p6 & (frac & Ff & _ & _ & A5) & p7 &
    [Hend ->] & ->).
  pose proof (advance_trans _ _ _ _ _ A4 A5) as B.
  pose proof (advance_trans _ _ _ _ _ A3 B) as B1.
  pose proof (advance_trans _ _ _ _ _ A2 B1) as B2.
  pose proof (advance_trans _ _ _ _ _ A1 B2) as (rest & Hr & ->).
  cbn [fst snd] in *. simpl in Hsg, Hm2, Hdot.
  destruct m2 as [|d [|? ?]]; simpl in Lm2, Hm2; try lia.
  simpl in Fm2. rewrite andb_true_r in Fm2.
  exists sg, d, body, dot, frac, rest. split_and!; try done.
  - by rewrite Hr, <- !app_assoc.
  - destruct sg as [|c [|? ?]]; simpl in Hsg; try lia; [by left|].
    simpl in Fsg. rewrite andb_true_r in Fsg.
    apply in_chars_inv in Fsg. simpl in Fsg.
    destruct Fsg as [<-|[<-|[]]]; auto.
  - destruct dot as [|c [|? ?]]; simpl in Hdot; try lia; [by left|].
    simpl in Fdot. rewrite andb_true_r in Fdot.
    apply in_chars_inv in Fdot. simpl in Fdot.
    destruct Fdot as [<-|[]]; auto.
Qed.

Lemma py_float_plain neg sg d body dot frac rest :
  (sg = [] /\ neg = false \/ sg = ["+"%char] /\ neg = false \/
   sg = ["-"%char] /\ neg = true) ->
  is_digit d = true -> forallb is_digit body = true ->
  (dot = [] \/ dot = ["."%char]) -> forallb is_digit frac = true ->
  (rest = [] \/ rest = ["010"%char]) ->
  py_float (str (sg ++ [d] ++ body ++ dot ++ frac ++ rest)) =
    match dot with
    | [] => Some (decimal_value neg (d :: body ++ frac) [])
    | _ => Some (decimal_value neg (d :: body) frac)
    end.
Proof.
  intros Hsg Hd Hb Hdot Hf Hrest.
  set (core := sg ++ [d] ++ body ++ dot ++ frac).
  assert (forallb (fun c => negb (is_space c)) core = true) as Hcore.
  { unfold core. rewrite !forallb_app. simpl.
    assert (forall l, forallb is_digit l = true ->
                      forallb (fun c => negb (is_space c)) l = true) as Hdig.
    { intros l. apply forallb_impl. intros c Hc.
      by destruct (digit_plain c Hc) as (-> & _). }
    rewrite (Hdig body Hb), (Hdig frac Hf).
    destruct (digit_plain d Hd) as (-> & _). simpl.
    destruct Hsg as [[-> _]|[[-> _]|[-> _]]], Hdot as [->| ->]; done. }
  unfold py_float, strip.
  replace (sg ++ [d] ++ body ++ dot ++ frac ++ rest) with (core ++ rest)
    by (unfold core; by rewrite <- !app_assoc).
  rewrite !chars_str.
  rewrite rstrip_by_app; [|done|by destruct Hrest as [->| ->]].
  unfold lstrip_by. rewrite drop_while_none by done.
  assert (split_sign core = (neg, [d] ++ body ++ dot ++ frac)) as ->.
  { unfold core. destruct (digit_plain d Hd) as (_ & _ & Hm & Hp & _).
    destruct Hsg as [[-> ->]|[[-> ->]|[-> ->]]]; simpl; [|done|done].
    by rewrite Hm, Hp. }
  assert (forallb is_digit ([d] ++ body) = true) as Hdb
    by (simpl; by rewrite Hd, Hb).
  rewrite (app_assoc [d] body).
  rewrite take_while_app_all, drop_while_app_all by done.
  destruct Hdot as [->| ->].
  - change ([] ++ frac) with frac.
    rewrite take_while_all, drop_while_all by done. simpl. done.
  - change (["."%char] ++ frac) with ("."%char :: frac).
    cbn [drop_while take_while]. 
    replace (is_digit ".") with false by done.
    rewrite Hf, app_nil_r. simpl. done.
Qed.

Lemma filter_commas_digits body :
  forallb (fun c => is_digit c || in_chars "," c)%bool body = true ->
  forallb is_digit (List.filter not_comma body) = true.
Proof.
  induction body as [|c body IH]; simpl; [done|].
  intros [Hc Hb]%andb_true_iff. unfold not_comma at 1.
  destruct (Ascii.eqb_spec c ",") as [->|Hne]; simpl; [auto|].
  rewrite IH by done. rewrite andb_true_r.
  apply orb_true_iff in Hc as [Hc|Hc]; [done|].
  apply in_chars_inv in Hc. simpl in Hc. by destruct Hc as [<-|[]].
Qed.

Lemma digits_no_comma l :
  forallb is_digit l = true -> List.filter not_comma l = l.
Proof.
  intros H. apply filter_keep. revert H. apply forallb_impl.
  intros c Hc. unfold not_comma. by destruct (digit_plain c Hc) as (_ & -> & _).
Qed.

(** A token that matches [NUM_RE] is read by [float] once its commas are
    removed: the conversion in [f] never fails. *)
Lemma float_of_num t :
  is_num t = true -> is_Some (py_float (remove_commas t)).
Proof.
  intros (sg & d & body & dot & frac & rest & Ht & Hsg & Hd & Hb & Hdot & Hf & Hrest)
    %num_re_shape.
  unfold remove_commas. rewrite Ht, !List.filter_app.
  rewrite (digits_no_comma frac Hf).
  rewrite (digits_no_comma [d]) by (simpl; by rewrite Hd).
  replace (List.filter not_comma sg) with sg
    by (by destruct Hsg as [->|[->| ->]]).
  replace (List.filter not_comma dot) with dot by (by destruct Hdot as [->| ->]).
  replace (List.filter not_comma rest) with rest by (by destruct Hrest as [->| ->]).
  pose proof (filter_commas_digits body Hb) as Hb'.
  assert (exists neg, sg = [] /\ neg = false \/ sg = ["+"%char] /\ neg = false \/
                      sg = ["-"%char] /\ neg = true) as [neg Hneg].
  { destruct Hsg as [->|[->| ->]]; [exists false|exists false|exists true]; auto. }
  rewrite (py_float_plain neg sg d _ dot frac rest Hneg Hd Hb' Hdot Hf Hrest).
  by destruct dot.
Qed.

Lemma price_of_spec nums :
  Forall (fun t => is_num t = true) nums ->
  match nums with
  | [] => price_of nums = None
  | [t0] => price_of nums = py_float (remove_commas t0) /\ is_Some (price_of nums)
  | _ :: t1 :: _ =>
      price_of nums = py_float (remove_commas t1) /\ is_Some (price_of nums)
  end.
Proof.
  intros Hnums. destruct nums as [|t0 [|t1 nums]]; [done| |].
  - apply Forall_cons in Hnums as [[v Hv]%float_of_num _].
    unfold price_of, f. simpl. rewrite Hv. eauto.
  - apply Forall_cons in Hnums as [_ [[v Hv]%float_of_num _]%Forall_cons].
    unfold price_of, f. simpl. rewrite Hv. eauto.
Qed.

Lemma collect_nums_are_nums toks idx0 :
  Forall (fun t => is_num t = true) (collect_nums toks idx0).
Proof.
  unfold collect_nums. apply List.Forall_forall. intros t Ht.
  by apply List.filter_In in Ht as [_ Ht].
Qed.

(** C2.  On a line with an anchor, the numeric tokens are those of the
    whole remainder of the line that match the number pattern, in order
    (the others are passed over), and the quote recorded for the anchor
    has as price the number read from the second of them when there is
    one, else from the first when there is one, else none; the reading
    never fails.  On [AAA 10.25 10.50 +0.25 10.00 10.60 15000] with
    watchlist \{AAA\} the price is 10.50. *)
Theorem C2_price_is_second_number_else_first :
  (forall want label out line sym0 idx0,
     find_anchor want out (tokens line) = Some (sym0, idx0) ->
     exists price,
       (parse_line want label out line).1 !! sym0
         = Some (mkQuote sym0 price label JSE_DAILY_PDF) /\
       match List.filter is_num (drop (S idx0) (tokens line)) with
       | [] => price = None
       | [t0] => price = py_float (remove_commas t0) /\ is_Some price
       | _ :: t1 :: _ => price = py_float (remove_commas t1) /\ is_Some price
       end) /\
  (exists out,
     parse_quotes (Pages [Some "AAA 10.25 10.50 +0.25 10.00 10.60 15000"]) ["AAA"]
       = inr (out, "") /\
     out !! "AAA" = Some (mkQuote "AAA" (Some (21 # 2)%Q) "" JSE_DAILY_PDF) /\
     py_float "10.50" = Some (21 # 2)%Q) /\
  (exists out,
     parse_quotes (Pages [Some "AAA susp. 1,010.25 n/a 7.5 abc"]) ["AAA"]
       = inr (out, "") /\
     out !! "AAA" = Some (mkQuote "AAA" (Some (15 # 2)%Q) "" JSE_DAILY_PDF)).
Proof.
  split; [|split].
  - intros want label out line sym0 idx0 Ha.
    exists (price_of (collect_nums (tokens line) idx0)). split.
    + rewrite (parse_line_anchor _ _ _ _ _ _ Ha (find_anchor_nonblank _ _ _ _ Ha)).
      simpl. apply lookup_insert_eq.
    + apply (price_of_spec (collect_nums (tokens line) idx0)).
      apply collect_nums_are_nums.
  - eexists. split; [reflexivity|]. split; [|reflexivity]. vm_compute. reflexivity.
  - eexists. split; [reflexivity|]. vm_compute. reflexivity.
Qed.

Lemma C2_witness :
  find_anchor {["AAA"]} ∅ (tokens "AAA 10.25 10.50") = Some ("AAA", 0%nat) /\
  exists price,
    (parse_line {["AAA"]} "" ∅ "AAA 10.25 10.50").1 !! "AAA"
      = Some (mkQuote "AAA" price "" JSE_DAILY_PDF) /\
    match List.filter is_num (drop 1 (tokens "AAA 10.25 10.50")) with
    | [] => price = None
    | [t0] => price = py_float (remove_commas t0) /\ is_Some price
    | _ :: t1 :: _ => price = py_float (remove_commas t1) /\ is_Some price
    end.
Proof.
  split; [reflexivity|].
  apply (proj1 C2_price_is_second_number_else_first {["AAA"]} "" ∅
           "AAA 10.25 10.50" "AAA" 0%nat).
  reflexivity.
Defined.

(** ** The merge of a parse into the per-date mapping *)

Lemma merge_into_lookup (combined parsed : gmap string Quote) k :
  merge_into combined parsed !! k =
    match combined !! k with
    | Some q => Some q
    | None => parsed !! k
    end.
Proof.
  unfold merge_into. revert k.
  apply (map_fold_weak_ind
    (fun (r m : gmap string Quote) =>
       forall k, r !! k = match combined !! k with
                          | Some q => Some q
                          | None => m !! k
                          end)).
  - intros k. rewrite lookup_empty. by destruct (combined !! k).
  - intros i x m r Hi IH k.
    destruct (r !! i) as [q|] eqn:Hr.
    + rewrite IH. destruct (combined !! k) as [q'|] eqn:Hc; [done|].
      destruct (decide (i = k)) as [->|Hne].
      * rewrite IH, Hc, Hi in Hr. done.
      * by rewrite lookup_insert_ne.
    + destruct (decide (i = k)) as [->|Hne].
      * rewrite !lookup_insert_eq. rewrite IH in Hr.
        by destruct (combined !! k).
      * rewrite !lookup_insert_ne by done. apply IH.
Qed.

Lemma merge_into_keeps combined parsed k q :
  combined !! k = Some q -> merge_into combined parsed !! k = Some q.
Proof. intros H. by rewrite merge_into_lookup, H. Qed.

Lemma nonempty_dict_false (m : gmap string Quote) :
  nonempty_dict m = false <-> m = ∅.
Proof.
  unfold nonempty_dict. rewrite negb_false_iff, Nat.eqb_eq. apply map_size_empty_iff.
Qed.

Lemma nonempty_dict_true (m : gmap string Quote) :
  nonempty_dict m = true <-> m <> ∅.
Proof.
  rewrite <- nonempty_dict_false. by destruct (nonempty_dict m).
Qed.

Lemma nonempty_dict_empty : nonempty_dict ∅ = false.
Proof. by apply nonempty_dict_false. Qed.

Lemma merge_into_nonempty combined parsed :
  parsed <> ∅ -> merge_into combined parsed <> ∅.
Proof.
  intros Hp Hm. apply Hp, map_eq. intros k. rewrite lookup_empty.
  pose proof (merge_into_lookup combined parsed k) as H.
  rewrite Hm, lookup_empty in H. by destruct (combined !! k).
Qed.

Lemma merge_into_empty_r combined : merge_into combined ∅ = combined.
Proof.
  apply map_eq. intros k. rewrite merge_into_lookup, lookup_empty.
  by destruct (combined !! k).
Qed.

(** ** The retrieval loop *)

Section RetrievalFacts.

Variable fetch : string -> Z -> exn + pdf.
Variable symbols : list string.
Variable mids : list Z.

Lemma after_parse_spec date parsed label d st :
  let r := after_parse symbols date parsed label d st in
  combined r.1.1 =
    (if nonempty_dict parsed then merge_into (combined d) parsed else combined d) /\
  got_any r.1.1 = (if nonempty_dict parsed then true else got_any d) /\
  used_as_at r.1.2 =
    (if (nonempty_dict parsed && nonempty label)%bool then label else used_as_at st) /\
  errors r.1.2 = errors st /\ calls r.1.2 = calls st /\
  r.2 = Nat.eqb (size (combined r.1.1)) (length symbols) /\
  (r.2 = true -> best_quotes r.1.2 = combined r.1.1 /\ used_date r.1.2 = date) /\
  (r.2 = false ->
   best_quotes r.1.2 = best_quotes st /\ used_date r.1.2 = used_date st).
Proof.
  unfold after_parse.
  destruct (nonempty_dict parsed), (nonempty label); simpl;
    match goal with |- context [Nat.eqb ?a ?b] => destruct (Nat.eqb a b) eqn:E end;
    simpl; rewrite ?E; split_and!; try done; try (by intros [=]); try (by intros _).
Qed.

(** The three ways an attempt goes. *)
Lemma attempt_cases date mid d st :
  let st1 := log_call (Call_fetch_pdf date mid) st in
  (exists e, fetch date mid = inl e /\
     attempt fetch symbols date mid d st
       = (d, append_error (error_line date mid e) st1, false)) \/
  (exists pdf_bytes e, fetch date mid = inr pdf_bytes /\
     parse_quotes pdf_bytes symbols = inl e /\
     attempt fetch symbols date mid d st
       = (d, append_error (error_line date mid e)
               (log_call (Call_parse_quotes pdf_bytes symbols) st1), false)) \/
  (exists pdf_bytes parsed label, fetch date mid = inr pdf_bytes /\
     parse_quotes pdf_bytes symbols = inr (parsed, label) /\
     attempt fetch symbols date mid d st
       = after_parse symbols date parsed label d
           (log_call (Call_parse_quotes pdf_bytes symbols) st1)).
Proof.
  cbv zeta. unfold attempt.
  destruct (fetch date mid) as [e|pdf_bytes]; [left; by exists e|right].
  destruct (parse_quotes pdf_bytes symbols) as [e|[parsed label]] eqn:Hp;
    [left; by exists pdf_bytes, e|right; by exists pdf_bytes, parsed, label].
Qed.

(** An attempt keeps what the per-date mapping already holds. *)
Lemma attempt_keeps date mid d st k q :
  combined d !! k = Some q ->
  combined (attempt fetch symbols date mid d st).1.1 !! k = Some q.
Proof.
  intros Hk.
  destruct (attempt_cases date mid d st)
    as [(e & _ & ->)|[(p & e & _ & _ & ->)|(p & parsed & label & _ & _ & ->)]];
    [done|done|].
  destruct (after_parse_spec date parsed label d
              (log_call (Call_parse_quotes p symbols)
                 (log_call (Call_fetch_pdf date mid) st))) as (-> & _).
  destruct (nonempty_dict parsed); [by apply merge_into_keeps|done].
Qed.

Lemma market_loop_keeps date ms d st k q :
  combined d !! k = Some q ->
  combined (market_loop fetch symbols date ms d st).1 !! k = Some q.
Proof.
  revert d st. induction ms as [|mid ms IH]; intros d st Hk; [done|].
  simpl. pose proof (attempt_keeps date mid d st k q Hk) as H.
  destruct (attempt fetch symbols date mid d st) as [[d' st'] stop].
  simpl in H. destruct stop; auto.
Qed.

(** What an attempt does to the day's variables does not depend on the
    variables of the outer loop. *)
Lemma attempt_day_indep date mid d st st' :
  (attempt fetch symbols date mid d st).1.1
    = (attempt fetch symbols date mid d st').1.1 /\
  (attempt fetch symbols date mid d st).2
    = (attempt fetch symbols date mid d st').2.
Proof.
  unfold attempt. destruct (fetch date mid) as [e|p]; [done|].
  destruct (parse_quotes p symbols) as [e|[parsed label]]; [done|].
  unfold after_parse. destruct (nonempty_dict parsed); simpl;
    match goal with |- context [Nat.eqb ?a ?b] => destruct (Nat.eqb a b) end;
    done.
Qed.

Lemma market_loop_day_indep date ms d st st' :
  (market_loop fetch symbols date ms d st).1
    = (market_loop fetch symbols date ms d st').1.
Proof.
  revert d st st'. induction ms as [|mid ms IH]; intros d st st'; [done|].
  simpl. destruct (attempt_day_indep date mid d st st') as [H1 H2].
  destruct (attempt fetch symbols date mid d st) as [[d1 st1] stop1],
    (attempt fetch symbols date mid d st') as [[d2 st2] stop2].
  simpl in *. subst. destruct stop2; [done|apply IH].
Qed.

End RetrievalFacts.

(** C4.  First writer wins at both levels.  In the line loop of one
    document an entry of the mapping is never changed by a later line;
    in the market loop of one date an entry of the per-date mapping is
    never changed by a later market, so the value a market writes for a
    symbol not yet present is the value the date ends with.  When market
    33 quotes AAA at 10.50 and the later market 31 quotes it at 11.00,
    the run reports 10.50. *)
Theorem C4_first_writer_wins :
  (forall want label lines out k q,
     out !! k = Some q -> parse_lines want label lines out !! k = Some q) /\
  (forall fetch symbols date_iso mids d st k q,
     combined d !! k = Some q ->
     combined (market_loop fetch symbols date_iso mids d st).1 !! k = Some q) /\
  (forall fetch symbols date_iso m1 later d st pdf1 parsed1 label1 x q1,
     combined d !! x = None ->
     fetch date_iso m1 = inr pdf1 ->
     parse_quotes pdf1 symbols = inr (parsed1, label1) ->
     parsed1 !! x = Some q1 ->
     combined (market_loop fetch symbols date_iso (m1 :: later) d st).1 !! x
       = Some q1) /\
  (exists p1 p2 l1 l2,
     parse_quotes (sheet ["Daily Quote Sheet March 5, 2024"; "AAA 10.25 10.50"])
       ["AAA"; "BBB"] = inr (p1, l1) /\
     parse_quotes (sheet ["AAA 11.00 11.00"; "BBB 5.00"]) ["AAA"; "BBB"]
       = inr (p2, l2) /\
     last_price <$> p1 !! "AAA" = Some (Some (21 # 2)%Q) /\
     last_price <$> p2 !! "AAA" = Some (Some (11 # 1)%Q) /\
     last_price <$> best_quotes (retrieval (main world_two_markets)) !! "AAA"
       = Some (Some (21 # 2)%Q)).
Proof.
  split_and!.
  - apply parse_lines_keeps.
  - apply market_loop_keeps.
  - intros fetch symbols date_iso m1 later d st pdf1 parsed1 label1 x q1
      Hnone Hfetch Hparse Hx.
    assert (combined (attempt fetch symbols date_iso m1 d st).1.1 !! x = Some q1)
      as Hfirst.
    { unfold attempt. rewrite Hfetch, Hparse.
      match goal with |- context [after_parse ?s ?dt ?p ?l ?d0 ?st0] =>
        destruct (after_parse_spec s dt p l d0 st0) as (-> & _) end.
      assert (nonempty_dict parsed1 = true) as ->.
      { apply nonempty_dict_true. intros ->. by rewrite lookup_empty in Hx. }
      by rewrite merge_into_lookup, Hnone. }
    simpl. destruct (attempt fetch symbols date_iso m1 d st) as [[d' st'] stop].
    simpl in Hfirst. destruct stop; [done|]. by apply market_loop_keeps.
  - do 4 eexists. split; [reflexivity|]. split; [reflexivity|].
    split_and!; vm_compute; reflexivity.
Qed.

Lemma C4_witness :
  (∅ : gmap string Quote) !! "AAA" = None /\
  two_markets "2024-03-05" 33
    = inr (sheet ["Daily Quote Sheet March 5, 2024"; "AAA 10.25 10.50"]) /\
  combined (market_loop two_markets ["AAA"; "BBB"] "2024-03-05" [33; 31]
              initial_day initial_state).1 !! "AAA"
    = Some (mkQuote "AAA" (Some (21 # 2)%Q) "March 5, 2024" JSE_DAILY_PDF).
Proof.
  split; [reflexivity|]. split; [reflexivity|].
  eapply (proj1 (proj2 (proj2 C4_first_writer_wins)) two_markets ["AAA"; "BBB"]
            "2024-03-05" 33 [31] initial_day initial_state).
  - reflexivity.
  - reflexivity.
  - reflexivity.
  - vm_compute. reflexivity.
Defined.

Section LoopFacts.

Variable fetch : string -> Z -> exn + pdf.
Variable symbols : list string.
Variable mids : list Z.

Lemma attempt_step date mid d st :
  let r := attempt fetch symbols date mid d st in
  day_step symbols date d st r.1.1 r.1.2 /\
  (r.2 = false ->
   best_quotes r.1.2 = best_quotes st /\ used_date r.1.2 = used_date st).
Proof.
  cbv zeta. unfold day_step.
  destruct (attempt_cases fetch symbols date mid d st)
    as [(e & _ & ->)|[(p & e & _ & _ & ->)|(p & parsed & label & _ & _ & ->)]].
  - simpl. split_and!; eauto.
    exists [Call_fetch_pdf date mid]. split; [done|]. by repeat constructor.
  - simpl. split_and!; eauto.
    exists [Call_fetch_pdf date mid; Call_parse_quotes p symbols].
    split; [by rewrite <- app_assoc|]. by repeat constructor.
  - match goal with |- context [after_parse ?s ?dt ?pa ?l ?d0 ?st0] =>
      destruct (after_parse_spec s dt pa l d0 st0)
        as (Hc & Hg & Hu & He & Hcalls & Hstop & Htrue & Hfalse);
      set (r := after_parse s dt pa l d0 st0) in * end.
    simpl in Hu, He, Hcalls, Hfalse. split_and!.
    + exists [Call_fetch_pdf date mid; Call_parse_quotes p symbols].
      split; [by rewrite Hcalls, <- app_assoc|]. by repeat constructor.
    + exists []. by rewrite He, app_nil_r.
    + destruct (r.2) eqn:Hr.
      * right. destruct (Htrue eq_refl) as [-> ->]. split_and!; try done.
        symmetry in Hstop. by apply Nat.eqb_eq in Hstop.
      * left. by apply Hfalse.
    + intros Hd. rewrite Hc, Hg. destruct (nonempty_dict parsed) eqn:Hp; [|done].
      symmetry. apply nonempty_dict_true, merge_into_nonempty.
      by apply nonempty_dict_true.
    + intros Hempty. rewrite Hc in Hempty. rewrite Hu.
      destruct (nonempty_dict parsed) eqn:Hp; [|done].
      apply nonempty_dict_true in Hp. by apply merge_into_nonempty in Hempty.
    + done.
Qed.

Lemma day_step_trans date d st d1 st1 d2 st2 :
  (combined d2 = ∅ -> combined d1 = ∅) ->
  (best_quotes st2 = best_quotes st1 /\ used_date st2 = used_date st1 \/
   best_quotes st2 = combined d2 /\ used_date st2 = date /\
   size (combined d2) = length symbols) ->
  day_step symbols date d st d1 st1 ->
  (best_quotes st1 = best_quotes st /\ used_date st1 = used_date st) ->
  day_step symbols date d1 st1 d2 st2 -> day_step symbols date d st d2 st2.
Proof.
  intros Hmono Hb2 ((n1 & Hc1 & Hn1) & (e1 & He1) & _ & Hg1 & Hu1) [Hb1 Hd1]
    ((n2 & Hc2 & Hn2) & (e2 & He2) & _ & Hg2 & Hu2).
  unfold day_step. split_and!.
  - exists (n1 ++ n2). rewrite Hc2, Hc1, <- app_assoc. split; [done|].
    by apply Forall_app.
  - exists (e1 ++ e2). by rewrite He2, He1, <- app_assoc.
  - destruct Hb2 as [[-> ->]|H]; [left|by right]. done.
  - auto.
  - intros H2. destruct (Hu2 H2) as [-> H1]. by apply Hu1.
Qed.

Lemma market_loop_step date ms d st :
  let r := market_loop fetch symbols date ms d st in
  day_step symbols date d st r.1 r.2.
Proof.
  cbv zeta. revert d st. induction ms as [|mid ms IH]; intros d st.
  - simpl. unfold day_step. split_and!; auto.
    + exists []. by rewrite app_nil_r.
    + exists []. by rewrite app_nil_r.
  - simpl. destruct (attempt_step date mid d st) as [Hstep Hfalse].
    destruct (attempt fetch symbols date mid d st) as [[d1 st1] stop].
    simpl in Hstep, Hfalse. destruct stop; [done|].
    specialize (IH d1 st1). specialize (Hfalse eq_refl).
    destruct (market_loop fetch symbols date ms d1 st1) as [d2 st2] eqn:Hml.
    simpl in *. apply (day_step_trans date d st d1 st1 d2 st2); try done.
    + destruct IH as (_ & _ & _ & _ & Hu). by intros [_ ?]%Hu.
    + by destruct IH as (_ & _ & Hb & _).
Qed.

End LoopFacts.

Section DateLoopFacts.

Variable fetch : string -> Z -> exn + pdf.
Variable symbols : list string.
Variable mids : list Z.

Local Abbreviation day_of' := (day_of fetch symbols mids).
Local Abbreviation date_loop' := (date_loop fetch symbols mids).
Local Abbreviation market_loop' := (market_loop fetch symbols).

Lemma market_loop_day date st :
  (market_loop' date mids initial_day st).1 = day_of' date.
Proof. apply market_loop_day_indep. Qed.

(** A date whose mapping stays empty changes neither the result nor the
    label and hands over to the next date. *)
Lemma date_loop_skip date dates st :
  best_quotes st = ∅ -> combined (day_of' date) = ∅ ->
  let st' := (market_loop' date mids initial_day st).2 in
  date_loop' (date :: dates) st = date_loop' dates st' /\
  best_quotes st' = ∅ /\ used_as_at st' = used_as_at st /\
  (symbols <> [] -> used_date st' = used_date st).
Proof.
  intros Hb He. cbv zeta. simpl.
  pose proof (market_loop_step fetch symbols date mids initial_day st) as Hstep.
  pose proof (market_loop_day date st) as Hday.
  destruct (market_loop' date mids initial_day st) as [dy st'].
  simpl in *. subst dy.
  destruct Hstep as (_ & _ & Hbest & _ & Hu).
  destruct (Hu He) as [Hu' _].
  assert (best_quotes st' = ∅) as Hb'.
  { destruct Hbest as [[-> _]|[-> _]]; done. }
  rewrite Hb', He, nonempty_dict_empty, andb_false_r. split_and!; try done.
  intros Hs. destruct Hbest as [[_ ->]|(_ & _ & Hsize)]; [done|].
  rewrite He, map_size_empty in Hsize. by destruct symbols.
Qed.

(** The first date whose mapping is not empty ends the loop. *)
Lemma date_loop_hit date dates st :
  best_quotes st = ∅ -> combined (day_of' date) <> ∅ ->
  date_loop' (date :: dates) st = date_loop' [date] st /\
  best_quotes (date_loop' (date :: dates) st) = combined (day_of' date) /\
  used_date (date_loop' (date :: dates) st) = date.
Proof.
  intros Hb Hne. simpl.
  pose proof (market_loop_step fetch symbols date mids initial_day st) as Hstep.
  pose proof (market_loop_day date st) as Hday.
  destruct (market_loop' date mids initial_day st) as [dy st'].
  simpl in *. subst dy.
  destruct Hstep as (_ & _ & Hbest & Hg & _).
  rewrite (Hg eq_refl).
  apply nonempty_dict_true in Hne as Hne'. rewrite Hne'. simpl.
  destruct (nonempty_dict (best_quotes st')) eqn:Hn; [|done].
  split; [done|]. destruct Hbest as [[Hbq _]|(Hbq & Hud & _)]; [|done].
  rewrite Hbq, Hb in Hn. done.
Qed.

Lemma date_loop_first_hit before d after st :
  best_quotes st = ∅ ->
  (forall x, In x before -> combined (day_of' x) = ∅) ->
  combined (day_of' d) <> ∅ ->
  date_loop' (before ++ d :: after) st = date_loop' (before ++ [d]) st /\
  best_quotes (date_loop' (before ++ d :: after) st) = combined (day_of' d) /\
  used_date (date_loop' (before ++ d :: after) st) = d.
Proof.
  revert st. induction before as [|x before IH]; intros st Hb Hempty Hne.
  - apply (date_loop_hit d after st Hb Hne).
  - assert (combined (day_of' x) = ∅) as Hx by (apply Hempty; by left).
    rewrite <- !app_comm_cons.
    destruct (date_loop_skip x (before ++ d :: after) st Hb Hx) as (-> & Hb' & _).
    destruct (date_loop_skip x (before ++ [d]) st Hb Hx) as (-> & _).
    apply IH; [done| |done].
    intros y Hy. apply Hempty. by right.
Qed.

Lemma date_loop_exhausted dates st :
  symbols <> [] -> best_quotes st = ∅ ->
  (forall x, In x dates -> combined (day_of' x) = ∅) ->
  best_quotes (date_loop' dates st) = ∅ /\
  used_as_at (date_loop' dates st) = used_as_at st /\
  used_date (date_loop' dates st) = used_date st.
Proof.
  intros Hs. revert st. induction dates as [|x dates IH]; intros st Hb Hempty.
  - done.
  - assert (combined (day_of' x) = ∅) as Hx by (apply Hempty; by left).
    destruct (date_loop_skip x dates st Hb Hx) as (-> & Hb' & Hu & Hd).
    rewrite <- Hu, <- (Hd Hs). apply IH; [done|].
    intros y Hy. apply Hempty. by right.
Qed.

(** Every call of the loop is a fetch for one of its dates or a parse
    with the full symbol list, and nothing is taken out of the error
    list. *)
Lemma date_loop_log dates st :
  (exists new, calls (date_loop' dates st) = calls st ++ new /\
     Forall (fun c => exists x, In x dates /\ call_of symbols x c) new) /\
  (exists errs, errors (date_loop' dates st) = errors st ++ errs).
Proof.
  revert st. induction dates as [|x dates IH]; intros st.
  - simpl. split; exists []; by rewrite app_nil_r.
  - simpl.
    pose proof (market_loop_step fetch symbols x mids initial_day st) as Hstep.
    destruct (market_loop' x mids initial_day st) as [dy st'].
    destruct Hstep as ((n1 & Hc1 & Hn1) & (e1 & He1) & _). simpl in Hc1, He1.
    assert (Forall (fun c => exists y, In y (x :: dates) /\ call_of symbols y c) n1)
      as Hn1'.
    { eapply Forall_impl; [exact Hn1|]. intros c Hc. exists x. split; [by left|done]. }
    destruct (nonempty_dict (best_quotes st')); [by split; eauto|].
    destruct (got_any dy && nonempty_dict (combined dy))%bool; [by split; eauto|].
    destruct (IH st') as ((n2 & Hc2 & Hn2) & (e2 & He2)). split.
    + exists (n1 ++ n2). rewrite Hc2, Hc1, <- app_assoc. split; [done|].
      apply Forall_app. split; [done|].
      eapply Forall_impl; [exact Hn2|]. intros c (y & Hy & Hc).
      exists y. split; [by right|done].
    + exists (e1 ++ e2). by rewrite He2, He1, <- app_assoc.
Qed.

End DateLoopFacts.

(** ** [main] *)

Lemma dates_back_ok today ds :
  Forall (fun d => 1 <= today - d) ds ->
  dates_back today ds = inr (map (fun d => isoformat (today - d)) ds).
Proof.
  induction ds as [|d ds IH]; [done|].
  intros [Hd Hds]%Forall_cons. simpl. unfold date_minus.
  destruct (Z.leb_spec 1 (today - d)); [|lia]. by rewrite IH.
Qed.

Lemma range0_bounds n : Forall (fun d => 0 <= d < n) (range0 n).
Proof.
  unfold range0. apply List.Forall_forall. intros d Hd.
  apply in_map_iff in Hd as (i & <- & Hi). apply in_seq in Hi. lia.
Qed.

Lemma range0_split n k :
  0 <= k < n -> exists rest, range0 n = range0 k ++ k :: rest.
Proof.
  intros Hk. unfold range0.
  replace (Z.to_nat n) with (Z.to_nat k + S (Z.to_nat (n - k - 1)))%nat by lia.
  rewrite seq_app, map_app. simpl. rewrite Z2Nat.id by lia. eauto.
Qed.

Lemma latest_trading_date_iso_ok today lookback :
  lookback <= today ->
  latest_trading_date_iso today lookback
    = inr (map (fun j => isoformat (today - j)) (range0 lookback)).
Proof.
  intros H. apply dates_back_ok.
  eapply Forall_impl; [apply range0_bounds|]. simpl. intros d Hd. lia.
Qed.

(** The run of [main] when the watchlist is not empty and the lookback
    setting is an integer that does not reach before the first date. *)
Lemma main_ok w lookback :
  read_watchlist (watchlist_file w) <> [] ->
  py_int (getenv (JSE_LOOKBACK_DAYS w) "10") = Some lookback ->
  lookback <= today w ->
  let symbols := read_watchlist (watchlist_file w) in
  let st := date_loop (fetch_pdf w) symbols (read_market_ids (JSE_MARKETS w))
              (candidates w lookback) initial_state in
  main w = mkRun (inr 0) (Some (make_rows symbols st)) [wrote_line symbols st]
                 (debug_lines w st) st.
Proof.
  intros Hs Hl Ht. cbv zeta. unfold main. rewrite Hl.
  rewrite latest_trading_date_iso_ok by done.
  by destruct (read_watchlist (watchlist_file w)).
Qed.

(** C3.  The candidate dates are today minus 0, 1, ..., lookback - 1, in
    that order; when the dates before the one [k] days back yield
    nothing and that one yields at least one quote, the run adopts its
    mapping, complete or not, as the result, tagged with its date, and
    fetches nothing for an older date: the run is the run over the
    dates up to [k] days back. *)
Theorem C3_first_date_with_a_hit_wins :
  forall w lookback k,
    read_watchlist (watchlist_file w) <> [] ->
    py_int (getenv (JSE_LOOKBACK_DAYS w) "10") = Some lookback ->
    lookback <= today w ->
    0 <= k < lookback ->
    (forall j, 0 <= j < k -> combined (day_back w j) = ∅) ->
    combined (day_back w k) <> ∅ ->
    latest_trading_date_iso (today w) lookback = inr (candidates w lookback) /\
    ending (main w) = inr 0 /\
    best_quotes (retrieval (main w)) = combined (day_back w k) /\
    used_date (retrieval (main w)) = isoformat (today w - k) /\
    retrieval (main w)
      = date_loop (fetch_pdf w) (read_watchlist (watchlist_file w))
          (read_market_ids (JSE_MARKETS w)) (candidates w (k + 1)) initial_state /\
    (forall date_iso mid,
       In (Call_fetch_pdf date_iso mid) (calls (retrieval (main w))) ->
       exists j, 0 <= j <= k /\ date_iso = isoformat (today w - j)).
Proof.
  intros w lookback k Hs Hl Ht Hk Hbefore Hhit.
  rewrite (main_ok w lookback Hs Hl Ht). simpl.
  destruct (range0_split lookback k Hk) as [rest Hsplit].
  assert (candidates w (k + 1)
          = map (fun j => isoformat (today w - j)) (range0 k) ++ [isoformat (today w - k)])
    as Hk1.
  { unfold candidates. destruct (range0_split (k + 1) k ltac:(lia)) as [r Hr].
    assert (length (range0 (k + 1)) = S (length (range0 k))) as Hlen.
    { unfold range0. rewrite !length_map, !length_seq. lia. }
    rewrite Hr, length_app in Hlen. simpl in Hlen.
    destruct r; [|simpl in Hlen; lia]. by rewrite Hr, map_app. }
  assert (candidates w lookback
          = map (fun j => isoformat (today w - j)) (range0 k)
            ++ isoformat (today w - k)
               :: map (fun j => isoformat (today w - j)) rest) as Hcand.
  { unfold candidates. by rewrite Hsplit, map_app. }
  destruct (date_loop_first_hit (fetch_pdf w) (read_watchlist (watchlist_file w))
              (read_market_ids (JSE_MARKETS w))
              (map (fun j => isoformat (today w - j)) (range0 k))
              (isoformat (today w - k))
              (map (fun j => isoformat (today w - j)) rest) initial_state)
    as (Heq & Hbest & Hdate); [done| |done|].
  { intros x (j & <- & Hj)%in_map_iff. apply Hbefore.
    pose proof (range0_bounds k) as Hb. rewrite List.Forall_forall in Hb.
    by apply Hb. }
  split_and!.
  - by apply latest_trading_date_iso_ok.
  - done.
  - by rewrite Hcand.
  - by rewrite Hcand.
  - by rewrite Hcand, Hk1.
  - intros date_iso mid Hin. rewrite Hcand, Heq, <- Hk1 in Hin.
    destruct (date_loop_log (fetch_pdf w) (read_watchlist (watchlist_file w))
                (read_market_ids (JSE_MARKETS w)) (candidates w (k + 1))
                initial_state) as ((new & Hcalls & Hnew) & _).
    rewrite Hcalls in Hin. simpl in Hin. rewrite List.Forall_forall in Hnew.
    destruct (Hnew _ Hin) as (x & Hx & Hc). simpl in Hc. subst x.
    unfold candidates in Hx. apply in_map_iff in Hx as (j & <- & Hj).
    pose proof (range0_bounds (k + 1)) as Hb. rewrite List.Forall_forall in Hb.
    specialize (Hb j Hj). exists j. split; [lia|done].
Qed.

Lemma C3_witness :
  read_watchlist (watchlist_file world_three_days) = ["AAA"; "BBB"] /\
  candidates world_three_days 3 = ["2024-03-05"; "2024-03-04"; "2024-03-03"] /\
  dom (combined (day_back world_three_days 1)) = {["AAA"]} /\
  dom (combined (day_back world_three_days 2)) = {["AAA"; "BBB"]} /\
  best_quotes (retrieval (main world_three_days))
    = combined (day_back world_three_days 1) /\
  used_date (retrieval (main world_three_days)) = "2024-03-04" /\
  forall date_iso mid,
    In (Call_fetch_pdf date_iso mid) (calls (retrieval (main world_three_days))) ->
    exists j, 0 <= j <= 1 /\ date_iso = isoformat (today world_three_days - j).
Proof.
  split; [by vm_compute|]. split; [by vm_compute|].
  split; [by vm_compute|]. split; [by vm_compute|].
  pose proof (C3_first_date_with_a_hit_wins world_three_days 3 1) as H.
  destruct H as (_ & _ & Hb & Hd & _ & Hc).
  - by vm_compute.
  - reflexivity.
  - simpl. lia.
  - lia.
  - intros j Hj. assert (j = 0) as -> by lia. by vm_compute.
  - apply nonempty_dict_true. by vm_compute.
  - split; [exact Hb|]. split; [exact Hd|exact Hc].
Defined.

Lemma main_retrieval w :
  retrieval (main w) = initial_state \/
  exists dates,
    retrieval (main w)
      = date_loop (fetch_pdf w) (read_watchlist (watchlist_file w))
          (read_market_ids (JSE_MARKETS w)) dates initial_state.
Proof.
  unfold main. destruct (read_watchlist (watchlist_file w)) as [|s l]; [by left|].
  destruct (py_int _) as [lookback|]; [|by left].
  destruct (latest_trading_date_iso _ _) as [e|dates]; [by left|].
  right. by exists dates.
Qed.

Lemma attempt_calls fetch symbols date_iso mid d st pdf_bytes :
  fetch date_iso mid = inr pdf_bytes ->
  calls (attempt fetch symbols date_iso mid d st).1.2
    = calls st ++ [Call_fetch_pdf date_iso mid; Call_parse_quotes pdf_bytes symbols].
Proof.
  intros Hf. unfold attempt. rewrite Hf.
  destruct (parse_quotes pdf_bytes symbols) as [e|[parsed label]].
  - simpl. by rewrite <- app_assoc.
  - match goal with |- context [after_parse ?s ?dt ?pa ?l ?d0 ?st0] =>
      destruct (after_parse_spec s dt pa l d0 st0) as (_ & _ & _ & _ & -> & _) end.
    simpl. by rewrite <- app_assoc.
Qed.

(** C1, as the code has it.  After a successful fetch the parser is run
    with the full watchlist, whatever the per-date mapping already
    holds: every parse call of a run has the watchlist as its symbol
    list.  The symbols already in the per-date mapping keep their entry
    when the parse is merged. *)
Theorem C1_parser_gets_the_full_watchlist :
  (forall fetch symbols date_iso mid d st pdf_bytes,
     fetch date_iso mid = inr pdf_bytes ->
     calls (attempt fetch symbols date_iso mid d st).1.2
       = calls st ++ [Call_fetch_pdf date_iso mid;
                      Call_parse_quotes pdf_bytes symbols]) /\
  (forall w pdf_bytes syms,
     In (Call_parse_quotes pdf_bytes syms) (calls (retrieval (main w))) ->
     syms = read_watchlist (watchlist_file w)) /\
  (forall fetch symbols date_iso mid d st k q,
     combined d !! k = Some q ->
     combined (attempt fetch symbols date_iso mid d st).1.1 !! k = Some q).
Proof.
  split_and!.
  - apply attempt_calls.
  - intros w pdf_bytes syms Hin.
    destruct (main_retrieval w) as [E|[dates E]]; rewrite E in Hin; [done|].
    destruct (date_loop_log (fetch_pdf w) (read_watchlist (watchlist_file w))
                (read_market_ids (JSE_MARKETS w)) dates initial_state)
      as ((new & Hcalls & Hnew) & _).
    rewrite Hcalls in Hin. simpl in Hin. rewrite List.Forall_forall in Hnew.
    by destruct (Hnew _ Hin) as (x & _ & Hc).
  - apply attempt_keeps.
Qed.

Lemma C1_witness :
  two_markets "2024-03-05" 31 = inr (sheet ["AAA 11.00 11.00"; "BBB 5.00"]) /\
  calls (attempt two_markets ["AAA"; "BBB"] "2024-03-05" 31
           (market_loop two_markets ["AAA"; "BBB"] "2024-03-05" [33]
              initial_day initial_state).1 initial_state).1.2
    = [Call_fetch_pdf "2024-03-05" 31;
       Call_parse_quotes (sheet ["AAA 11.00 11.00"; "BBB 5.00"]) ["AAA"; "BBB"]].
Proof.
  split; [reflexivity|].
  apply (proj1 C1_parser_gets_the_full_watchlist two_markets ["AAA"; "BBB"]
           "2024-03-05" 31
           (market_loop two_markets ["AAA"; "BBB"] "2024-03-05" [33]
              initial_day initial_state).1 initial_state).
  reflexivity.
Defined.

(** C1 as stated fails.  On 2024-03-05 market 33 resolves AAA; only BBB
    is then unresolved, yet the parse of market 31's document is called
    with both AAA and BBB. *)
Lemma C1_counterexample :
  dom (combined (market_loop two_markets ["AAA"; "BBB"] "2024-03-05" [33]
                   initial_day initial_state).1) = {["AAA"]} /\
  unresolved ["AAA"; "BBB"]
    (combined (market_loop two_markets ["AAA"; "BBB"] "2024-03-05" [33]
                 initial_day initial_state).1) = ["BBB"] /\
  parse_args (calls (retrieval (main world_two_markets)))
    = [["AAA"; "BBB"]; ["AAA"; "BBB"]] /\
  ~ parser_gets_unresolved_symbols.
Proof.
  split; [by vm_compute|]. split; [by vm_compute|]. split; [by vm_compute|].
  intros H.
  specialize (H two_markets ["AAA"; "BBB"] "2024-03-05" 31
                (market_loop two_markets ["AAA"; "BBB"] "2024-03-05" [33]
                   initial_day initial_state).1 initial_state
                (sheet ["AAA 11.00 11.00"; "BBB 5.00"]) eq_refl).
  vm_compute in H. discriminate H.
Qed.

Lemma attempt_used_as_at fetch symbols date_iso mid d st pdf_bytes parsed label :
  fetch date_iso mid = inr pdf_bytes ->
  parse_quotes pdf_bytes symbols = inr (parsed, label) ->
  used_as_at (attempt fetch symbols date_iso mid d st).1.2
    = if (nonempty_dict parsed && nonempty label)%bool then label
      else used_as_at st.
Proof.
  intros Hf Hp. unfold attempt. rewrite Hf, Hp.
  match goal with |- context [after_parse ?s ?dt ?pa ?l ?d0 ?st0] =>
    destruct (after_parse_spec s dt pa l d0 st0) as (_ & _ & -> & _) end.
  done.
Qed.

(** C6, as the code has it.  A successful parse that returns a non-empty
    label together with at least one quote has its label remembered as
    the most recent known one; a parse that resolves no quote, or that
    returns an empty label, leaves the remembered label as it was. *)
Theorem C6_label_remembered_when_parse_has_quotes :
  forall fetch symbols date_iso mid d st pdf_bytes parsed label,
    fetch date_iso mid = inr pdf_bytes ->
    parse_quotes pdf_bytes symbols = inr (parsed, label) ->
    (parsed <> ∅ -> label <> "" ->
     used_as_at (attempt fetch symbols date_iso mid d st).1.2 = label) /\
    (parsed = ∅ \/ label = "" ->
     used_as_at (attempt fetch symbols date_iso mid d st).1.2 = used_as_at st).
Proof.
  intros fetch symbols date_iso mid d st pdf_bytes parsed label Hf Hp.
  rewrite (attempt_used_as_at _ _ _ _ d st _ _ _ Hf Hp). split.
  - intros Hne%nonempty_dict_true Hl. rewrite Hne. by destruct label.
  - intros [->| ->].
    + by rewrite nonempty_dict_empty.
    + by rewrite andb_false_r.
Qed.

Lemma C6_witness :
  two_markets "2024-03-05" 33
    = inr (sheet ["Daily Quote Sheet March 5, 2024"; "AAA 10.25 10.50"]) /\
  used_as_at (attempt two_markets ["AAA"; "BBB"] "2024-03-05" 33 initial_day
                initial_state).1.2 = "March 5, 2024".
Proof.
  split; [reflexivity|].
  eapply (proj1 (C6_label_remembered_when_parse_has_quotes two_markets
                   ["AAA"; "BBB"] "2024-03-05" 33 initial_day initial_state
                   _ _ "March 5, 2024" eq_refl eq_refl)).
  - apply nonempty_dict_true. by vm_compute.
  - done.
Defined.

(** C6 as stated fails.  Market 31's document carries the date March 5,
    2024 but quotes no watched symbol: the parse succeeds with that label
    and no quote, and the remembered label stays empty, in the attempt
    and at the end of the run. *)
Lemma C6_counterexample :
  (exists parsed,
     parse_quotes (sheet ["Daily Quote Sheet March 5, 2024"; "ZZZ 1.00 1.10"])
       ["AAA"; "BBB"] = inr (parsed, "March 5, 2024") /\ parsed = ∅) /\
  used_as_at (attempt dated_but_empty ["AAA"; "BBB"] "2024-03-05" 31
                initial_day initial_state).1.2 = "" /\
  ending (main world_dated_but_empty) = inr 0 /\
  used_as_at (retrieval (main world_dated_but_empty)) = "" /\
  map row_as_at (default [] (prices_csv (main world_dated_but_empty))) = [""; ""] /\
  ~ label_remembered_after_every_parse.
Proof.
  split; [eexists; split; [reflexivity|by vm_compute]|].
  split; [by vm_compute|]. split; [by vm_compute|]. split; [by vm_compute|].
  split; [by vm_compute|].
  intros H.
  specialize (H dated_but_empty ["AAA"; "BBB"] "2024-03-05" 31 initial_day
                initial_state _ _ "March 5, 2024" eq_refl eq_refl).
  vm_compute in H. discriminate H. done.
Qed.

(** ** Output rows *)

Lemma read_watchlist_sorted file :
  StronglySorted String.le (read_watchlist file) /\ NoDup (read_watchlist file).
Proof.
  destruct file as [text|]; simpl.
  - split.
    + apply StronglySorted_merge_sort; apply _.
    + rewrite merge_sort_Permutation. apply NoDup_elements.
  - split; constructor.
Qed.

Lemma make_rows_In symbols st r :
  In r (make_rows symbols st) -> exists sym, In sym symbols /\ r = make_row st sym.
Proof.
  unfold make_rows. intros (sym & <- & Hs)%in_map_iff. eauto.
Qed.

Lemma make_rows_symbols symbols st :
  map row_symbol (make_rows symbols st) = symbols.
Proof.
  unfold make_rows. rewrite map_map. simpl. apply map_id.
Qed.

Lemma str_or_cases x y :
  (x <> "" -> str_or x y = x) /\ (x = "" -> str_or x y = y).
Proof. unfold str_or. destruct x; split; done. Qed.

(** C7.  When the run produces its output, the rows are those of the
    watchlist in its order, which is sorted and without repetition; in
    each row the source is the fixed tag, the price is the one of the
    symbol's quote when it has one, and [as_at] is the quote's label
    when the symbol has a quote with a non-empty label, else the last
    known sheet-date label when there is one, else the date string of the
    result.  When no candidate date yields a quote, the result is empty
    and every row has an empty price and an empty [as_at], with the
    source tag. *)
Theorem C7_output_rows :
  forall w lookback,
    read_watchlist (watchlist_file w) <> [] ->
    py_int (getenv (JSE_LOOKBACK_DAYS w) "10") = Some lookback ->
    lookback <= today w ->
    let symbols := read_watchlist (watchlist_file w) in
    let st := retrieval (main w) in
    StronglySorted String.le symbols /\ NoDup symbols /\
    exists rows,
      prices_csv (main w) = Some rows /\
      map row_symbol rows = symbols /\
      (forall r, In r rows ->
         row_source r = JSE_DAILY_PDF /\
         row_last_price r = best_quotes st !! row_symbol r ≫= last_price /\
         (forall q, best_quotes st !! row_symbol r = Some q -> as_at q <> "" ->
            row_as_at r = as_at q) /\
         (best_quotes st !! row_symbol r = None \/
          (exists q, best_quotes st !! row_symbol r = Some q /\ as_at q = "") ->
          (used_as_at st <> "" -> row_as_at r = used_as_at st) /\
          (used_as_at st = "" -> row_as_at r = used_date st))) /\
      ((forall j, 0 <= j < lookback -> combined (day_back w j) = ∅) ->
       best_quotes st = ∅ /\
       forall r, In r rows ->
         row_last_price r = None /\ row_as_at r = "" /\
         row_source r = JSE_DAILY_PDF).
Proof.
  intros w lookback Hs Hl Ht. cbv zeta.
  rewrite (main_ok w lookback Hs Hl Ht). simpl.
  set (symbols := read_watchlist (watchlist_file w)) in *.
  set (st := date_loop (fetch_pdf w) symbols (read_market_ids (JSE_MARKETS w))
               (candidates w lookback) initial_state).
  destruct (read_watchlist_sorted (watchlist_file w)) as [Hsorted Hnodup].
  split; [done|]. split; [done|].
  exists (make_rows symbols st). split; [done|].
  split; [apply make_rows_symbols|]. split.
  - intros r (sym & _ & ->)%make_rows_In. unfold make_row. simpl.
    destruct (str_or_cases (used_as_at st) (used_date st)) as [Hor1 Hor2].
    split; [done|]. split; [by destruct (best_quotes st !! sym)|]. split.
    + intros q Hq Hne. rewrite Hq. by destruct (as_at q).
    + intros [Hnone|(q & Hq & He)].
      * rewrite Hnone. split; auto.
      * rewrite Hq, He. simpl. split; auto.
  - intros Hex.
    destruct (date_loop_exhausted (fetch_pdf w) symbols
                (read_market_ids (JSE_MARKETS w)) (candidates w lookback)
                initial_state Hs eq_refl) as (Hb & Hu & Hd).
    { intros x (j & <- & Hj)%in_map_iff. apply Hex.
      pose proof (range0_bounds lookback) as Hb. rewrite List.Forall_forall in Hb.
      by apply Hb. }
    fold st in Hb, Hu, Hd. split; [done|].
    intros r (sym & _ & ->)%make_rows_In. unfold make_row. simpl.
    rewrite Hb, lookup_empty, Hu, Hd. done.
Qed.

Lemma C7_witness :
  read_watchlist (watchlist_file world_dated_but_empty) = ["AAA"; "BBB"] /\
  prices_csv (main world_three_days)
    = Some [mkRow "AAA" (Some (21 # 2)%Q) "March 4, 2024" JSE_DAILY_PDF;
            mkRow "BBB" None "March 4, 2024" JSE_DAILY_PDF] /\
  (forall j, 0 <= j < 2 -> combined (day_back world_dated_but_empty j) = ∅) /\
  exists rows,
    prices_csv (main world_dated_but_empty) = Some rows /\
    forall r, In r rows ->
      row_last_price r = None /\ row_as_at r = "" /\ row_source r = JSE_DAILY_PDF.
Proof.
  split; [by vm_compute|]. split; [by vm_compute|].
  assert (forall j, 0 <= j < 2 -> combined (day_back world_dated_but_empty j) = ∅)
    as Hex.
  { intros j Hj. assert (j = 0 \/ j = 1) as [-> | ->] by lia; by vm_compute. }
  split; [exact Hex|].
  destruct (C7_output_rows world_dated_but_empty 2) as (_ & _ & rows & Hcsv & _ & _ & Hall).
  - by vm_compute.
  - reflexivity.
  - simpl. lia.
  - exists rows. split; [exact Hcsv|]. exact (proj2 (Hall Hex)).
Defined.

(** ** Normalisation of tokens against the watchlist *)

Lemma drop_while_head p (l : list ascii) c r :
  drop_while p l = c :: r -> p c = false.
Proof.
  induction l as [|d l IH]; simpl; [done|].
  destruct (p d) eqn:Hd; [done|]. by intros [= <- _].
Qed.

Lemma drop_while_In p (l : list ascii) c : In c (drop_while p l) -> In c l.
Proof.
  induction l as [|d l IH]; simpl; [done|].
  destruct (p d); [auto|]. done.
Qed.

Lemma rstrip_by_last p (l pre : list ascii) c :
  rstrip_by p l = pre ++ [c] -> p c = false.
Proof.
  unfold rstrip_by. intros H.
  destruct (drop_while p (rev l)) as [|d r] eqn:Hd.
  - by destruct pre.
  - simpl in H. apply app_inj_tail in H as [_ <-].
    by apply drop_while_head in Hd.
Qed.

Lemma rstrip_by_In p (l : list ascii) c : In c (rstrip_by p l) -> In c l.
Proof.
  unfold rstrip_by. rewrite <- in_rev. intros H%drop_while_In. by apply in_rev.
Qed.

Lemma upper_char_space c : is_space (upper_char c) = is_space c.
Proof. by destruct c as [[] [] [] [] [] [] [] []]. Qed.

Lemma norm_sym_chars tok :
  chars (norm_sym tok)
    = rstrip_by (in_chars ".,;")
        (map upper_char (lstrip_by is_space (rstrip_by is_space (chars tok)))).
Proof. unfold norm_sym, rstrip, upper, strip. by rewrite !chars_str. Qed.

Lemma norm_sym_no_punct tok : ~ ends_in_punct (norm_sym tok).
Proof.
  intros (pre & c & Hc & Hp). rewrite norm_sym_chars in Hc.
  apply rstrip_by_last in Hc. congruence.
Qed.

Lemma norm_sym_In tok c :
  In c (chars (norm_sym tok)) ->
  exists c0, In c0 (chars tok) /\ c = upper_char c0.
Proof.
  rewrite norm_sym_chars. intros H%rstrip_by_In.
  apply in_map_iff in H as (c0 & <- & H). exists c0. split; [|done].
  by apply drop_while_In, rstrip_by_In in H.
Qed.

Lemma re_split_ws_go_no_space in_ws cur l t c :
  (forall d, In d cur -> is_space d = false) ->
  In t (re_split_ws_go in_ws cur l) -> In c (chars t) -> is_space c = false.
Proof.
  revert in_ws cur. induction l as [|d l IH]; intros in_ws cur Hcur; simpl.
  - intros [<-|[]]. rewrite chars_str, <- in_rev. apply Hcur.
  - destruct (is_space d) eqn:Hd.
    + destruct in_ws.
      * apply IH. by intros ? [].
      * intros [<-|H].
        -- rewrite chars_str, <- in_rev. apply Hcur.
        -- revert H. apply IH. by intros ? [].
    + apply IH. intros d' [<-|H]; auto.
Qed.

Lemma tokens_no_space line t c :
  In t (tokens line) -> In c (chars t) -> is_space c = false.
Proof.
  unfold tokens. intros [Ht _]%List.filter_In. revert Ht.
  apply re_split_ws_go_no_space. by intros ? [].
Qed.

Lemma norm_sym_token_no_space line t :
  In t (tokens line) -> ~ has_whitespace (norm_sym t).
Proof.
  intros Ht (c & (c0 & Hc0 & ->)%norm_sym_In & Hs).
  rewrite upper_char_space in Hs.
  by rewrite (tokens_no_space line t c0 Ht Hc0) in Hs.
Qed.

Lemma read_watchlist_entries text sym :
  In sym (read_watchlist (Some text)) <->
  exists line, In line (splitlines text) /\ strip line <> "" /\
    startswith "#" (strip line) = false /\ sym = upper (strip line).
Proof.
  simpl. rewrite <- list_elem_of_In, merge_sort_Permutation, elem_of_elements,
    elem_of_list_to_set, list_elem_of_In, in_flat_map.
  unfold watchlist_line. split.
  - intros (line & Hl & Hin). exists line. split; [done|].
    destruct (nonempty (strip line)) eqn:Hn; simpl in Hin; [|done].
    destruct (startswith "#" (strip line)) eqn:Hh; simpl in Hin; [done|].
    destruct Hin as [<-|[]]. split_and!; try done. by apply nonempty_true.
  - intros (line & Hl & Hne & Hh & ->). exists line. split; [done|].
    rewrite Hh. destruct (strip line); [done|]. by left.
Qed.

(** C10.  A watchlist entry is a line of the file trimmed and uppercased
    (entries are then deduplicated and sorted): its trailing punctuation
    stays, so [bns,] is the entry [BNS,].  A token of a document is
    normalised further, its trailing periods, commas and semicolons
    removed, so [bns,] becomes [BNS]; a normalised token never ends in
    one of the three and holds no whitespace.  Hence a symbol that ends
    in a period, comma or semicolon, or that holds whitespace, has no
    quote in any mapping [parse_quotes] returns. *)
Theorem C10_punctuated_watchlist_entries_never_resolve :
  (forall text sym,
     In sym (read_watchlist (Some text)) <->
     exists line, In line (splitlines text) /\ strip line <> "" /\
       startswith "#" (strip line) = false /\ sym = upper (strip line)) /\
  read_watchlist (Some "bns,") = ["BNS,"] /\
  norm_sym "bns," = "BNS" /\
  (forall tok, ~ ends_in_punct (norm_sym tok)) /\
  (forall pdf_bytes symbols out label sym,
     parse_quotes pdf_bytes symbols = inr (out, label) ->
     ends_in_punct sym \/ has_whitespace sym ->
     out !! sym = None).
Proof.
  split_and!.
  - apply read_watchlist_entries.
  - by vm_compute.
  - by vm_compute.
  - apply norm_sym_no_punct.
  - intros pdf_bytes symbols out label sym Hp Hsym.
    destruct pdf_bytes as [e|texts]; [done|]. simpl in Hp.
    injection Hp as <- _.
    match goal with |- ?m !! sym = None => destruct (m !! sym) as [q|] eqn:Hq end;
      [|done].
    apply parse_lines_adds in Hq as [Hq|(_ & _ & _ & _ & _ & line & t & _ & Ht & ->)].
    { by rewrite lookup_empty in Hq. }
    apply list_elem_of_In in Ht. destruct Hsym as [Hsym|Hsym].
    + by apply norm_sym_no_punct in Hsym.
    + by apply (norm_sym_token_no_space line t Ht) in Hsym.
Qed.

Lemma C10_witness :
  ends_in_punct "BNS," /\
  (exists out,
     parse_quotes (sheet ["BNS, 10.25 10.50"; "BNS 9.00 9.10"]) ["BNS,"]
       = inr (out, "") /\
     out !! "BNS," = None).
Proof.
  assert (ends_in_punct "BNS,") as Hp.
  { exists (chars "BNS"), ","%char. split; reflexivity. }
  split; [exact Hp|]. eexists. split; [reflexivity|].
  apply (proj2 (proj2 (proj2 (proj2
           C10_punctuated_watchlist_entries_never_resolve)))
           (sheet ["BNS, 10.25 10.50"; "BNS 9.00 9.10"]) ["BNS,"] _ "" "BNS,").
  - reflexivity.
  - left. exact Hp.
Defined.

(** ** Faults and the end of the run *)

(** A fetch or parse fault is caught: it adds one line to the error
    list, changes nothing else of the day or of the result, and the
    market loop goes on. *)
Lemma attempt_fault_is_logged fetch symbols date_iso mid d st :
  (forall e, fetch date_iso mid = inl e ->
     attempt fetch symbols date_iso mid d st
       = (d, mkState (errors st ++ [error_line date_iso mid e]) (best_quotes st)
               (used_date st) (used_as_at st)
               (calls st ++ [Call_fetch_pdf date_iso mid]), false)) /\
  (forall pdf_bytes e, fetch date_iso mid = inr pdf_bytes ->
     parse_quotes pdf_bytes symbols = inl e ->
     attempt fetch symbols date_iso mid d st
       = (d, mkState (errors st ++ [error_line date_iso mid e]) (best_quotes st)
               (used_date st) (used_as_at st)
               (calls st ++ [Call_fetch_pdf date_iso mid;
                             Call_parse_quotes pdf_bytes symbols]), false)).
Proof.
  split.
  - intros e Hf. unfold attempt. by rewrite Hf.
  - intros pdf_bytes e Hf Hp. unfold attempt. rewrite Hf, Hp.
    unfold append_error, log_call. simpl. by rewrite <- app_assoc.
Qed.

(** The error list only grows during the loop. *)
Lemma date_loop_errors_grow fetch symbols mids dates st :
  exists errs,
    errors (date_loop fetch symbols mids dates st) = errors st ++ errs.
Proof. apply date_loop_log. Qed.

Lemma dates_back_overflow today ds d :
  In d ds -> today - d < 1 ->
  dates_back today ds = inl (Exn "OverflowError" "date value out of range").
Proof.
  induction ds as [|x ds IH]; [done|]. intros Hin Hd. simpl. unfold date_minus.
  destruct (Z.leb_spec 1 (today - x)) as [Hx|Hx]; [|done].
  destruct Hin as [->|Hin]; [lia|]. by rewrite IH.
Qed.

Lemma latest_trading_date_iso_overflow today lookback :
  0 <= today < lookback ->
  latest_trading_date_iso today lookback
    = inl (Exn "OverflowError" "date value out of range").
Proof.
  intros H. destruct (range0_split lookback today H) as [rest Hr].
  apply (dates_back_overflow today _ today); [|lia].
  rewrite Hr. apply in_app_iff. right. by left.
Qed.

(** How [main] ends: with code 2 exactly when the watchlist is empty;
    with code 0 and a written file when the watchlist is not empty and
    the lookback setting is an integer that stays within the calendar;
    by an exception that escapes otherwise. *)
Lemma main_endings w :
  (ending (main w) = inr 2 <-> read_watchlist (watchlist_file w) = []) /\
  (forall lookback,
     read_watchlist (watchlist_file w) <> [] ->
     py_int (getenv (JSE_LOOKBACK_DAYS w) "10") = Some lookback ->
     lookback <= today w ->
     ending (main w) = inr 0 /\ is_Some (prices_csv (main w))) /\
  (read_watchlist (watchlist_file w) <> [] ->
   py_int (getenv (JSE_LOOKBACK_DAYS w) "10") = None ->
   ending (main w) = inl (invalid_literal (getenv (JSE_LOOKBACK_DAYS w) "10")) /\
   prices_csv (main w) = None /\ calls (retrieval (main w)) = []) /\
  (forall lookback,
     read_watchlist (watchlist_file w) <> [] ->
     py_int (getenv (JSE_LOOKBACK_DAYS w) "10") = Some lookback ->
     0 <= today w < lookback ->
     ending (main w) = inl (Exn "OverflowError" "date value out of range") /\
     prices_csv (main w) = None /\ calls (retrieval (main w)) = []).
Proof.
  split_and!.
  - unfold main. destruct (read_watchlist (watchlist_file w)) as [|s l]; [done|].
    destruct (py_int _); [|done].
    destruct (latest_trading_date_iso _ _); done.
  - intros lookback Hs Hl Ht. rewrite (main_ok w lookback Hs Hl Ht). simpl. eauto.
  - intros Hs Hl. unfold main. rewrite Hl.
    by destruct (read_watchlist (watchlist_file w)).
  - intros lookback Hs Hl Ht. unfold main.
    rewrite Hl, latest_trading_date_iso_overflow by done.
    by destruct (read_watchlist (watchlist_file w)).
Qed.

(** C8.  The faults of the attempts are caught and logged (see
    [attempt_fault_is_logged]) and code 2 is returned exactly for an
    empty watchlist (see [main_endings]), but the run does not always
    return: with a watchlist of two symbols and the lookback setting
    [ten], reading the setting raises [ValueError] outside any handler,
    so the run ends by that exception, before any fetch and with no
    output written; a lookback of 800000 days ends it likewise by
    [OverflowError].  The reading of the market setting, next to it,
    passes over an entry that is not an integer. *)
Theorem C8_unreadable_lookback_ends_the_run :
  read_watchlist (watchlist_file world_bad_lookback) = ["AAA"; "BBB"] /\
  JSE_LOOKBACK_DAYS world_bad_lookback = Some "ten" /\
  ending (main world_bad_lookback)
    = inl (Exn "ValueError" "invalid literal for int() with base 10: 'ten'") /\
  prices_csv (main world_bad_lookback) = None /\
  calls (retrieval (main world_bad_lookback)) = [] /\
  ending (main world_far_lookback)
    = inl (Exn "OverflowError" "date value out of range") /\
  prices_csv (main world_far_lookback) = None /\
  read_market_ids (Some "33,ten,31") = [33; 31].
Proof.
  split; [vm_compute; reflexivity|]. split; [reflexivity|].
  split; [vm_compute; reflexivity|]. split; [vm_compute; reflexivity|].
  split; [vm_compute; reflexivity|].
  assert (ending (main world_far_lookback)
            = inl (Exn "OverflowError" "date value out of range") /\
          prices_csv (main world_far_lookback) = None) as [Hfar Hcsv].
  { assert (read_watchlist (watchlist_file world_far_lookback) <> []) as Hs
      by (vm_compute; discriminate).
    destruct (proj2 (proj2 (proj2 (main_endings world_far_lookback))) 800000 Hs
                eq_refl) as (Hfar & Hcsv & _); [simpl; lia|].
    split; [exact Hfar|exact Hcsv]. }
  split; [exact Hfar|]. split; [exact Hcsv|]. clear Hfar Hcsv.
  vm_compute. reflexivity.
Qed.

(** * Further properties of the program *)

Example extract_pdf_link_ex :
  map extract_pdf_link
    [anchor_tag "034" "/files/quotes.pdf?v=2" "034";
     ("<A HREF=" ++ String "039" ("Daily.PDF" ++ String "034" " x"))%string;
     anchor_tag "034" ".pdf" "034";
     anchor_tag "034" "page.html" "034";
     (anchor_tag "039" "a.html" "039" ++ anchor_tag "039" "b.pdf" "039")%string]
  = [Some "/files/quotes.pdf?v=2"; Some "Daily.PDF"; None; None; Some "b.pdf"].
Proof. vm_compute. reflexivity. Qed.

(** ** More on [parse_quotes] *)

Lemma parse_quotes_Pages texts symbols out label :
  parse_quotes (Pages texts) symbols = inr (out, label) ->
  label = parse_sheet_date (full_text_of texts) /\
  out = parse_lines (list_to_set symbols) label (splitlines (full_text_of texts)) ∅.
Proof. simpl. by intros [= <- <-]. Qed.

Lemma parse_quotes_entry texts symbols out label k q :
  parse_quotes (Pages texts) symbols = inr (out, label) ->
  out !! k = Some q ->
  In k symbols /\ symbol q = k /\ source q = JSE_DAILY_PDF.
Proof.
  intros Hp Hq. apply parse_quotes_Pages in Hp as [-> ->].
  apply parse_lines_adds in Hq as [Hq|(_ & Hw & Hs & _ & Hsrc & _)].
  { by rewrite lookup_empty in Hq. }
  split; [|done]. apply elem_of_list_to_set in Hw. by apply list_elem_of_In.
Qed.

(** X1.  Every entry of the mapping [parse_quotes] returns is filed under
    a symbol of the list it was given, holds a quote for that very
    symbol, and carries the fixed source tag. *)
Theorem X1_parse_quotes_entries :
  forall pdf_bytes symbols out label k q,
    parse_quotes pdf_bytes symbols = inr (out, label) ->
    out !! k = Some q ->
    In k symbols /\ symbol q = k /\ source q = JSE_DAILY_PDF.
Proof.
  intros [e|texts] symbols out label k q Hp Hq; [done|].
  by apply (parse_quotes_entry texts symbols out label).
Qed.

Lemma X1_witness :
  exists out,
    parse_quotes (sheet ["AAA 11.00 11.00"; "BBB 5.00"; "CCC 1.00"]) ["BBB"; "AAA"]
      = inr (out, "") /\
    out !! "BBB" = Some (mkQuote "BBB" (Some (5 # 1)%Q) "" JSE_DAILY_PDF) /\
    (In "BBB" ["BBB"; "AAA"] /\ symbol (mkQuote "BBB" (Some (5 # 1)%Q) "" JSE_DAILY_PDF) = "BBB" /\
     source (mkQuote "BBB" (Some (5 # 1)%Q) "" JSE_DAILY_PDF) = JSE_DAILY_PDF).
Proof.
  eexists. split; [reflexivity|].
  assert (parse_lines (list_to_set ["BBB"; "AAA"])
            (parse_sheet_date (full_text_of [Some (join newline ["AAA 11.00 11.00"; "BBB 5.00"; "CCC 1.00"])]))
            (splitlines (full_text_of [Some (join newline ["AAA 11.00 11.00"; "BBB 5.00"; "CCC 1.00"])]))
            ∅ !! "BBB"
          = Some (mkQuote "BBB" (Some (5 # 1)%Q) "" JSE_DAILY_PDF)) as Hq
    by (vm_compute; reflexivity).
  split; [exact Hq|].
  exact (X1_parse_quotes_entries
           (sheet ["AAA 11.00 11.00"; "BBB 5.00"; "CCC 1.00"]) ["BBB"; "AAA"] _ ""
           "BBB" _ eq_refl Hq).
Defined.

Lemma upper_char_idem c : upper_char (upper_char c) = upper_char c.
Proof. by destruct c as [[] [] [] [] [] [] [] []]. Qed.


Lemma drop_while_idem p (l : list ascii) :
  drop_while p (drop_while p l) = drop_while p l.
Proof.
  destruct (drop_while p l) as [|c r] eqn:E; [done|].
  apply drop_while_head in E. simpl. by rewrite E.
Qed.

Lemma rstrip_by_idem p (l : list ascii) :
  rstrip_by p (rstrip_by p l) = rstrip_by p l.
Proof. unfold rstrip_by. by rewrite rev_involutive, drop_while_idem. Qed.

Lemma no_space_forallb (l : list ascii) :
  (forall c, In c l -> is_space c = false) ->
  forallb (fun c => negb (is_space c)) l = true.
Proof.
  intros H. apply forallb_forall. intros c Hc. by rewrite (H c Hc).
Qed.

Lemma strip_no_space (l : list ascii) :
  (forall c, In c l -> is_space c = false) ->
  lstrip_by is_space (rstrip_by is_space l) = l.
Proof.
  intros H%no_space_forallb.
  rewrite <- (app_nil_r l) at 1. rewrite rstrip_by_app by done.
  by apply drop_while_none.
Qed.

Lemma map_fixed (g : ascii -> ascii) (l : list ascii) :
  (forall c, In c l -> g c = c) -> map g l = l.
Proof.
  induction l as [|c l IH]; simpl; [done|]. intros H.
  rewrite (H c) by (by left). rewrite IH; [done|]. intros d Hd. apply H. by right.
Qed.

(** Normalising a token without whitespace a second time changes
    nothing. *)
Lemma norm_sym_idem t :
  (forall c, In c (chars t) -> is_space c = false) ->
  norm_sym (norm_sym t) = norm_sym t.
Proof.
  intros Ht.
  enough (chars (norm_sym (norm_sym t)) = chars (norm_sym t)) as H.
  { apply (f_equal str) in H. by rewrite !str_chars in H. }
  rewrite (norm_sym_chars (norm_sym t)).
  assert (forall c, In c (chars (norm_sym t)) ->
            is_space c = false /\ upper_char c = c) as Hn.
  { intros c (c0 & Hc0 & ->)%norm_sym_In.
    by rewrite upper_char_space, upper_char_idem, (Ht c0 Hc0). }
  rewrite strip_no_space by (intros c Hc; by apply Hn).
  rewrite map_fixed by (intros c Hc; by apply Hn).
  rewrite norm_sym_chars. apply rstrip_by_idem.
Qed.

(** X2.  Only normalised symbols are ever resolved: a key of the mapping
    [parse_quotes] returns is left unchanged by [norm_sym], so a watched
    symbol with a lowercase letter, with whitespace or with a trailing
    period, comma or semicolon never gets a quote. *)
Theorem X2_resolved_symbols_are_normalised :
  forall pdf_bytes symbols out label k q,
    parse_quotes pdf_bytes symbols = inr (out, label) ->
    out !! k = Some q ->
    norm_sym k = k.
Proof.
  intros [e|texts] symbols out label k q Hp Hq; [done|].
  apply parse_quotes_Pages in Hp as [-> ->].
  apply parse_lines_adds in Hq
    as [Hq|(_ & _ & _ & _ & _ & line & t & _ & Ht & ->)].
  { by rewrite lookup_empty in Hq. }
  apply norm_sym_idem. intros c Hc.
  apply list_elem_of_In in Ht. by apply (tokens_no_space line t c).
Qed.

Lemma X2_witness :
  norm_sym "Bns" <> "Bns" /\
  exists out,
    parse_quotes (sheet ["Bns 10.25 10.50"; "BNS 9.00 9.10"]) ["Bns"; "BNS"]
      = inr (out, "") /\
    out !! "Bns" = None /\
    out !! "BNS" = Some (mkQuote "BNS" (Some (21 # 2)%Q) "" JSE_DAILY_PDF) /\
    norm_sym "BNS" = "BNS".
Proof.
  split; [by vm_compute|]. eexists. split; [reflexivity|].
  split; [by vm_compute|].
  assert (parse_lines (list_to_set ["Bns"; "BNS"])
            (parse_sheet_date (full_text_of [Some (join newline ["Bns 10.25 10.50"; "BNS 9.00 9.10"])]))
            (splitlines (full_text_of [Some (join newline ["Bns 10.25 10.50"; "BNS 9.00 9.10"])]))
            ∅ !! "BNS"
          = Some (mkQuote "BNS" (Some (21 # 2)%Q) "" JSE_DAILY_PDF)) as Hq
    by (vm_compute; reflexivity).
  split; [exact Hq|].
  exact (X2_resolved_symbols_are_normalised
           (sheet ["Bns 10.25 10.50"; "BNS 9.00 9.10"]) ["Bns"; "BNS"] _ ""
           "BNS" _ eq_refl Hq).
Defined.

Lemma find_anchor_full want out toks :
  dom out = want -> find_anchor want out toks = None.
Proof.
  intros Hd. rewrite find_anchor_scan. apply scan_later_None. intros t _.
  unfold wanted_unresolved. apply andb_false_iff.
  destruct (decide (norm_sym t ∈ want)) as [Hin|Hnin].
  - right. apply bool_decide_eq_false. rewrite <- Hd in Hin.
    apply elem_of_dom in Hin as [q Hq]. congruence.
  - left. by apply bool_decide_eq_false.
Qed.

Lemma parse_lines_full want label lines out :
  dom out = want -> parse_lines want label lines out = out.
Proof.
  intros Hd. induction lines as [|line lines IH]; [done|]. simpl.
  by rewrite (parse_line_no_anchor _ _ _ _ (find_anchor_full want out _ Hd)).
Qed.

Lemma parse_lines_app_cases want label lines1 lines2 out :
  parse_lines want label (lines1 ++ lines2) out = parse_lines want label lines1 out \/
  parse_lines want label (lines1 ++ lines2) out
    = parse_lines want label lines2 (parse_lines want label lines1 out).
Proof.
  revert out. induction lines1 as [|line lines1 IH]; intros out; [by right|].
  simpl. destruct (parse_line want label out line) as [out' stop].
  destruct stop; [by left|apply IH].
Qed.

(** X3.  The line loop needs no more than the lines that resolve every
    wanted symbol: once the mapping covers the wanted set, whatever lines
    follow (more quotes of the same symbols, other tables) change
    nothing. *)
Theorem X3_lines_after_full_coverage_are_ignored :
  forall want label lines1 lines2 out,
    dom (parse_lines want label lines1 out) = want ->
    parse_lines want label (lines1 ++ lines2) out
      = parse_lines want label lines1 out.
Proof.
  intros want label lines1 lines2 out Hd.
  destruct (parse_lines_app_cases want label lines1 lines2 out) as [->| ->];
    [done|]. by apply parse_lines_full.
Qed.

Lemma X3_witness :
  dom (parse_lines {["AAA"]} "" ["x"; "AAA 1.00 2.00"] ∅) = {["AAA"]} /\
  parse_lines {["AAA"]} "" (["x"; "AAA 1.00 2.00"] ++ ["AAA 3.00 4.00"; "y"]) ∅
    = parse_lines {["AAA"]} "" ["x"; "AAA 1.00 2.00"] ∅.
Proof.
  assert (dom (parse_lines {["AAA"]} "" ["x"; "AAA 1.00 2.00"] ∅) = {["AAA"]})
    as Hd by (vm_compute; reflexivity).
  split; [exact Hd|].
  exact (X3_lines_after_full_coverage_are_ignored {["AAA"]} ""
           ["x"; "AAA 1.00 2.00"] ["AAA 3.00 4.00"; "y"] ∅ Hd).
Defined.

Lemma parse_line_size want label out line :
  (size (parse_line want label out line).1 <= S (size out))%nat.
Proof.
  destruct (parse_line_cases want label out line)
    as [->|(sym0 & idx0 & Ha & ->)]; [lia|].
  apply find_anchor_wanted in Ha as (_ & Hnone & _).
  rewrite map_size_insert_None by done. lia.
Qed.

Lemma parse_lines_size want label lines out :
  (size (parse_lines want label lines out) <= size out + length lines)%nat.
Proof.
  revert out. induction lines as [|line lines IH]; intros out; simpl; [lia|].
  pose proof (parse_line_size want label out line) as H.
  destruct (parse_line want label out line) as [out' stop]. simpl in H.
  destruct stop; [lia|]. specialize (IH out'). lia.
Qed.

Lemma size_list_to_set_le (l : list string) :
  (size (list_to_set l : gset string) <= length l)%nat.
Proof.
  unfold size, set_size. simpl. apply submseteq_length, NoDup_submseteq.
  - apply NoDup_elements.
  - intros x Hx. by apply elem_of_elements, elem_of_list_to_set in Hx.
Qed.

(** X4.  A document resolves at most one symbol per line and never more
    symbols than it was asked for: the mapping [parse_quotes] returns has
    no more entries than the symbol list has members, nor than the
    document has lines. *)
Theorem X4_parse_quotes_size :
  forall texts symbols out label,
    parse_quotes (Pages texts) symbols = inr (out, label) ->
    (size out <= length symbols)%nat /\
    (size out <= length (splitlines (full_text_of texts)))%nat.
Proof.
  intros texts symbols out label Hp. split.
  - etrans; [|apply size_list_to_set_le].
    rewrite <- (size_dom out). apply subseteq_size. intros k Hk.
    apply elem_of_dom in Hk as [q Hq].
    destruct (parse_quotes_entry texts symbols out label k q Hp Hq).
    by apply elem_of_list_to_set, list_elem_of_In.
  - apply parse_quotes_Pages in Hp as [-> ->].
    etrans; [apply parse_lines_size|]. by rewrite map_size_empty.
Qed.

Lemma X4_witness :
  exists out,
    parse_quotes (Pages [Some "AAA 1.00 BBB 2.00"]) ["AAA"; "BBB"; "CCC"]
      = inr (out, "") /\
    (size out <= length ["AAA"; "BBB"; "CCC"])%nat /\
    (size out <= length (splitlines (full_text_of [Some "AAA 1.00 BBB 2.00"])))%nat /\
    size out = 1%nat.
Proof.
  eexists. split; [reflexivity|].
  destruct (X4_parse_quotes_size [Some "AAA 1.00 BBB 2.00"] ["AAA"; "BBB"; "CCC"]
              _ "" eq_refl) as [H1 H2].
  split; [exact H1|]. split; [exact H2|]. vm_compute. reflexivity.
Defined.

(** X5.  With an empty symbol list the parser resolves nothing, whatever
    the document holds, and still returns the document's sheet date. *)
Theorem X5_parse_quotes_empty_watchlist :
  forall texts,
    parse_quotes (Pages texts) []
      = inr (∅, parse_sheet_date (full_text_of texts)).
Proof.
  intros texts. simpl. f_equal. f_equal. apply parse_lines_full.
  by rewrite dom_empty_L.
Qed.

(** ** More on the number pattern *)

Lemma is_num_sem t :
  is_num t = true <-> exists q, sem NUM_RE ([], chars t) q.
Proof.
  unfold is_num, Re.match_. split.
  - destruct (head (Re.run NUM_RE ([], chars t))) as [q|] eqn:Hq; [|done].
    intros _. exists q. apply run_spec.
    destruct (Re.run NUM_RE ([], chars t)); [done|]. injection Hq as ->. by left.
  - intros [q Hq%run_spec].
    by destruct (Re.run NUM_RE ([], chars t)).
Qed.

(** X6.  A token counts as a number exactly when it is an optional sign,
    a digit, then digits and commas, then an optional point and digits:
    so [1,234.50], [+0.25] and [7.] are numbers, while a token that
    starts with the point, carries a percent sign, letters or
    parentheses, or has two points is not. *)
Theorem X6_numeric_tokens :
  (forall t, is_num t = true <-> numeric_shape t) /\
  map is_num ["1,234.50"; "+0.25"; "7."; ".5"; "5%"; "(1.00)"; "1.2.3"; "1e5"; "-"; ""]
    = [true; true; true; false; false; false; false; false; false; false].
Proof.
  split; [|by vm_compute]. intros t. split; [apply num_re_shape|].
  intros (sg & d & body & dot & frac & rest & Ht & Hsg & Hd & Hb & Hdot & Hf & Hrest).
  apply is_num_sem.
  assert (advance ([], chars t) (sg ++ [d] ++ body ++ dot ++ frac)
            (rev (sg ++ [d] ++ body ++ dot ++ frac) ++ [], rest)) as A.
  { exists rest. split; [|done]. cbn [fst snd]. rewrite Ht.
    by rewrite <- !(app_assoc sg), <- !(app_assoc [d]), <- !(app_assoc body),
      <- !(app_assoc dot). }
  apply advance_app_inv in A as [A1 A].
  apply advance_app_inv in A as [A2 A].
  apply advance_app_inv in A as [A3 A].
  apply advance_app_inv in A as [A4 A5].
  exists (rev (sg ++ [d] ++ body ++ dot ++ frac) ++ [], rest).
  unfold NUM_RE. cbn [sem sem_item].
  exists ([], chars t). split; [split; reflexivity|].
  eexists. split.
  { exists sg. split_and!; [|lia| |exact A1].
    - by destruct Hsg as [->|[->| ->]].
    - simpl. destruct Hsg as [->|[->| ->]]; simpl; lia. }
  eexists. split.
  { exists [d]. split_and!; [|simpl; lia|simpl; lia|exact A2].
    simpl. by rewrite Hd. }
  eexists. split.
  { exists body. split_and!; [done|lia|done|exact A3]. }
  eexists. split.
  { exists dot. split_and!; [|lia| |exact A4].
    - by destruct Hdot as [->| ->].
    - simpl. destruct Hdot as [->| ->]; simpl; lia. }
  eexists. split.
  { exists frac. split_and!; [done|lia|done|exact A5]. }
  eexists. split; [|reflexivity]. split; [|reflexivity].
  destruct A5 as (r' & Hr' & E). injection E as _ <-. done.
Qed.

(** ** More on the watchlist *)

Lemma drop_while_map p (u : ascii -> ascii) (l : list ascii) :
  (forall c, p (u c) = p c) ->
  drop_while p (map u l) = map u (drop_while p l).
Proof.
  intros Hpu. induction l as [|c l IH]; simpl; [done|].
  rewrite Hpu. by destruct (p c).
Qed.

Lemma rstrip_by_map p (u : ascii -> ascii) (l : list ascii) :
  (forall c, p (u c) = p c) ->
  rstrip_by p (map u l) = map u (rstrip_by p l).
Proof.
  intros Hpu. unfold rstrip_by.
  by rewrite <- map_rev, drop_while_map, map_rev.
Qed.

Lemma drop_while_suffix p (l : list ascii) :
  exists a, l = a ++ drop_while p l.
Proof.
  induction l as [|c l [a IH]]; simpl; [by exists []|].
  destruct (p c); [|by exists []]. exists (c :: a). simpl. by f_equal.
Qed.

Lemma rstrip_by_fixed p (z : list ascii) :
  (forall pre c, z = pre ++ [c] -> p c = false) -> rstrip_by p z = z.
Proof.
  intros H. destruct z as [|c z _] using rev_ind; [done|].
  unfold rstrip_by. rewrite rev_unit. simpl.
  rewrite (H z c eq_refl). simpl. by rewrite rev_involutive.
Qed.

(** Stripping a stripped text changes nothing. *)
Lemma strip_chars_idem (l : list ascii) :
  let y := lstrip_by is_space (rstrip_by is_space l) in
  lstrip_by is_space (rstrip_by is_space y) = y.
Proof.
  cbv zeta. unfold lstrip_by.
  rewrite (rstrip_by_fixed is_space (drop_while is_space (rstrip_by is_space l))).
  - apply drop_while_idem.
  - intros pre c Hpc.
    destruct (drop_while_suffix is_space (rstrip_by is_space l)) as [a Ha].
    rewrite Hpc, app_assoc in Ha. by apply rstrip_by_last in Ha.
Qed.

Lemma upper_chars s : chars (upper s) = map upper_char (chars s).
Proof. unfold upper. apply chars_str. Qed.

Lemma strip_chars s :
  chars (strip s) = lstrip_by is_space (rstrip_by is_space (chars s)).
Proof. unfold strip. apply chars_str. Qed.

Lemma chars_inj s1 s2 : chars s1 = chars s2 -> s1 = s2.
Proof. intros H. apply (f_equal str) in H. by rewrite !str_chars in H. Qed.

Lemma strip_upper_strip s : strip (upper (strip s)) = upper (strip s).
Proof.
  apply chars_inj. rewrite strip_chars, upper_chars, strip_chars.
  rewrite rstrip_by_map by apply upper_char_space.
  unfold lstrip_by at 1. rewrite drop_while_map by apply upper_char_space.
  f_equal. apply strip_chars_idem.
Qed.

Lemma upper_idem s : upper (upper s) = upper s.
Proof.
  apply chars_inj. rewrite !upper_chars, map_map. apply map_ext.
  intros c. apply upper_char_idem.
Qed.

Lemma upper_char_hash c :
  Ascii.eqb (upper_char c) "#" = Ascii.eqb c "#".
Proof. by destruct c as [[] [] [] [] [] [] [] []]. Qed.

Lemma startswith_hash s :
  startswith "#" s = match chars s with
                     | c :: _ => Ascii.eqb c "#"
                     | [] => false
                     end.
Proof.
  destruct s as [|c s]; [done|]. unfold startswith.
  destruct c as [[] [] [] [] [] [] [] []]; by destruct s.
Qed.

(** X7.  Every entry of the watchlist is in the form the rest of the
    program relies on: it is not empty, is no comment line, has no
    lowercase letter and no whitespace around it.  A missing file gives
    the empty watchlist. *)
Theorem X7_watchlist_entries_are_clean :
  read_watchlist None = [] /\
  forall file sym,
    In sym (read_watchlist file) ->
    sym <> "" /\ startswith "#" sym = false /\ upper sym = sym /\ strip sym = sym.
Proof.
  split; [done|]. intros [text|] sym Hin; [|done].
  apply read_watchlist_entries in Hin as (line & _ & Hne & Hh & ->).
  split_and!.
  - intros H. apply (f_equal chars) in H. rewrite upper_chars in H.
    apply map_eq_nil in H. apply Hne, chars_inj. by rewrite H.
  - rewrite startswith_hash in *. rewrite upper_chars.
    destruct (chars (strip line)) as [|c l]; [done|]. simpl.
    by rewrite upper_char_hash.
  - apply upper_idem.
  - apply strip_upper_strip.
Qed.

Lemma X7_witness :
  In "NCB" (read_watchlist (Some (join newline ["# banks"; "  ncb  "; ""; "ncb"]))) /\
  ("NCB" <> "" /\ startswith "#" "NCB" = false /\ upper "NCB" = "NCB" /\
   strip "NCB" = "NCB") /\
  read_watchlist (Some (join newline ["# banks"; "  ncb  "; ""; "ncb"])) = ["NCB"].
Proof.
  assert (In "NCB" (read_watchlist (Some (join newline ["# banks"; "  ncb  "; ""; "ncb"]))))
    as Hin by (vm_compute; by left).
  split; [exact Hin|]. split; [|by vm_compute].
  exact (proj2 X7_watchlist_entries_are_clean _ "NCB" Hin).
Defined.

(** X8.  The watchlist is a canonical list: two files that name the same
    set of symbols, in whatever order, letter case and number of
    repetitions, are read as the same list, so they give the same rows in
    the same order. *)
Theorem X8_watchlist_depends_on_the_set_of_symbols :
  forall file1 file2,
    (forall sym, In sym (read_watchlist file1) <-> In sym (read_watchlist file2)) ->
    read_watchlist file1 = read_watchlist file2.
Proof.
  intros file1 file2 Hsame.
  destruct (read_watchlist_sorted file1) as [Hs1 Hn1].
  destruct (read_watchlist_sorted file2) as [Hs2 Hn2].
  apply (StronglySorted_unique String.le); [done|done|].
  apply NoDup_Permutation; [done|done|].
  intros x. rewrite !list_elem_of_In. apply Hsame.
Qed.

Lemma X8_witness :
  (forall sym,
     In sym (read_watchlist (Some (join newline ["ncb"; "BNS"; " Ncb"]))) <->
     In sym (read_watchlist (Some (join newline ["bns"; "# x"; "NCB"])))) /\
  read_watchlist (Some (join newline ["ncb"; "BNS"; " Ncb"]))
    = read_watchlist (Some (join newline ["bns"; "# x"; "NCB"])) /\
  read_watchlist (Some (join newline ["ncb"; "BNS"; " Ncb"])) = ["BNS"; "NCB"].
Proof.
  assert (forall sym,
     In sym (read_watchlist (Some (join newline ["ncb"; "BNS"; " Ncb"]))) <->
     In sym (read_watchlist (Some (join newline ["bns"; "# x"; "NCB"])))) as H.
  { intros sym.
    replace (read_watchlist (Some (join newline ["ncb"; "BNS"; " Ncb"])))
      with ["BNS"; "NCB"] by (by vm_compute).
    replace (read_watchlist (Some (join newline ["bns"; "# x"; "NCB"])))
      with ["BNS"; "NCB"] by (by vm_compute).
    done. }
  split; [exact H|]. split; [|by vm_compute].
  exact (X8_watchlist_depends_on_the_set_of_symbols _ _ H).
Defined.

(** ** The market setting *)

Lemma py_int_empty : py_int "" = None.
Proof. reflexivity. Qed.

Lemma market_part_spec part :
  market_part part = match py_int (strip part) with Some n => [n] | None => [] end.
Proof.
  unfold market_part. destruct (nonempty (strip part)) eqn:Hn; [done|].
  apply nonempty_false in Hn. by rewrite Hn.
Qed.

(** X9.  The market list is never empty.  It holds the entries of the
    comma-separated setting that read as integers, in their order,
    blank and unreadable entries being passed over; when none is left it
    is the single market 31. *)
Theorem X9_market_ids :
  forall setting,
    let ids := omap (fun part => py_int (strip part))
                 (split_comma (getenv setting "33,31,32,34,35,36")) in
    read_market_ids setting = (match ids with [] => [31] | _ => ids end) /\
    read_market_ids setting <> [].
Proof.
  intros setting. cbv zeta. unfold read_market_ids.
  assert (forall parts,
            flat_map market_part parts
            = omap (fun part => py_int (strip part)) parts) as ->.
  { induction parts as [|part parts IH]; [done|]. simpl.
    rewrite market_part_spec, IH. by destruct (py_int (strip part)). }
  split; [done|].
  by destruct (omap _ _).
Qed.

Example market_ids_ex :
  map read_market_ids [None; Some ""; Some " 31 ,x,, 1_0,-4"; Some "main"]
  = [[33; 31; 32; 34; 35; 36]; [31]; [31; 10; -4]; [31]].
Proof. by vm_compute. Qed.

(** ** The candidate dates *)

Lemma range0_lookup n j :
  0 <= j < n -> range0 n !! Z.to_nat j = Some j.
Proof.
  intros Hj. unfold range0. rewrite list_lookup_fmap.
  rewrite lookup_seq_lt by lia. simpl. f_equal. lia.
Qed.

Lemma range0_length n : length (range0 n) = Z.to_nat n.
Proof. unfold range0. by rewrite length_map, length_seq. Qed.

(** X10.  For a current date (of day number at least 0) the candidate
    dates are as many as the lookback asks for, the one at index [j]
    being the date [j] days back, so today's date comes first; a
    lookback of zero or less gives no date at all; a lookback that
    reaches before the first date of the calendar raises
    [OverflowError] instead of giving a shorter list. *)
Theorem X10_candidate_dates :
  forall today lookback,
    0 <= today ->
    (lookback <= today ->
     exists dates,
       latest_trading_date_iso today lookback = inr dates /\
       length dates = Z.to_nat lookback /\
       forall j, 0 <= j < lookback ->
         dates !! Z.to_nat j = Some (isoformat (today - j))) /\
    (today < lookback ->
     latest_trading_date_iso today lookback
       = inl (Exn "OverflowError" "date value out of range")).
Proof.
  intros today lookback Ht. split.
  - intros Hl. eexists. split; [by apply latest_trading_date_iso_ok|].
    split; [by rewrite length_map, range0_length|].
    intros j Hj. by rewrite list_lookup_fmap, range0_lookup.
  - intros Hl. apply latest_trading_date_iso_overflow. lia.
Qed.

Lemma X10_witness :
  0 <= 738950 /\
  latest_trading_date_iso 738950 3 = inr ["2024-03-05"; "2024-03-04"; "2024-03-03"] /\
  latest_trading_date_iso 738950 0 = inr [] /\
  latest_trading_date_iso 738950 (-2) = inr [] /\
  latest_trading_date_iso 738950 738951
    = inl (Exn "OverflowError" "date value out of range").
Proof.
  split; [lia|]. split; [by vm_compute|]. split; [by vm_compute|].
  split; [by vm_compute|].
  apply (proj2 (X10_candidate_dates 738950 738951 ltac:(lia))). lia.
Defined.

Lemma range0_nonpos n : n <= 0 -> range0 n = [].
Proof. intros H. unfold range0. by replace (Z.to_nat n) with 0%nat by lia. Qed.

(** X11.  With a lookback of zero or less the run fetches nothing: it
    still writes one row per watched symbol, each with an empty price and
    an empty [as_at], and returns 0. *)
Theorem X11_no_lookback_no_fetch :
  forall w lookback,
    read_watchlist (watchlist_file w) <> [] ->
    py_int (getenv (JSE_LOOKBACK_DAYS w) "10") = Some lookback ->
    lookback <= 0 ->
    ending (main w) = inr 0 /\
    calls (retrieval (main w)) = [] /\
    prices_csv (main w)
      = Some (map (fun sym => mkRow sym None "" JSE_DAILY_PDF)
                  (read_watchlist (watchlist_file w))).
Proof.
  intros w lookback Hs Hl Hn. unfold main, latest_trading_date_iso.
  rewrite Hl, (range0_nonpos lookback Hn). simpl.
  destruct (read_watchlist (watchlist_file w)) as [|s l]; [done|].
  split; [done|]. split; [done|]. simpl. f_equal.
Qed.

Lemma X11_witness :
  read_watchlist (watchlist_file
     (mkWorld watch_AAA_BBB None (Some "0") None 738950 two_markets)) <> [] /\
  prices_csv (main (mkWorld watch_AAA_BBB None (Some "0") None 738950 two_markets))
    = Some [mkRow "AAA" None "" JSE_DAILY_PDF; mkRow "BBB" None "" JSE_DAILY_PDF].
Proof.
  assert (read_watchlist (watchlist_file
     (mkWorld watch_AAA_BBB None (Some "0") None 738950 two_markets)) <> []) as Hs
    by (by vm_compute).
  split; [exact Hs|].
  destruct (X11_no_lookback_no_fetch
              (mkWorld watch_AAA_BBB None (Some "0") None 738950 two_markets) 0
              Hs eq_refl ltac:(lia)) as (_ & _ & Hcsv).
  rewrite Hcsv. by vm_compute.
Defined.

(** ** Faults, the end of the run and the amount of work *)

(** X12.  An attempt that ends in an exception, be it raised by the fetch
    or by the parse of the fetched document, is absorbed by the loop: it
    leaves the day's mapping, the result and the remembered label as
    they were, adds exactly one line naming the date, the market, the
    kind of exception and its message to the error list, and the loop
    goes on with the next market. *)
Theorem X12_faulty_attempt_only_adds_an_error_line :
  forall fetch symbols date_iso mid d st e,
    (fetch date_iso mid = inl e \/
     exists pdf_bytes,
       fetch date_iso mid = inr pdf_bytes /\ parse_quotes pdf_bytes symbols = inl e) ->
    let r := attempt fetch symbols date_iso mid d st in
    r.1.1 = d /\ r.2 = false /\
    errors r.1.2
      = errors st ++ [date_iso ++ " market " ++ int_str mid ++ ": " ++ exn_type e
                      ++ ": " ++ exn_str e]%string /\
    best_quotes r.1.2 = best_quotes st /\ used_date r.1.2 = used_date st /\
    used_as_at r.1.2 = used_as_at st.
Proof.
  intros fetch symbols date_iso mid d st e H. cbv zeta.
  destruct (attempt_fault_is_logged fetch symbols date_iso mid d st) as [H1 H2].
  destruct H as [Hf|(pdf_bytes & Hf & Hp)].
  - by rewrite (H1 e Hf).
  - by rewrite (H2 pdf_bytes e Hf Hp).
Qed.

Lemma X12_witness :
  two_markets "2024-03-05" 32 = inl http_404 /\
  errors (attempt two_markets ["AAA"] "2024-03-05" 32 initial_day initial_state).1.2
    = ["2024-03-05 market 32: RuntimeError: HTTP 404 fetching quote page"] /\
  errors (attempt (fun _ _ => inr (Unreadable (Exn "PDFSyntaxError" "No /Root object!")))
            ["AAA"] "2024-03-05" 32 initial_day initial_state).1.2
    = ["2024-03-05 market 32: PDFSyntaxError: No /Root object!"].
Proof.
  split; [reflexivity|]. split.
  - destruct (X12_faulty_attempt_only_adds_an_error_line two_markets ["AAA"]
                "2024-03-05" 32 initial_day initial_state http_404
                (or_introl eq_refl)) as (_ & _ & He & _).
    rewrite He. reflexivity.
  - destruct (X12_faulty_attempt_only_adds_an_error_line
                (fun _ _ => inr (Unreadable (Exn "PDFSyntaxError" "No /Root object!")))
                ["AAA"] "2024-03-05" 32 initial_day initial_state
                (Exn "PDFSyntaxError" "No /Root object!")
                (or_intror (ex_intro _ _ (conj eq_refl eq_refl)))) as (_ & _ & He & _).
    rewrite He. reflexivity.
Defined.

(** X13.  The run returns 2, writing nothing but the complaint on the
    error stream, exactly when the watchlist is empty (no file, or a file
    without entries); with a watchlist and a lookback setting that reads
    as an integer within the calendar it returns 0 and writes one row
    per symbol, whatever the fetches did. *)
Theorem X13_return_codes :
  forall w,
    (ending (main w) = inr 2 <-> read_watchlist (watchlist_file w) = []) /\
    (read_watchlist (watchlist_file w) = [] ->
     prices_csv (main w) = None /\ stdout (main w) = [] /\
     stderr (main w) = ["No symbols in watchlist.txt"]) /\
    (forall lookback,
       read_watchlist (watchlist_file w) <> [] ->
       py_int (getenv (JSE_LOOKBACK_DAYS w) "10") = Some lookback ->
       lookback <= today w ->
       ending (main w) = inr 0 /\
       exists rows,
         prices_csv (main w) = Some rows /\
         map row_symbol rows = read_watchlist (watchlist_file w)).
Proof.
  intros w. split_and!.
  - apply main_endings.
  - intros Hs. unfold main. by rewrite Hs.
  - intros lookback Hs Hl Ht. rewrite (main_ok w lookback Hs Hl Ht). simpl.
    split; [done|]. eexists. split; [done|]. apply make_rows_symbols.
Qed.

Lemma X13_witness :
  ending (main (mkWorld None None None None 738950 two_markets)) = inr 2 /\
  ending (main (mkWorld (Some (join newline ["# none"; "  "])) None None None
                  738950 two_markets)) = inr 2 /\
  ending (main world_dated_but_empty) = inr 0.
Proof.
  split; [by apply (proj1 (X13_return_codes _))|].
  split; [apply (proj1 (X13_return_codes _)); by vm_compute|].
  apply (proj2 (proj2 (X13_return_codes world_dated_but_empty)) 2).
  - by vm_compute.
  - reflexivity.
  - simpl. lia.
Defined.

Lemma state_eta st :
  st = mkState (errors st) (best_quotes st) (used_date st) (used_as_at st) (calls st).
Proof. by destruct st. Qed.

Lemma market_loop_all_fail fetch symbols (err : Z -> exn) date mids d st :
  (forall m, fetch date m = inl (err m)) ->
  market_loop fetch symbols date mids d st
    = (d, mkState (errors st ++ map (fun m => error_line date m (err m)) mids)
            (best_quotes st) (used_date st) (used_as_at st)
            (calls st ++ map (Call_fetch_pdf date) mids)).
Proof.
  intros Hf. revert st. induction mids as [|m mids IH]; intros st.
  - simpl. rewrite !app_nil_r. f_equal. apply state_eta.
  - simpl. unfold attempt. rewrite Hf. rewrite IH. simpl.
    by rewrite <- !app_assoc.
Qed.

Lemma date_loop_all_fail fetch symbols mids (err : string -> Z -> exn) dates st :
  (forall d m, fetch d m = inl (err d m)) ->
  best_quotes st = ∅ ->
  date_loop fetch symbols mids dates st
    = mkState
        (errors st ++ flat_map (fun d => map (fun m => error_line d m (err d m)) mids) dates)
        ∅ (used_date st) (used_as_at st)
        (calls st ++ flat_map (fun d => map (Call_fetch_pdf d) mids) dates).
Proof.
  intros Hf. revert st. induction dates as [|d dates IH]; intros st Hb.
  - simpl. rewrite !app_nil_r, <- Hb. apply state_eta.
  - simpl. rewrite (market_loop_all_fail fetch symbols (err d) d mids) by done.
    simpl. rewrite Hb, nonempty_dict_empty. rewrite IH by done. simpl.
    by rewrite <- !app_assoc.
Qed.

(** X14.  When every fetch fails, the run still ends well: it has tried
    every market on every candidate date, newest date first and markets
    in their order, has one error line for each of these attempts in
    that order, writes a row with empty price and empty [as_at] for
    every symbol, and returns 0. *)
Theorem X14_all_fetches_fail :
  forall w lookback (err : string -> Z -> exn),
    read_watchlist (watchlist_file w) <> [] ->
    py_int (getenv (JSE_LOOKBACK_DAYS w) "10") = Some lookback ->
    lookback <= today w ->
    (forall d m, fetch_pdf w d m = inl (err d m)) ->
    let mids := read_market_ids (JSE_MARKETS w) in
    ending (main w) = inr 0 /\
    calls (retrieval (main w))
      = flat_map (fun d => map (Call_fetch_pdf d) mids) (candidates w lookback) /\
    errors (retrieval (main w))
      = flat_map (fun d => map (fun m => error_line d m (err d m)) mids)
          (candidates w lookback) /\
    prices_csv (main w)
      = Some (map (fun sym => mkRow sym None "" JSE_DAILY_PDF)
                  (read_watchlist (watchlist_file w))).
Proof.
  intros w lookback err Hs Hl Ht Hf. cbv zeta.
  rewrite (main_ok w lookback Hs Hl Ht). simpl.
  rewrite (date_loop_all_fail _ _ _ err) by done. simpl.
  by split_and!.
Qed.

Lemma X14_witness :
  (forall d m, fetch_pdf
     (mkWorld watch_AAA_BBB (Some "31,32") (Some "2") None 738950
        (fun _ _ => inl http_404)) d m = inl http_404) /\
  errors (retrieval (main
     (mkWorld watch_AAA_BBB (Some "31,32") (Some "2") None 738950
        (fun _ _ => inl http_404))))
    = ["2024-03-05 market 31: RuntimeError: HTTP 404 fetching quote page";
       "2024-03-05 market 32: RuntimeError: HTTP 404 fetching quote page";
       "2024-03-04 market 31: RuntimeError: HTTP 404 fetching quote page";
       "2024-03-04 market 32: RuntimeError: HTTP 404 fetching quote page"].
Proof.
  split; [done|].
  destruct (X14_all_fetches_fail
              (mkWorld watch_AAA_BBB (Some "31,32") (Some "2") None 738950
                 (fun _ _ => inl http_404)) 2 (fun _ _ => http_404))
    as (_ & _ & He & _).
  - by vm_compute.
  - reflexivity.
  - simpl. lia.
  - done.
  - rewrite He. by vm_compute.
Defined.

Lemma merge_into_empty_l parsed : merge_into ∅ parsed = parsed.
Proof.
  apply map_eq. intros k. by rewrite merge_into_lookup, lookup_empty.
Qed.

(** X15.  When the document of the first market for today's date
    resolves every watched symbol, the run is over after that one fetch
    and that one parse: no other market and no older date is tried, and
    the result is that document's mapping, tagged with today's date. *)
Theorem X15_full_coverage_at_once_stops_the_search :
  forall w lookback m1 later pdf_bytes parsed label,
    read_watchlist (watchlist_file w) <> [] ->
    py_int (getenv (JSE_LOOKBACK_DAYS w) "10") = Some lookback ->
    1 <= lookback <= today w ->
    read_market_ids (JSE_MARKETS w) = m1 :: later ->
    fetch_pdf w (isoformat (today w)) m1 = inr pdf_bytes ->
    parse_quotes pdf_bytes (read_watchlist (watchlist_file w)) = inr (parsed, label) ->
    size parsed = length (read_watchlist (watchlist_file w)) ->
    calls (retrieval (main w))
      = [Call_fetch_pdf (isoformat (today w)) m1;
         Call_parse_quotes pdf_bytes (read_watchlist (watchlist_file w))] /\
    best_quotes (retrieval (main w)) = parsed /\
    used_date (retrieval (main w)) = isoformat (today w) /\
    errors (retrieval (main w)) = [].
Proof.
  intros w lookback m1 later pdf_bytes parsed label Hs Hl Ht Hm Hf Hp Hsize.
  rewrite (main_ok w lookback Hs Hl ltac:(lia)). simpl.
  destruct (range0_split lookback 0 ltac:(lia)) as [rest Hr].
  unfold candidates. rewrite Hr, Hm. simpl. rewrite Z.sub_0_r.
  unfold attempt. rewrite Hf, Hp. unfold after_parse.
  assert (nonempty_dict parsed = true) as Hne.
  { unfold nonempty_dict. rewrite Hsize.
    by destruct (read_watchlist (watchlist_file w)). }
  rewrite Hne. simpl. rewrite merge_into_empty_l, Hsize, Nat.eqb_refl. simpl.
  rewrite Hne. simpl. by destruct label.
Qed.

Lemma X15_witness :
  read_market_ids (JSE_MARKETS world_three_days) = [33; 31] /\
  calls (retrieval (main
     (mkWorld (Some "AAA") (Some "33,31") (Some "5") None 738950 two_markets)))
    = [Call_fetch_pdf "2024-03-05" 33;
       Call_parse_quotes (sheet ["Daily Quote Sheet March 5, 2024"; "AAA 10.25 10.50"])
         ["AAA"]].
Proof.
  split; [by vm_compute|].
  destruct (X15_full_coverage_at_once_stops_the_search
              (mkWorld (Some "AAA") (Some "33,31") (Some "5") None 738950 two_markets)
              5 33 [31]
              (sheet ["Daily Quote Sheet March 5, 2024"; "AAA 10.25 10.50"])
              (parse_lines (list_to_set ["AAA"]) "March 5, 2024"
                 ["Daily Quote Sheet March 5, 2024"; "AAA 10.25 10.50"] ∅)
              "March 5, 2024") as (Hc & _).
  - by vm_compute.
  - reflexivity.
  - simpl. lia.
  - by vm_compute.
  - by vm_compute.
  - by vm_compute.
  - by vm_compute.
  - rewrite Hc. by vm_compute.
Defined.

Lemma main_stderr w :
  read_watchlist (watchlist_file w) <> [] ->
  stderr (main w) = [] \/
  stderr (main w) = debug_lines w (retrieval (main w)).
Proof.
  intros Hs. unfold main.
  destruct (read_watchlist (watchlist_file w)) as [|s l]; [done|].
  destruct (py_int _); [|by left].
  destruct (latest_trading_date_iso _ _); [by left|by right].
Qed.

(** X16.  The diagnostics are silent unless asked for: with a watchlist,
    nothing is written on the error stream unless [DEBUG] is exactly [1]
    and some attempt failed, and then what is written is a heading and at
    most the first ten error lines, however many attempts failed. *)
Theorem X16_diagnostics_only_on_request :
  forall w,
    read_watchlist (watchlist_file w) <> [] ->
    (getenv (DEBUG w) "0" <> "1" -> stderr (main w) = []) /\
    (errors (retrieval (main w)) = [] -> stderr (main w) = []) /\
    (length (stderr (main w)) <= 11)%nat /\
    (stderr (main w) <> [] ->
     stderr (main w)
       = "Errors (first 10):"
         :: map (fun e => (" - " ++ e)%string) (take 10 (errors (retrieval (main w))))).
Proof.
  intros w Hs. destruct (main_stderr w Hs) as [->| ->]; [by split_and!; simpl; try lia|].
  unfold debug_lines.
  destruct (String.eqb_spec (getenv (DEBUG w) "0") "1") as [He|Hne]; simpl.
  - destruct (errors (retrieval (main w))) as [|e errs] eqn:Herr; simpl.
    + split_and!; try done; lia.
    + split_and!; try done.
      rewrite length_map, length_take.
      pose proof (Nat.le_min_l 9 (length errs)). lia.
  - split_and!; try done; simpl; lia.
Qed.

Lemma X16_witness :
  read_watchlist (watchlist_file
    (mkWorld watch_AAA_BBB (Some "31") (Some "12") (Some "1") 738950
       (fun _ _ => inl http_404))) <> [] /\
  length (errors (retrieval (main
    (mkWorld watch_AAA_BBB (Some "31") (Some "12") (Some "1") 738950
       (fun _ _ => inl http_404))))) = 12%nat /\
  length (stderr (main
    (mkWorld watch_AAA_BBB (Some "31") (Some "12") (Some "1") 738950
       (fun _ _ => inl http_404)))) = 11%nat /\
  stderr (main
    (mkWorld watch_AAA_BBB (Some "31") (Some "12") (Some "true") 738950
       (fun _ _ => inl http_404))) = [].
Proof.
  assert (read_watchlist (watchlist_file
    (mkWorld watch_AAA_BBB (Some "31") (Some "12") (Some "1") 738950
       (fun _ _ => inl http_404))) <> []) as Hs by (by vm_compute).
  split; [exact Hs|]. split; [by vm_compute|]. split; [by vm_compute|].
  apply (proj1 (X16_diagnostics_only_on_request
           (mkWorld watch_AAA_BBB (Some "31") (Some "12") (Some "true") 738950
              (fun _ _ => inl http_404)) Hs)).
  by vm_compute.
Defined.

Lemma fetches_app a b : fetches (a ++ b) = (fetches a + fetches b)%nat.
Proof. unfold fetches. by rewrite List.filter_app, length_app. Qed.

Lemma parses_app a b : parses (a ++ b) = (parses a + parses b)%nat.
Proof. unfold parses. by rewrite List.filter_app, length_app. Qed.

Lemma attempt_work fetch symbols date mid d st :
  exists new,
    calls (attempt fetch symbols date mid d st).1.2 = calls st ++ new /\
    fetches new = 1%nat /\ (parses new <= 1)%nat.
Proof.
  destruct (attempt_cases fetch symbols date mid d st)
    as [(e & _ & ->)|[(p & e & _ & _ & ->)|(p & parsed & label & Hf & _ & E)]].
  - exists [Call_fetch_pdf date mid]. simpl. split_and!; [done|done|]. 
    unfold parses. simpl. lia.
  - exists [Call_fetch_pdf date mid; Call_parse_quotes p symbols]. simpl.
    split_and!; [by rewrite <- app_assoc|done|done].
  - exists [Call_fetch_pdf date mid; Call_parse_quotes p symbols].
    rewrite (attempt_calls _ _ _ _ d st _ Hf). split_and!; done.
Qed.

Lemma market_loop_work fetch symbols date mids d st :
  exists new,
    calls (market_loop fetch symbols date mids d st).2 = calls st ++ new /\
    (fetches new <= length mids)%nat /\ (parses new <= fetches new)%nat.
Proof.
  revert d st. induction mids as [|mid mids IH]; intros d st.
  - exists []. simpl. rewrite app_nil_r. split_and!; done.
  - simpl. destruct (attempt_work fetch symbols date mid d st) as (n1 & Hc1 & Hf1 & Hp1).
    destruct (attempt fetch symbols date mid d st) as [[d1 st1] stop].
    simpl in Hc1. destruct stop.
    + exists n1. simpl. split_and!; [done|lia|lia].
    + destruct (IH d1 st1) as (n2 & Hc2 & Hf2 & Hp2).
      exists (n1 ++ n2). rewrite Hc2, Hc1, <- app_assoc, fetches_app, parses_app.
      split_and!; [done|lia|lia].
Qed.

Lemma date_loop_work fetch symbols mids dates st :
  exists new,
    calls (date_loop fetch symbols mids dates st) = calls st ++ new /\
    (fetches new <= length dates * length mids)%nat /\
    (parses new <= fetches new)%nat.
Proof.
  revert st. induction dates as [|date dates IH]; intros st.
  - exists []. simpl. rewrite app_nil_r. split_and!; done.
  - simpl.
    destruct (market_loop_work fetch symbols date mids initial_day st)
      as (n1 & Hc1 & Hf1 & Hp1).
    destruct (market_loop fetch symbols date mids initial_day st) as [dy st1].
    simpl in Hc1.
    destruct (nonempty_dict (best_quotes st1));
      [exists n1; split_and!; [done|lia|lia]|].
    destruct (got_any dy && nonempty_dict (combined dy))%bool;
      [exists n1; split_and!; [done|lia|lia]|].
    destruct (IH st1) as (n2 & Hc2 & Hf2 & Hp2).
    exists (n1 ++ n2). rewrite Hc2, Hc1, <- app_assoc, fetches_app, parses_app.
    split_and!; [done|lia|lia].
Qed.

Lemma dates_back_length today ds dates :
  dates_back today ds = inr dates -> length dates = length ds.
Proof.
  revert dates. induction ds as [|x ds IH]; intros dates Hd; simpl in Hd.
  - by injection Hd as <-.
  - destruct (date_minus today x); [done|].
    destruct (dates_back today ds) as [|rest]; [done|].
    injection Hd as <-. simpl. f_equal. by apply IH.
Qed.

(** X17.  The work of a run is bounded by its settings: it makes at most
    one fetch per candidate date and market, that is at most lookback
    times the number of markets, and never parses more documents than it
    fetched. *)
Theorem X17_bounded_number_of_fetches :
  forall w lookback,
    py_int (getenv (JSE_LOOKBACK_DAYS w) "10") = Some lookback ->
    (fetches (calls (retrieval (main w)))
       <= Z.to_nat lookback * length (read_market_ids (JSE_MARKETS w)))%nat /\
    (parses (calls (retrieval (main w))) <= fetches (calls (retrieval (main w))))%nat.
Proof.
  intros w lookback Hl. unfold main. rewrite Hl.
  destruct (read_watchlist (watchlist_file w)) as [|s l] eqn:Hs;
    [simpl; split; unfold fetches, parses; simpl; lia|].
  destruct (latest_trading_date_iso (today w) lookback) as [e|dates] eqn:Hd;
    [simpl; split; unfold fetches, parses; simpl; lia|].
  simpl.
  destruct (date_loop_work (fetch_pdf w) (s :: l) (read_market_ids (JSE_MARKETS w))
              dates initial_state) as (new & -> & Hf & Hp).
  simpl.
  apply dates_back_length in Hd. rewrite range0_length in Hd.
  by rewrite <- Hd.
Qed.

Lemma X17_witness :
  py_int (getenv (JSE_LOOKBACK_DAYS world_three_days) "10") = Some 3 /\
  fetches (calls (retrieval (main world_three_days))) = 4%nat /\
  parses (calls (retrieval (main world_three_days))) = 1%nat /\
  (fetches (calls (retrieval (main world_three_days))) <= 3 * 2)%nat.
Proof.
  split; [reflexivity|]. split; [by vm_compute|]. split; [by vm_compute|].
  exact (proj1 (X17_bounded_number_of_fetches world_three_days 3 eq_refl)).
Defined.

(** ** The merge and the result *)

(** X18.  Merging a parse into the per-date mapping is the union of the
    two mappings in which the per-date mapping has precedence: it gains
    the symbols it did not have and keeps its own quote for the others. *)
Theorem X18_merge_is_left_biased_union :
  forall combined parsed : gmap string Quote,
    merge_into combined parsed = combined ∪ parsed /\
    dom (merge_into combined parsed) = dom combined ∪ dom parsed.
Proof.
  intros combined parsed.
  assert (merge_into combined parsed = combined ∪ parsed) as ->.
  { apply map_eq. intros k. rewrite merge_into_lookup, lookup_union.
    by destruct (combined !! k), (parsed !! k). }
  split; [done|]. apply dom_union_L.
Qed.

Section ResultInvariant.

Variable fetch : string -> Z -> exn + pdf.
Variable symbols : list string.
Variable mids : list Z.
Variable P : string -> Quote -> Prop.
Hypothesis parsed_ok :
  forall pdf_bytes parsed label k q,
    parse_quotes pdf_bytes symbols = inr (parsed, label) ->
    parsed !! k = Some q -> P k q.

Lemma attempt_inv date mid d st :
  (forall k q, combined d !! k = Some q -> P k q) ->
  forall k q,
    combined (attempt fetch symbols date mid d st).1.1 !! k = Some q -> P k q.
Proof.
  intros Hd k q.
  destruct (attempt_cases fetch symbols date mid d st)
    as [(e & _ & ->)|[(p & e & _ & _ & ->)|(p & parsed & label & _ & Hp & ->)]];
    [apply Hd|apply Hd|].
  match goal with |- context [after_parse ?s ?dt ?pa ?l ?d0 ?st0] =>
    destruct (after_parse_spec s dt pa l d0 st0) as (-> & _) end.
  destruct (nonempty_dict parsed); [|apply Hd].
  rewrite merge_into_lookup. destruct (combined d !! k) as [q'|] eqn:Hk.
  - intros [= <-]. by apply Hd.
  - by apply (parsed_ok p parsed label).
Qed.

Lemma market_loop_inv date ms d st :
  (forall k q, combined d !! k = Some q -> P k q) ->
  forall k q,
    combined (market_loop fetch symbols date ms d st).1 !! k = Some q -> P k q.
Proof.
  revert d st. induction ms as [|mid ms IH]; intros d st Hd; [done|].
  simpl. pose proof (attempt_inv date mid d st Hd) as H.
  destruct (attempt fetch symbols date mid d st) as [[d1 st1] stop].
  simpl in H. destruct stop; [done|]. by apply IH.
Qed.

Lemma date_loop_inv dates st :
  (forall k q, best_quotes st !! k = Some q -> P k q) ->
  forall k q,
    best_quotes (date_loop fetch symbols mids dates st) !! k = Some q -> P k q.
Proof.
  revert st. induction dates as [|date dates IH]; intros st Hst; [done|].
  simpl.
  pose proof (market_loop_step fetch symbols date mids initial_day st) as Hstep.
  pose proof (market_loop_inv date mids initial_day st) as Hinv.
  destruct (market_loop fetch symbols date mids initial_day st) as [dy st1].
  simpl in Hstep, Hinv.
  assert (forall k q, combined dy !! k = Some q -> P k q) as Hdy.
  { apply Hinv. intros k q Hk. simpl in Hk. by rewrite lookup_empty in Hk. }
  assert (forall k q, best_quotes st1 !! k = Some q -> P k q) as Hst1.
  { destruct Hstep as (_ & _ & [[-> _]|[-> _]] & _); done. }
  destruct (nonempty_dict (best_quotes st1)); [done|].
  destruct (got_any dy && nonempty_dict (combined dy))%bool; [done|].
  by apply IH.
Qed.

End ResultInvariant.

(** X19.  Whatever the documents hold, every entry of the final result
    of a run is filed under a symbol of the watchlist and is a quote for
    that very symbol with the fixed source tag: a row never shows the
    price of another symbol. *)
Theorem X19_result_entries_belong_to_their_symbol :
  forall w k q,
    best_quotes (retrieval (main w)) !! k = Some q ->
    In k (read_watchlist (watchlist_file w)) /\ symbol q = k /\
    source q = JSE_DAILY_PDF.
Proof.
  intros w k q.
  destruct (main_retrieval w) as [->|[dates ->]].
  { simpl. by rewrite lookup_empty. }
  apply (date_loop_inv (fetch_pdf w) (read_watchlist (watchlist_file w))
           (read_market_ids (JSE_MARKETS w))
           (fun k q => In k (read_watchlist (watchlist_file w)) /\ symbol q = k /\
                       source q = JSE_DAILY_PDF)).
  - intros [e|texts] parsed label k' q' Hp Hq; [done|].
    by apply (parse_quotes_entry texts _ parsed label).
  - intros k' q' Hq. simpl in Hq. by rewrite lookup_empty in Hq.
Qed.

Lemma X19_witness :
  best_quotes (retrieval (main world_three_days)) !! "AAA"
    = Some (mkQuote "AAA" (Some (21 # 2)%Q) "March 4, 2024" JSE_DAILY_PDF) /\
  In "AAA" (read_watchlist (watchlist_file world_three_days)).
Proof.
  assert (best_quotes (retrieval (main world_three_days)) !! "AAA"
    = Some (mkQuote "AAA" (Some (21 # 2)%Q) "March 4, 2024" JSE_DAILY_PDF)) as Hq
    by (by vm_compute).
  split; [exact Hq|].
  exact (proj1 (X19_result_entries_belong_to_their_symbol world_three_days "AAA" _ Hq)).
Defined.

(** ** The link to the document *)

Lemma one_sem cls p q :
  sem_item (one cls) p q <-> exists c, cls c = true /\ advance p [c] q.
Proof.
  unfold one. simpl. split.
  - intros (m & Hm & Hlo & Hhi & A). destruct m as [|c [|? ?]]; simpl in *; try lia.
    exists c. split; [|done]. by rewrite andb_true_r in Hm.
  - intros (c & Hc & A). exists [c]. simpl. rewrite Hc. split_and!; try done; lia.
Qed.

Lemma href_sem l r q :
  sem PDF_HREF_RE (l, r) q <->
  exists m link post,
    r = m ++ post /\ q = (rev m ++ l, post) /\ href_shape m link.
Proof.
  unfold PDF_HREF_RE. cbn [sem]. repeat setoid_rewrite one_sem.
  cbn [sem_item]. split.
  - intros (p1 & (h & Hh & A1) & p2 & (r0 & Hr & A2) & p3 & (e & He & A3) & p4 &
      (f & Hf & A4) & p5 & A5 & p6 & (q1 & Hq1 & A6) & p7 &
      (a & Fa & La & _ & A7) & p8 & A8 & p9 & (p & Hp & A9) & p10 &
      (d & Hd & A10) & p11 & (f' & Hf' & A11) & p12 & (b & Fb & _ & _ & A12) &
      p13 & (q2 & Hq2 & A13) & ->).
    pose proof (advance_trans _ _ _ _ _ A12 A13) as B.
    pose proof (advance_trans _ _ _ _ _ A11 B) as B1.
    pose proof (advance_trans _ _ _ _ _ A10 B1) as B2.
    pose proof (advance_trans _ _ _ _ _ A9 B2) as B3.
    pose proof (advance_trans _ _ _ _ _ A8 B3) as B4.
    pose proof (advance_trans _ _ _ _ _ A7 B4) as B5.
    pose proof (advance_trans _ _ _ _ _ A6 B5) as B6.
    pose proof (advance_trans _ _ _ _ _ A5 B6) as B7.
    pose proof (advance_trans _ _ _ _ _ A4 B7) as B8.
    pose proof (advance_trans _ _ _ _ _ A3 B8) as B9.
    pose proof (advance_trans _ _ _ _ _ A2 B9) as B10.
    pose proof (advance_trans _ _ _ _ _ A1 B10) as (post & Hpost & ->).
    cbn [fst snd] in Hpost. subst r.
    eexists _, (a ++ ["."%char; p; d; f'] ++ b), post.
    split; [reflexivity|]. split; [reflexivity|].
    exists h, r0, e, f, q1, a, p, d, f', b, q2. split_and!; try done.
    + simpl. by rewrite <- !app_assoc.
    + by apply length_nonnil.
  - intros (m & link & post & -> & -> &
      (h & r0 & e & f & q1 & a & p & d & f' & b & q2 & -> & -> & Hh & Hr & He & Hf &
       Hq1 & Na & Fa & Hp & Hd & Hf' & Fb & Hq2)).
    assert ([h; r0; e; f; "="%char; q1] ++ (a ++ ["."%char; p; d; f'] ++ b) ++ [q2]
            = [h] ++ [r0] ++ [e] ++ [f] ++ chars "=" ++ [q1] ++ a ++ chars "." ++
              [p] ++ [d] ++ [f'] ++ b ++ [q2]) as ->.
    { simpl. by rewrite <- !app_assoc. }
    set (whole := [h] ++ [r0] ++ [e] ++ [f] ++ chars "=" ++ [q1] ++ a ++ chars "." ++
                  [p] ++ [d] ++ [f'] ++ b ++ [q2]).
    assert (advance (l, whole ++ post) whole (rev whole ++ l, post)) as A
      by (by exists post).
    unfold whole in A at 2.
    apply advance_app_inv in A as [A1 A].
    apply advance_app_inv in A as [A2 A].
    apply advance_app_inv in A as [A3 A].
    apply advance_app_inv in A as [A4 A].
    apply advance_app_inv in A as [A5 A].
    apply advance_app_inv in A as [A6 A].
    apply advance_app_inv in A as [A7 A].
    apply advance_app_inv in A as [A8 A].
    apply advance_app_inv in A as [A9 A].
    apply advance_app_inv in A as [A10 A].
    apply advance_app_inv in A as [A11 A].
    apply advance_app_inv in A as [A12 A13].
    eexists. split; [exists h; split; [done|exact A1]|].
    eexists. split; [exists r0; split; [done|exact A2]|].
    eexists. split; [exists e; split; [done|exact A3]|].
    eexists. split; [exists f; split; [done|exact A4]|].
    eexists. split; [exact A5|].
    eexists. split; [exists q1; split; [done|exact A6]|].
    eexists. split.
    { exists a. split_and!; [done|by apply nonnil_length|done|exact A7]. }
    eexists. split; [exact A8|].
    eexists. split; [exists p; split; [done|exact A9]|].
    eexists. split; [exists d; split; [done|exact A10]|].
    eexists. split; [exists f'; split; [done|exact A11]|].
    eexists. split.
    { exists b. split_and!; [done|lia|done|exact A12]. }
    eexists. split; [exists q2; split; [done|exact A13]|].
    reflexivity.
Qed.

Lemma group1_shape m link : href_shape m link -> group1 (str m) = str link.
Proof.
  intros (h & r & e & f & q1 & a & p & d & f' & b & q2 & -> & _).
  unfold group1. rewrite chars_str. f_equal. simpl.
  rewrite drop_0, length_app. simpl.
  replace (length link + 1 - 1)%nat with (length link) by lia.
  by rewrite take_app_length.
Qed.

Lemma pdf_letters_no_quote x :
  (letter "p" x || letter "d" x || letter "f" x)%bool = true -> not_quote x = true.
Proof. destruct x as [[] [] [] [] [] [] [] []]; by vm_compute. Qed.

Lemma href_shape_link m link :
  href_shape m link -> link <> [] /\ forallb not_quote link = true.
Proof.
  intros (h & r & e & f & q1 & a & p & d & f' & b & q2 & _ & -> & _ & _ & _ & _ &
          _ & Na & Fa & Hp & Hd & Hf & Fb & _).
  split; [by destruct a|].
  rewrite !forallb_app, Fa, Fb. simpl.
  rewrite (pdf_letters_no_quote p), (pdf_letters_no_quote d),
    (pdf_letters_no_quote f'); [done|..].
  - by rewrite Hf, !orb_true_r.
  - by rewrite Hd, orb_true_r.
  - by rewrite Hp.
Qed.

Lemma href_occurs_run html pre m link post :
  chars html = pre ++ m ++ post -> href_shape m link ->
  In (rev m ++ rev pre ++ [], post) (Re.run PDF_HREF_RE (rev pre ++ [], m ++ post)).
Proof.
  intros _ Hs. apply run_spec, href_sem. by exists m, link, post.
Qed.

(** X20.  [extract_pdf_link] returns the target of the leftmost [href]
    attribute, written in any letter case and closed by either quotation
    mark, whose value holds [.pdf] (in any letter case) after at least
    one character; it returns nothing exactly when the page has no such
    attribute.  The link returned is never empty and holds no quotation
    mark. *)
Theorem X20_extract_pdf_link :
  forall html,
    (extract_pdf_link html = None /\
     forall pre m link post,
       chars html = pre ++ m ++ post -> ~ href_shape m link) \/
    (exists pre m link post,
       extract_pdf_link html = Some (str link) /\
       chars html = pre ++ m ++ post /\ href_shape m link /\
       link <> [] /\ forallb not_quote link = true /\
       forall pre' m' link' post',
         chars html = pre' ++ m' ++ post' -> href_shape m' link' ->
         (length pre <= length pre')%nat).
Proof.
  intros html. unfold extract_pdf_link, Re.search.
  destruct (Re.search_from PDF_HREF_RE [] (chars html)) as [[p q]|] eqn:E; simpl.
  - right. apply search_from_Some in E as (pre & post0 & Ht & -> & Hq & Hmin).
    assert (In q (Re.run PDF_HREF_RE (rev pre ++ [], post0))) as Hin.
    { destruct (Re.run PDF_HREF_RE (rev pre ++ [], post0)); [done|].
      injection Hq as ->. by left. }
    apply run_spec, href_sem in Hin as (m & link & post & -> & -> & Hshape).
    rewrite (matched_advance _ m) by (by exists post).
    exists pre, m, link, post.
    destruct (href_shape_link m link Hshape) as [Hne Hnq].
    split_and!; try done.
    + by rewrite (group1_shape m link).
    + intros pre' m' link' post' Ht' Hs'.
      destruct (le_lt_dec (length pre) (length pre')) as [|Hlt]; [done|].
      pose proof (href_occurs_run html pre' m' link' post' Ht' Hs') as Hin.
      by rewrite (Hmin pre' (m' ++ post') Ht' Hlt) in Hin.
  - left. split; [done|]. intros pre m link post Ht Hs.
    pose proof (href_occurs_run html pre m link post Ht Hs) as Hin.
    by rewrite (search_from_None _ _ _ E pre (m ++ post) Ht) in Hin.
Qed.

(** ** The fetcher *)

(** X21.  What [fetch_pdf] hands over is a document as far as it can
    tell: the bytes either were answered directly, with a success status
    and with a content type that mentions pdf (in any letter case) or
    with the bytes [%PDF] in front, or they were answered, with a success
    status and with [%PDF] in front, to a second request, made for the
    link found in the page of the first answer.  A page that reaches the
    caller through a link therefore always starts with [%PDF]. *)
Theorem X21_fetch_pdf_returns_a_document :
  forall get decode urljoin date_iso market_id pdf_bytes,
    Http.fetch_pdf get decode urljoin date_iso market_id = inr pdf_bytes ->
    let url := Http.quote_url date_iso market_id in
    exists resp,
      get 0%nat url = inr resp /\ Http.ok resp = true /\
      ((Http.body resp = pdf_bytes /\
        (contains "pdf" (Http.ctype_of resp) = true \/ Http.is_pdf pdf_bytes = true)) \/
       (contains "pdf" (Http.ctype_of resp) = false /\
        Http.is_pdf (Http.body resp) = false /\
        exists link resp2,
          extract_pdf_link (decode (Http.body resp)) = Some link /\ link <> "" /\
          get 1%nat (urljoin url link) = inr resp2 /\ Http.ok resp2 = true /\
          Http.body resp2 = pdf_bytes /\ Http.is_pdf pdf_bytes = true)).
Proof.
  intros get decode urljoin date_iso market_id pdf_bytes. unfold Http.fetch_pdf.
  destruct (get 0%nat (Http.quote_url date_iso market_id)) as [e|resp]; [done|].
  destruct (Http.ok resp) eqn:Hok; simpl; [|done].
  intros H. exists resp. split; [done|]. split; [done|].
  destruct (contains "pdf" (Http.ctype_of resp)) eqn:Hc; simpl in H.
  { injection H as <-. left. auto. }
  destruct (Http.is_pdf (Http.body resp)) eqn:Hb; simpl in H.
  { injection H as <-. left. auto. }
  right. split; [done|]. split; [done|].
  destruct (extract_pdf_link (decode (Http.body resp))) as [link|]; [|done].
  destruct (nonempty link) eqn:Hn; simpl in H; [|done].
  destruct (get 1%nat (urljoin (Http.quote_url date_iso market_id) link))
    as [e|resp2] eqn:Hg; [done|].
  destruct (Http.ok resp2) eqn:Hok2; simpl in H; [|done].
  destruct (Http.is_pdf (Http.body resp2)) eqn:Hb2; simpl in H; [|done].
  injection H as <-. exists link, resp2. split_and!; try done.
  by apply nonempty_true.
Qed.

Lemma X21_witness :
  Http.fetch_pdf wrapper_site (fun b => b)
    (fun _ link => ("https://www.jamstockex.com" ++ link)%string) "2024-03-05" 31
    = inr "%PDF-1.7 ..." /\
  exists resp,
    wrapper_site 0 (Http.quote_url "2024-03-05" 31) = inr resp /\
    Http.ok resp = true /\
    ((Http.body resp = "%PDF-1.7 ..." /\
      (contains "pdf" (Http.ctype_of resp) = true \/ Http.is_pdf "%PDF-1.7 ..." = true)) \/
     (contains "pdf" (Http.ctype_of resp) = false /\
      Http.is_pdf (Http.body resp) = false /\
      exists link resp2,
        extract_pdf_link (Http.body resp) = Some link /\ link <> "" /\
        wrapper_site 1 ("https://www.jamstockex.com" ++ link)%string = inr resp2 /\
        Http.ok resp2 = true /\
        Http.body resp2 = "%PDF-1.7 ..." /\ Http.is_pdf "%PDF-1.7 ..." = true)).
Proof.
  assert (Http.fetch_pdf wrapper_site (fun b => b)
    (fun _ link => ("https://www.jamstockex.com" ++ link)%string) "2024-03-05" 31
    = inr "%PDF-1.7 ...") as H by (by vm_compute).
  split; [exact H|].
  exact (X21_fetch_pdf_returns_a_document wrapper_site (fun b => b)
           (fun _ link => ("https://www.jamstockex.com" ++ link)%string)
           "2024-03-05" 31 "%PDF-1.7 ..." H).
Defined.

(** X22.  A site that refuses every date page (a status outside 200 to
    299) makes no attempt succeed, and the run says so: its error list
    has, for every candidate date and market in the order tried, the line
    with the date, the market and the refused status; every row is
    written with an empty price and [as_at], and the run returns 0. *)
Theorem X22_site_refuses_every_page :
  forall watchlist markets lookback_setting debug today get decode urljoin open_pdf
         lookback (answer : string -> Http.response),
    let w := http_world watchlist markets lookback_setting debug today get decode
               urljoin open_pdf in
    read_watchlist watchlist <> [] ->
    py_int (getenv lookback_setting "10") = Some lookback ->
    lookback <= today ->
    (forall url, get 0%nat url = inr (answer url) /\ Http.ok (answer url) = false) ->
    ending (main w) = inr 0 /\
    errors (retrieval (main w))
      = flat_map
          (fun d =>
             map (fun m =>
                    d ++ " market " ++ int_str m ++ ": RuntimeError: HTTP "
                    ++ int_str (Http.status (answer (Http.quote_url d m)))
                    ++ " fetching quote page")%string
                 (read_market_ids markets))
          (candidates w lookback) /\
    prices_csv (main w)
      = Some (map (fun sym => mkRow sym None "" JSE_DAILY_PDF)
                  (read_watchlist watchlist)).
Proof.
  intros watchlist markets lookback_setting debug today get decode urljoin open_pdf
    lookback answer w Hs Hl Ht Hget.
  rewrite (main_ok w lookback Hs Hl Ht). simpl.
  rewrite (date_loop_all_fail _ _ _
             (fun d m => Http.RuntimeError
                ("HTTP " ++ int_str (Http.status (answer (Http.quote_url d m)))
                 ++ " fetching quote page"))); [by split_and!| |done].
  intros d m. unfold Http.fetch_pdf.
  destruct (Hget (Http.quote_url d m)) as [-> ->]. done.
Qed.

Lemma X22_witness :
  errors (retrieval (main
    (http_world watch_AAA_BBB (Some "31") (Some "2") None 738950
       (fun _ _ => inr (Http.mkResponse 503 "busy" ∅)) (fun b => b)
       (fun _ link => link) (fun _ => Pages []))))
    = ["2024-03-05 market 31: RuntimeError: HTTP 503 fetching quote page";
       "2024-03-04 market 31: RuntimeError: HTTP 503 fetching quote page"].
Proof.
  destruct (X22_site_refuses_every_page watch_AAA_BBB (Some "31") (Some "2") None
              738950 (fun _ _ => inr (Http.mkResponse 503 "busy" ∅)) (fun b => b)
              (fun _ link => link) (fun _ => Pages []) 2
              (fun _ => Http.mkResponse 503 "busy" ∅)) as (_ & He & _).
  - by vm_compute.
  - reflexivity.
  - lia.
  - done.
  - rewrite He. by vm_compute.
Defined.

(** ** More on tokens and their normalisation *)









Lemma parse_lines_app_noise want label lines1 line lines2 out :
  (forall t, In t (tokens line) ->
     bool_decide (norm_sym t ∈ want) = false) ->
  parse_lines want label (lines1 ++ line :: lines2) out
    = parse_lines want label (lines1 ++ lines2) out.
Proof.
  intros Hline. revert out. induction lines1 as [|l lines1 IH]; intros out; simpl.
  - rewrite parse_line_no_anchor; [done|].
    rewrite find_anchor_scan. apply scan_later_None. intros t Ht%list_elem_of_In.
    unfold wanted_unresolved. by rewrite (Hline t Ht).
  - destruct (parse_line want label out l) as [out' stop]. destruct stop; [done|].
    apply IH.
Qed.

(** X24.  Lines that name no wanted symbol are noise: a heading, a
    total, a quote of an unwatched symbol can be added to or removed
    from a document, anywhere, without changing what the line loop
    resolves. *)
Theorem X24_lines_without_wanted_symbol_do_not_matter :
  forall want label lines1 line lines2 out,
    (forall t, In t (tokens line) -> norm_sym t ∉ want) ->
    parse_lines want label (lines1 ++ line :: lines2) out
      = parse_lines want label (lines1 ++ lines2) out.
Proof.
  intros want label lines1 line lines2 out Hline.
  apply parse_lines_app_noise. intros t Ht.
  apply bool_decide_eq_false. by apply Hline.
Qed.

Lemma X24_witness :
  (forall t, In t (tokens "ZZZ 1.00 2.00") -> norm_sym t ∉ ({["AAA"]} : gset string)) /\
  parse_lines {["AAA"]} "" (["Main Market"] ++ "ZZZ 1.00 2.00" :: ["AAA 3.00 4.00"]) ∅
    = parse_lines {["AAA"]} "" (["Main Market"] ++ ["AAA 3.00 4.00"]) ∅.
Proof.
  assert (forall t, In t (tokens "ZZZ 1.00 2.00") ->
            norm_sym t ∉ ({["AAA"]} : gset string)) as H.
  { intros t Ht.
    replace (tokens "ZZZ 1.00 2.00") with ["ZZZ"; "1.00"; "2.00"] in Ht
      by (by vm_compute).
    simpl in Ht.
    destruct Ht as [<-|[<-|[<-|[]]]];
      apply (bool_decide_eq_false_1 (_ ∈ ({["AAA"]} : gset string)));
      by vm_compute. }
  split; [exact H|].
  exact (X24_lines_without_wanted_symbol_do_not_matter {["AAA"]} ""
           ["Main Market"] "ZZZ 1.00 2.00" ["AAA 3.00 4.00"] ∅ H).
Defined.

(** X25.  The tokens of a line are its maximal runs of characters that
    are no whitespace: none is empty, none holds whitespace, and a line
    of whitespace alone has no token. *)
Theorem X25_tokens_are_nonempty_and_free_of_whitespace :
  forall line,
    (forall t, In t (tokens line) ->
       t <> "" /\ forall c, In c (chars t) -> is_space c = false) /\
    (forallb is_space (chars line) = true -> tokens line = []).
Proof.
  intros line. split.
  - intros t Ht. split; [|intros c Hc; by apply (tokens_no_space line t c)].
    unfold tokens in Ht. apply List.filter_In in Ht as [_ Hn].
    by apply nonempty_true.
  - intros Hsp. apply tokens_blank.
    assert (chars (strip line) = []) as H.
    { rewrite strip_chars. unfold rstrip_by.
      rewrite (drop_while_all is_space (rev (chars line)))
        by (by rewrite forallb_rev).
      done. }
    apply (f_equal str) in H. rewrite str_chars in H. by rewrite H.
Qed.

Lemma X25_witness :
  In "10.50" (tokens "  AAA   10.25 10.50 ") /\
  ("10.50" <> "" /\ forall c, In c (chars "10.50") -> is_space c = false) /\
  tokens "  AAA   10.25 10.50 " = ["AAA"; "10.25"; "10.50"] /\
  tokens "   " = [].
Proof.
  assert (In "10.50" (tokens "  AAA   10.25 10.50 ")) as H
    by (vm_compute; auto).
  split; [exact H|].
  split; [exact (proj1 (X25_tokens_are_nonempty_and_free_of_whitespace _) "10.50" H)|].
  split; [by vm_compute|].
  apply (proj2 (X25_tokens_are_nonempty_and_free_of_whitespace "   ")). reflexivity.
Defined.
